(** * DoctorAppointmentBackend: the appointment lifecycle of the route handlers

    A shallow embedding of the Express/Mongoose route handlers of
    [routes/doctor.js] (the doctor routes and, after them, the admin routes)
    that create appointments, change their status, sweep the stale ones,
    compute the doctor dashboard and delete users, followed by the properties
    the specification states about them.

    Collections are lists of documents in insertion order, a handler is a
    function from the store to a response and a new store, and the clock and
    the identifier generator of a request are explicit inputs. *)

From Stdlib Require Import ZArith NArith List String Ascii Bool Lia.
From Stdlib Require Import DecimalString Permutation SpecFloat.
Import ListNotations.

Local Open Scope string_scope.
Local Open Scope list_scope.
Local Open Scope Z_scope.

(** ** Values *)

(** A Mongo [ObjectId], as the number it denotes.  Requests carry identifiers
    already cast: a string that is no ObjectId makes Mongoose throw before the
    store is read, which is outside this model. *)
Definition ObjectId := N.
Bind Scope N_scope with ObjectId.

(** A JavaScript [Date]: milliseconds since the epoch. *)
Definition Instant := Z.

(** JavaScript truthiness of a string-valued request field: [undefined]
    ([None]) and the empty string are falsy. *)
Definition truthy (v : option string) : bool :=
  match v with
  | Some s => negb (String.eqb s "")
  | None => false
  end.

(** [v || dflt] on an optional string. *)
Definition orString (v : option string) (dflt : string) : string :=
  match v with
  | Some s => if String.eqb s "" then dflt else s
  | None => dflt
  end.

(** *** Numbers

    A JavaScript Number is an IEEE 754 binary64 value: the executable
    specification of the standard library at precision 53, with the
    infinities at exponent 1024. *)
Definition Number := spec_float.

(** The Number a whole value denotes (the nearest one, ties to even, beyond
    2^53). *)
Definition num (z : Z) : Number := binary_normalize 53 1024 z 0 false.

(** [x * y] and [x + y] on Numbers. *)
Definition jsMul (x y : Number) : Number := SFmul 53 1024 x y.

Definition jsAdd (x y : Number) : Number := SFadd 53 1024 x y.

Arguments num : simpl never.
Arguments jsMul : simpl never.
Arguments jsAdd : simpl never.

Definition isNaN (x : Number) : bool :=
  match x with
  | S754_nan => true
  | _ => false
  end.

(** [n || 0] on an optional number: [undefined], both zeros and [NaN] are
    falsy. *)
Definition orZero (v : option Number) : Number :=
  match v with
  | Some (S754_finite s m e) => S754_finite s m e
  | Some (S754_infinity s) => S754_infinity s
  | Some (S754_zero _) | Some S754_nan | None => num 0
  end.

(** The mantissa [p] shifted left by [k] bits. *)
Definition shlP (p : positive) (k : Z) : positive :=
  match k with
  | Zpos d => Pos.iter xO p d
  | _ => p
  end.

(** [Array.prototype.includes] and Mongo's [$in] on strings. *)
Definition includes (l : list string) (s : string) : bool :=
  existsb (String.eqb s) l.

Arguments includes : simpl never.

(** *** Printing numbers and dates *)

Definition decimal (n : Z) : string :=
  NilZero.string_of_uint (N.to_uint (Z.to_N n)).

(** [String(n)] for a whole number [n] of at most 21 digits. *)
Definition showInt (n : Z) : string :=
  if n <? 0 then String.append "-" (decimal (- n)) else decimal n.

Fixpoint zeros (k : nat) : string :=
  match k with
  | O => ""
  | S k' => String "0" (zeros k')
  end.

(** [String(n).padStart(w, "0")] for a natural [n]. *)
Definition pad (w : nat) (n : Z) : string :=
  let s := decimal n in
  String.append (zeros (w - String.length s)) s.

Definition msPerDay : Z := 86400000.

(** Year, month and day of the proleptic Gregorian calendar from the number
    of days since 1970-01-01. *)
Definition civilFromDays (days : Z) : Z * Z * Z :=
  let z := days + 719468 in
  let era := z / 146097 in
  let doe := z - era * 146097 in
  let yoe := (doe - doe / 1460 + doe / 36524 - doe / 146096) / 365 in
  let doy := doe - (365 * yoe + yoe / 4 - yoe / 100) in
  let mp := (5 * doy + 2) / 153 in
  let d := doy - (153 * mp + 2) / 5 + 1 in
  let m := if mp <? 10 then mp + 3 else mp - 9 in
  let y := yoe + era * 400 in
  (if m <=? 2 then y + 1 else y, m, d).

(** [new Date(t).toISOString().split('T')[0]]: the UTC calendar date, with
    the six-digit signed year of ECMAScript outside years 0 to 9999.  Stored
    dates are valid [Date]s, so [toISOString] does not throw. *)
Definition isoDate (t : Instant) : string :=
  let '(y, m, d) := civilFromDays (t / msPerDay) in
  let year :=
    if (0 <=? y) && (y <=? 9999) then pad 4 y
    else String.append (if y <? 0 then "-" else "+") (pad 6 (Z.abs y)) in
  String.concat "-" [year; pad 2 m; pad 2 d].

(** ** Documents *)

Record User := mkUser {
  usr_id : ObjectId;
  name : string;
  email : string;
  phone : string;
  address : string;
  role : string
}.

Record Doctor := mkDoctor {
  doc_id : ObjectId;
  userId : ObjectId;
  specialization : string;
  qualification : string;
  experience : option Number;
  fees : option Number;
  profile_pic : option string
}.

Record Appointment := mkAppointment {
  _id : ObjectId;
  user_id : ObjectId;
  doctor_id : ObjectId;
  date : Instant;
  time : string;
  symptoms : string;
  notes : string;
  status : string;
  createdAt : Instant;
  updatedAt : Instant
}.

Record Admin := mkAdmin {
  adm_id : ObjectId;
  adm_user_id : ObjectId;
  permissions : list string
}.

Record Feedback := mkFeedback {
  fb_id : ObjectId;
  fb_user_id : ObjectId;
  fb_message : string
}.

Record Consultation := mkConsultation {
  con_id : ObjectId;
  patient_id : ObjectId;
  con_doctor_id : ObjectId;
  con_status : string;
  subject : string
}.

(** The database: one list per collection, oldest document first. *)
Record Store := mkStore {
  users : list User;
  doctors : list Doctor;
  appointments : list Appointment;
  admins : list Admin;
  feedbacks : list Feedback;
  consultations : list Consultation
}.

Definition withAppointments (st : Store) (l : list Appointment) : Store :=
  mkStore (users st) (doctors st) l (admins st) (feedbacks st) (consultations st).

Definition withUsers (st : Store) (l : list User) : Store :=
  mkStore l (doctors st) (appointments st) (admins st) (feedbacks st) (consultations st).

Definition withDoctors (st : Store) (l : list Doctor) : Store :=
  mkStore (users st) l (appointments st) (admins st) (feedbacks st) (consultations st).

Definition setStatus (a : Appointment) (s : string) (now : Instant) : Appointment :=
  mkAppointment (_id a) (user_id a) (doctor_id a) (date a) (time a)
                (symptoms a) (notes a) s (createdAt a) now.

(** Modelled from the spec: the [status] enum of the Appointment schema
    ([models/Appointment.js] is not among the sources); section 3 of the
    specification lists these six values, and says that the store keeps
    [createdAt] and [updatedAt]. *)
Definition statusEnum : list string :=
  ["Pending"; "Confirmed"; "Completed"; "Cancelled"; "Rejected"; "Expired"].

(** ** Requests and responses *)

(** What the [auth] middleware leaves on the request: the verified identity
    and its role. *)
Record Auth := mkAuth {
  req_userId : ObjectId;
  userRole : string
}.

(** What a request reads from its environment: [new Date()] and the
    [ObjectId] the driver gives to a document created by the request. *)
Record Env := mkEnv {
  now : Instant;
  newId : ObjectId
}.

(** The JSON body of a booking request; a field the client left out is
    [None].  Identifiers and the date are the values Mongoose casts the
    strings of the body to.  The patient route reads neither [user_id] nor
    [status]. *)
Record Body := mkBody {
  body_user_id : option ObjectId;
  body_doctor_id : option ObjectId;
  body_date : option Instant;
  body_time : option string;
  body_symptoms : option string;
  body_notes : option string;
  body_status : option string
}.

(** The [appointment] object of the patient booking answer. *)
Record BookedView := mkBookedView {
  bv_id : ObjectId;
  bv_doctor_id : ObjectId;
  bv_date : Instant;
  bv_time : string;
  bv_status : string
}.

Record PatientView := mkPatientView {
  pv_id : option ObjectId;
  pv_name : string;
  pv_email : string;
  pv_phone : string
}.

Record DoctorView := mkDoctorView {
  dv_id : option ObjectId;
  dv_name : string;
  dv_email : string;
  dv_phone : string;
  dv_specialization : string;
  dv_fees : Number
}.

(** One entry of the admin appointment list. *)
Record AdminView := mkAdminView {
  av_id : ObjectId;
  av_date : string;
  av_time : string;
  av_status : string;
  av_symptoms : string;
  av_notes : string;
  av_patient : PatientView;
  av_doctor : DoctorView;
  av_createdAt : Instant
}.

(** The [appointment] object of the admin booking answer. *)
Record CreatedView := mkCreatedView {
  cv_id : ObjectId;
  cv_date : string;
  cv_time : string;
  cv_status : string;
  cv_symptoms : string;
  cv_notes : string;
  cv_patient : PatientView;
  cv_doctor_id : ObjectId;
  cv_doctor_name : string;
  cv_doctor_specialization : string
}.

(** The [appointment] object of the status update answer; a name is [None]
    where the populated reference is missing. *)
Record UpdatedView := mkUpdatedView {
  uv_id : ObjectId;
  uv_date : string;
  uv_time : string;
  uv_status : string;
  uv_patient_name : option string;
  uv_patient_email : option string;
  uv_doctor_name : option string;
  uv_doctor_specialization : option string
}.

Record DashboardDoctor := mkDashboardDoctor {
  dd_id : ObjectId;
  dd_name : string;
  dd_email : string;
  dd_phone : string;
  dd_address : string;
  dd_specialization : string;
  dd_qualification : string;
  dd_experience : option Number;
  dd_fees : option Number;
  dd_profile_pic : option string
}.

Record Stats := mkStats {
  todayAppointments : nat;
  totalPatients : nat;
  upcomingAppointments : nat;
  earnings : Number
}.

Inductive Json : Type :=
| Message (message : string)
| Booked (message : string) (appointment : BookedView)
| Created (message : string) (appointment : CreatedView)
| Updated (message : string) (appointment : UpdatedView)
| Listing (appointments : list AdminView) (total : nat)
| Swept (message : string) (modifiedCount : nat)
| Dashboard (doctor : DashboardDoctor) (stats : Stats)
| ProfileUpdated (message : string) (doctor : Doctor) (user : option User).

(** [res.status(code).json(json)]; [res.json] alone answers 200. *)
Record Response := mkResponse {
  code : nat;
  json : Json
}.

(** The error taxonomy of the specification, as the answers the handlers
    give. *)
Definition ValidationError (message : string) : Response :=
  mkResponse 400 (Message message).

Definition NotFoundError (message : string) : Response :=
  mkResponse 404 (Message message).

Definition ForbiddenError (message : string) : Response :=
  mkResponse 403 (Message message).

Definition ConflictError : Response :=
  mkResponse 400 (Message "This time slot is already booked").

(** ** Handlers *)

(** A handler body runs against the store and either goes on with a value,
    has sent its answer ([return res...json(...)]), or has thrown. *)
Inductive Outcome (A : Type) : Type :=
| Next (a : A)
| Sent (r : Response)
| Thrown.

Arguments Next {A} a.
Arguments Sent {A} r.
Arguments Thrown {A}.

Definition Handler (A : Type) : Type := Store -> Outcome A * Store.

Definition ret {A : Type} (a : A) : Handler A := fun st => (Next a, st).

Definition bind {A B : Type} (h : Handler A) (k : A -> Handler B) : Handler B :=
  fun st =>
    match h st with
    | (Next a, st') => k a st'
    | (Sent r, st') => (Sent r, st')
    | (Thrown, st') => (Thrown, st')
    end.

Definition send {A : Type} (c : nat) (j : Json) : Handler A :=
  fun st => (Sent (mkResponse c j), st).

Definition throw {A : Type} : Handler A := fun st => (Thrown, st).

Declare Scope handler_scope.
Delimit Scope handler_scope with handler.
Notation "x <- h ;; k" := (bind h (fun x => k))
  (at level 100, h at next level, right associativity) : handler_scope.
Notation "h ;; k" := (bind h (fun _ => k))
  (at level 100, right associativity) : handler_scope.
Local Open Scope handler_scope.

(** [if (c) return ...;] *)
Definition when (c : bool) (h : Handler unit) : Handler unit :=
  if c then h else ret tt.

(** A request field that must be present: the handler answers [c], [j] when
    it is missing. *)
Definition required {A : Type} (v : option A) (c : nat) (j : Json) : Handler A :=
  match v with
  | Some a => ret a
  | None => send c j
  end.

Definition nonEmpty (v : option string) : option string :=
  if truthy v then v else None.

(** [try { body } catch (e) { res.status(500).json({ message }) }]: the body
    of a route never falls off its end without an answer. *)
Definition tryCatch (h : Handler Empty_set) (message : string) (st : Store)
  : Response * Store :=
  match h st with
  | (Next e, _) => match e with end
  | (Sent r, st') => (r, st')
  | (Thrown, st') => (mkResponse 500 (Message message), st')
  end.

(** *** The model operations of Mongoose *)

Definition hasId (id : ObjectId) (a : Appointment) : bool := N.eqb (_id a) id.

Definition User_findById (id : ObjectId) : Handler (option User) :=
  fun st => (Next (find (fun u => N.eqb (usr_id u) id) (users st)), st).

Definition Doctor_findById (id : ObjectId) : Handler (option Doctor) :=
  fun st => (Next (find (fun d => N.eqb (doc_id d) id) (doctors st)), st).

Definition Doctor_findOne (filter : Doctor -> bool) : Handler (option Doctor) :=
  fun st => (Next (find filter (doctors st)), st).

Definition Appointment_findOne (filter : Appointment -> bool)
  : Handler (option Appointment) :=
  fun st => (Next (find filter (appointments st)), st).

Definition Appointment_findById (id : ObjectId) : Handler (option Appointment) :=
  Appointment_findOne (hasId id).

Definition Appointment_find (filter : Appointment -> bool)
  : Handler (list Appointment) :=
  fun st => (Next (List.filter filter (appointments st)), st).

Definition Appointment_countDocuments (filter : Appointment -> bool)
  : Handler nat :=
  fun st => (Next (List.length (List.filter filter (appointments st))), st).

(** [new Appointment({...})]: the document gets its identifier when it is
    built and its timestamps when it is saved. *)
Definition newAppointment (env : Env) (user doctor : ObjectId) (d : Instant)
  (t sy no st : string) : Appointment :=
  mkAppointment (newId env) user doctor d t sy no st (now env) (now env).

(** [appointment.save()] of a new document: schema validation, then the
    insert.  A status outside the enum makes [save] throw, and so does an
    identifier the collection already holds (the unique index on [_id]). *)
Definition Appointment_save (a : Appointment) : Handler unit :=
  fun st =>
    if includes statusEnum (status a)
       && negb (existsb (hasId (_id a)) (appointments st))
    then (Next tt, withAppointments st (appointments st ++ [a]))
    else (Thrown, st).

(** The slot filter of both booking routes: [{ doctor_id, date, time,
    status: { $in: blocking } }]. *)
Definition slotFilter (doctor : ObjectId) (d : Instant) (t : string)
  (blocking : list string) (a : Appointment) : bool :=
  N.eqb (doctor_id a) doctor && Z.eqb (date a) d && String.eqb (time a) t
  && includes blocking (status a).

(** *** POST /doctor/book-appointment *)

Definition bookedView (appointment : Appointment) : BookedView :=
  mkBookedView (_id appointment) (doctor_id appointment) (date appointment)
    (time appointment) (status appointment).

Definition bookAppointment (env : Env) (auth : Auth) (body : Body)
  : Store -> Response * Store :=
  tryCatch (
    (* Check if user is a patient *)
    when (negb (String.eqb (userRole auth) "Patient"))
      (send 403 (Message "Only patients can book appointments")) ;;
    let missing := Message "Doctor ID, date, and time are required" in
    doctor_id <- required (body_doctor_id body) 400 missing ;;
    date <- required (body_date body) 400 missing ;;
    time <- required (nonEmpty (body_time body)) 400 missing ;;
    (* Check if doctor exists *)
    doctor <- Doctor_findById doctor_id ;;
    when (match doctor with Some _ => false | None => true end)
      (send 404 (Message "Doctor not found")) ;;
    (* Check if user is trying to book appointment with themselves
       (if they are a doctor) *)
    when (String.eqb (userRole auth) "Doctor")
      (userDoctor <- Doctor_findOne (fun d => N.eqb (userId d) (req_userId auth)) ;;
       when (match userDoctor with
             | Some d => N.eqb (doc_id d) doctor_id
             | None => false
             end)
         (send 400 (Message "Doctors cannot book appointments with themselves"))) ;;
    (* Check if appointment already exists for this time slot *)
    existingAppointment <-
      Appointment_findOne (slotFilter doctor_id date time ["Pending"; "Upcoming"]) ;;
    when (match existingAppointment with Some _ => true | None => false end)
      (send 400 (Message "This time slot is already booked")) ;;
    (* Create new appointment *)
    let appointment :=
      newAppointment env (req_userId auth) doctor_id date time
        (orString (body_symptoms body) "") (orString (body_notes body) "")
        "Pending" in
    Appointment_save appointment ;;
    send 201 (Booked "Appointment booked successfully" (bookedView appointment)))
    "Failed to book appointment".

(** *** The remaining model operations *)

(** Replace the first element that satisfies [p]. *)
Fixpoint updateFirst {A : Type} (p : A -> bool) (f : A -> A) (l : list A)
  : list A :=
  match l with
  | [] => []
  | x :: l' => if p x then f x :: l' else x :: updateFirst p f l'
  end.

(** Remove the first element that satisfies [p]. *)
Fixpoint removeFirst {A : Type} (p : A -> bool) (l : list A) : list A :=
  match l with
  | [] => []
  | x :: l' => if p x then l' else x :: removeFirst p l'
  end.

(** [Appointment.updateMany(filter, { status })]: every match gets the status
    and a new [updatedAt]; the result is [modifiedCount]. *)
Definition Appointment_updateMany (filter : Appointment -> bool) (s : string)
  (t : Instant) : Handler nat :=
  fun st =>
    (Next (List.length (List.filter filter (appointments st))),
     withAppointments st
       (map (fun a => if filter a then setStatus a s t else a) (appointments st))).

(** [Appointment.findByIdAndUpdate(id, { status }, { new: true,
    runValidators: true })]: the update validators run first, then the first
    document with the identifier is rewritten and returned as rewritten. *)
Definition Appointment_findByIdAndUpdate (id : ObjectId) (s : string)
  (t : Instant) : Handler (option Appointment) :=
  fun st =>
    if includes statusEnum s
    then match find (hasId id) (appointments st) with
         | Some a =>
             (Next (Some (setStatus a s t)),
              withAppointments st
                (updateFirst (hasId id) (fun a => setStatus a s t) (appointments st)))
         | None => (Next None, st)
         end
    else (Thrown, st).

Definition Appointment_deleteMany (filter : Appointment -> bool) : Handler unit :=
  fun st =>
    (Next tt,
     withAppointments st (List.filter (fun a => negb (filter a)) (appointments st))).

Definition User_findByIdAndDelete (id : ObjectId) : Handler (option User) :=
  fun st =>
    (Next (find (fun u => N.eqb (usr_id u) id) (users st)),
     withUsers st (removeFirst (fun u => N.eqb (usr_id u) id) (users st))).

(** [.populate('user_id', ...)] and the nested [.populate({ path:
    'doctor_id', populate: { path: 'userId' } })]: a reference that resolves
    to no document becomes [null]. *)
Record Populated := mkPopulated {
  doc : Appointment;
  pop_user : option User;
  pop_doctor : option (Doctor * option User)
}.

Definition populate (st : Store) (a : Appointment) : Populated :=
  mkPopulated a
    (find (fun u => N.eqb (usr_id u) (user_id a)) (users st))
    (match find (fun d => N.eqb (doc_id d) (doctor_id a)) (doctors st) with
     | Some d => Some (d, find (fun u => N.eqb (usr_id u) (userId d)) (users st))
     | None => None
     end).

(** A stable insertion sort; [before x y] says that [x] may stand before
    [y].  Mongo leaves the order of ties open, this model keeps them in
    insertion order. *)
Fixpoint insertBy {A : Type} (before : A -> A -> bool) (x : A) (l : list A)
  : list A :=
  match l with
  | [] => [x]
  | y :: l' => if before x y then x :: y :: l' else y :: insertBy before x l'
  end.

Definition sortBy {A : Type} (before : A -> A -> bool) (l : list A) : list A :=
  fold_right (insertBy before) [] l.

(** [.sort({ date: -1, time: -1 })] *)
Definition dateTimeDescending (a b : Appointment) : bool :=
  (date b <? date a) || ((date a =? date b) && String.leb (time b) (time a)).

Definition Appointment_find_populate_sort (filter : Appointment -> bool)
  (before : Appointment -> Appointment -> bool) : Handler (list Populated) :=
  fun st =>
    (Next (map (populate st) (sortBy before (List.filter filter (appointments st)))),
     st).

(** *** The expiry sweep

    The filter [{ date: { $lt: currentDate }, status: { $nin: ['Completed',
    'Cancelled', 'Expired'] } }] of the two places that sweep. *)
Definition stale (currentDate : Instant) (a : Appointment) : bool :=
  (date a <? currentDate)
  && negb (includes ["Completed"; "Cancelled"; "Expired"] (status a)).

Definition isAdmin (auth : Auth) : bool := String.eqb (userRole auth) "Admin".

Definition adminOnly : Handler unit :=
  send 403 (Message "Only admins can access this endpoint").

(** *** POST /admin/mark-expired *)

Definition markExpired (env : Env) (auth : Auth) : Store -> Response * Store :=
  tryCatch (
    when (negb (isAdmin auth)) adminOnly ;;
    let currentDate := now env in
    modifiedCount <- Appointment_updateMany (stale currentDate) "Expired" (now env) ;;
    send 200 (Swept (String.append (decimal (Z.of_nat modifiedCount))
                       " appointments marked as expired")
                modifiedCount))
    "Server error".

(** *** GET /admin/appointments *)

Definition userField (f : User -> string) (u : option User) : option string :=
  option_map f u.

Definition adminView (p : Populated) : AdminView :=
  let appt := doc p in
  let doctorUser :=
    match pop_doctor p with Some (_, u) => u | None => None end in
  mkAdminView (_id appt) (isoDate (date appt)) (time appt) (status appt)
    (symptoms appt) (notes appt)
    (mkPatientView (option_map usr_id (pop_user p))
       (orString (userField name (pop_user p)) "Unknown")
       (orString (userField email (pop_user p)) "Unknown")
       (orString (userField phone (pop_user p)) "Unknown"))
    (mkDoctorView (option_map (fun d => doc_id (fst d)) (pop_doctor p))
       (orString (userField name doctorUser) "Unknown")
       (orString (userField email doctorUser) "Unknown")
       (orString (userField phone doctorUser) "Unknown")
       (orString (option_map (fun d => specialization (fst d)) (pop_doctor p))
          "Unknown")
       (orZero (match pop_doctor p with Some (d, _) => fees d | None => None end)))
    (createdAt appt).

Definition adminGetAppointments (env : Env) (auth : Auth)
  : Store -> Response * Store :=
  tryCatch (
    when (negb (isAdmin auth)) adminOnly ;;
    (* First, update expired appointments to 'Expired' status *)
    let currentDate := now env in
    Appointment_updateMany (stale currentDate) "Expired" (now env) ;;
    (* Get all appointments including expired ones *)
    appointments <-
      Appointment_find_populate_sort (fun _ => true) dateTimeDescending ;;
    let formattedAppointments := map adminView appointments in
    send 200 (Listing formattedAppointments (List.length formattedAppointments)))
    "Server error".

(** *** PUT /admin/appointments/:id/status *)

Definition validStatuses : list string :=
  ["Pending"; "Confirmed"; "Completed"; "Cancelled"; "Rejected"; "Expired"].

(** The body's [status] when [l.includes(status)]; [undefined] is in no
    list. *)
Definition oneOf (l : list string) (v : option string) : option string :=
  match v with
  | Some s => if includes l s then Some s else None
  | None => None
  end.

Definition updatedView (p : Populated) : UpdatedView :=
  let appointment := doc p in
  mkUpdatedView (_id appointment) (isoDate (date appointment))
    (time appointment) (status appointment)
    (userField name (pop_user p)) (userField email (pop_user p))
    (match pop_doctor p with Some (_, u) => userField name u | None => None end)
    (option_map (fun d => specialization (fst d)) (pop_doctor p)).

Definition getStore : Handler Store := fun st => (Next st, st).

Definition updateAppointmentStatus (env : Env) (auth : Auth) (id : ObjectId)
  (body : Body) : Store -> Response * Store :=
  tryCatch (
    when (negb (isAdmin auth)) adminOnly ;;
    (* Validate status *)
    status <- required (oneOf validStatuses (body_status body)) 400
                (Message "Invalid status. Valid statuses are: Pending, Confirmed, Completed, Cancelled, Rejected, Expired") ;;
    appointment <- Appointment_findByIdAndUpdate id status (now env) ;;
    match appointment with
    | None => send 404 (Message "Appointment not found")
    | Some a =>
        st <- getStore ;;
        send 200 (Updated "Appointment status updated successfully"
                    (updatedView (populate st a)))
    end)
    "Server error".

(** *** POST /admin/appointments *)

(** The answer reads [populatedAppointment.user_id._id] and
    [populatedAppointment.doctor_id._id]: a reference that did not populate
    makes the handler throw. *)
Definition createdView (appointment : Appointment) (p : option Populated)
  : option CreatedView :=
  match p with
  | Some (mkPopulated _ (Some u) (Some (d, du))) =>
      Some (mkCreatedView (_id appointment) (isoDate (date appointment))
              (time appointment) (status appointment) (symptoms appointment)
              (notes appointment)
              (mkPatientView (Some (usr_id u)) (name u) (email u) (phone u))
              (doc_id d)
              (orString (userField name du) "Unknown")
              (orString (Some (specialization d)) "Unknown"))
  | _ => None
  end.

Definition adminCreateAppointment (env : Env) (auth : Auth) (body : Body)
  : Store -> Response * Store :=
  tryCatch (
    when (negb (isAdmin auth)) adminOnly ;;
    (* Validate required fields *)
    let missing := Message "User ID, Doctor ID, date, and time are required" in
    user_id <- required (body_user_id body) 400 missing ;;
    doctor_id <- required (body_doctor_id body) 400 missing ;;
    date <- required (body_date body) 400 missing ;;
    time <- required (nonEmpty (body_time body)) 400 missing ;;
    (* Check if user exists *)
    user <- User_findById user_id ;;
    when (match user with Some _ => false | None => true end)
      (send 404 (Message "User not found")) ;;
    (* Check if doctor exists *)
    doctor <- Doctor_findById doctor_id ;;
    when (match doctor with Some _ => false | None => true end)
      (send 404 (Message "Doctor not found")) ;;
    (* Check if appointment already exists for this time slot *)
    existingAppointment <-
      Appointment_findOne (slotFilter doctor_id date time ["Pending"; "Confirmed"]) ;;
    when (match existingAppointment with Some _ => true | None => false end)
      (send 400 (Message "This time slot is already booked")) ;;
    (* Create new appointment; admin can set status directly, default to
       Confirmed *)
    let appointment :=
      newAppointment env user_id doctor_id date time
        (orString (body_symptoms body) "") (orString (body_notes body) "")
        (orString (body_status body) "Confirmed") in
    Appointment_save appointment ;;
    (* Populate appointment data for response *)
    found <- Appointment_findById (newId env) ;;
    st <- getStore ;;
    match createdView appointment (option_map (populate st) found) with
    | Some view => send 201 (Created "Appointment booked successfully" view)
    | None => throw
    end)
    "Server error".

(** *** DELETE /admin/users/:id *)

Definition deleteUser (auth : Auth) (id : ObjectId) : Store -> Response * Store :=
  tryCatch (
    when (negb (isAdmin auth)) adminOnly ;;
    (* Check if user exists *)
    user <- User_findById id ;;
    when (match user with Some _ => false | None => true end)
      (send 404 (Message "User not found")) ;;
    (* Delete user's appointments first *)
    Appointment_deleteMany (fun a => N.eqb (user_id a) id) ;;
    (* Delete user *)
    User_findByIdAndDelete id ;;
    send 200 (Message "User deleted successfully"))
    "Server error".

(** *** PUT /doctor/profile *)

(** The form of the profile route.  [experience] and [fees] are the Numbers
    that [Number(...)] makes of the form fields.  [file] is
    there when a picture is uploaded, and holds the extension that
    [path.extname] finds in the original name of the picture.  The answer
    carries the doctor document and the user document as saved (its [id],
    [name], [email], [phone] and [address]). *)
Record ProfileBody := mkProfileBody {
  pb_specialization : option string;
  pb_qualification : option string;
  pb_experience : option Number;
  pb_fees : option Number;
  pb_file : option string;
  pb_name : option string;
  pb_email : option string;
  pb_phone : option string;
  pb_address : option string
}.

(** [if (v !== undefined) field = v] *)
Definition assign {A : Type} (v : option A) (old : A) : A :=
  match v with
  | Some a => a
  | None => old
  end.

Definition Doctor_save (d : Doctor) : Handler unit :=
  fun st =>
    (Next tt,
     withDoctors st
       (updateFirst (fun x => N.eqb (doc_id x) (doc_id d)) (fun _ => d) (doctors st))).

Definition User_save (u : User) : Handler unit :=
  fun st =>
    (Next tt,
     withUsers st
       (updateFirst (fun x => N.eqb (usr_id x) (usr_id u)) (fun _ => u) (users st))).

Definition dashboardDoctor (doctor : Doctor) (user : option User)
  : DashboardDoctor :=
  mkDashboardDoctor (doc_id doctor)
    (orString (userField name user) "Doctor")
    (orString (userField email user) "")
    (orString (userField phone user) "")
    (orString (userField address user) "")
    (specialization doctor) (qualification doctor) (experience doctor)
    (fees doctor) (profile_pic doctor).

(** The [filename] function of the Multer storage:
    [Date.now() + path.extname(file.originalname)].  The upload middleware
    calls it, with a clock read of its own, before the handler runs. *)
Definition storageFilename (env : Env) (extname : string) : string :=
  String.append (showInt (now env)) extname.

(** Modelled from the spec: the Doctor schema ([models/Doctor.js]) is not
    among the sources; section 2 of the specification has [fees] as the
    attribute of a profile that the billing estimates consume, so it is a
    Number path, and so is [experience].  Mongoose's cast of a Number path
    refuses [NaN]: [save] then rejects, and nothing is written.  The
    handler itself reads no clock. *)
Definition updateProfile (env : Env) (auth : Auth) (body : ProfileBody)
  : Store -> Response * Store :=
  let req_file := option_map (storageFilename env) (pb_file body) in
  tryCatch (
    found <- Doctor_findOne (fun d => N.eqb (userId d) (req_userId auth)) ;;
    doctor <- required found 404 (Message "Doctor profile not found") ;;
    let doctor :=
      mkDoctor (doc_id doctor) (userId doctor)
        (assign (pb_specialization body) (specialization doctor))
        (assign (pb_qualification body) (qualification doctor))
        (match pb_experience body with Some e => Some e | None => experience doctor end)
        (match pb_fees body with Some f => Some f | None => fees doctor end)
        (match req_file with
         | Some filename => Some (String.append "/uploads/" filename)
         | None => profile_pic doctor
         end) in
    when (match pb_experience body with Some e => isNaN e | None => false end
          || match pb_fees body with Some f => isNaN f | None => false end)
      throw ;;
    Doctor_save doctor ;;
    (* Optionally update user fields if provided *)
    user <-
      match pb_name body, pb_email body, pb_phone body, pb_address body with
      | None, None, None, None => ret None
      | _, _, _, _ =>
          user <- User_findById (req_userId auth) ;;
          match user with
          | Some u =>
              let u :=
                mkUser (usr_id u) (assign (pb_name body) (name u))
                  (assign (pb_email body) (email u))
                  (assign (pb_phone body) (phone u))
                  (assign (pb_address body) (address u)) (role u) in
              User_save u ;;
              ret (Some u)
          | None => ret None
          end
      end ;;
    send 200 (ProfileUpdated "✅ Profile updated successfully" doctor user))
    "Server error".

(** *** GET /doctor/dashboard *)

Section DoctorDashboard.

(** [Date.prototype.setHours(h, m, s, ms)]: the instant of the given
    wall-clock time on the local day of [t], in the time zone of the
    server. *)
Variable setHours : Instant -> Z -> Z -> Z -> Z -> Instant.

(** The filter of the earnings count: [{ doctor_id: doctor._id, status:
    { $in: ["Completed", "Done", "Approved"] } }]. *)
Definition completedOf (doctor : Doctor) (a : Appointment) : bool :=
  N.eqb (doctor_id a) (doc_id doctor)
  && includes ["Completed"; "Done"; "Approved"] (status a).

(** The handler reads [new Date()] three times; the model reads the clock
    once.  The Appointment model is loaded (the admin routes require it
    without a guard), so the branch [if (Appointment)] is the one taken.
    The product is one of Numbers: it is rounded where it has more than 53
    significant bits. *)
Definition doctorDashboard (env : Env) (auth : Auth)
  : Store -> Response * Store :=
  tryCatch (
    (* Doctor profile (linked by userId) *)
    found <- Doctor_findOne (fun d => N.eqb (userId d) (req_userId auth)) ;;
    doctor <- required found 404 (Message "Doctor profile not found") ;;
    (* linked user for name/email *)
    user <- User_findById (req_userId auth) ;;
    let start := setHours (now env) 0 0 0 0 in
    let end_ := setHours (now env) 23 59 59 999 in
    (* today count *)
    todayCount <-
      Appointment_countDocuments (fun a =>
        N.eqb (doctor_id a) (doc_id doctor)
        && (start <=? date a) && (date a <=? end_)
        && negb (String.eqb (status a) "Cancelled")) ;;
    (* total unique patients seen by this doctor *)
    ofDoctor <- Appointment_find (fun a => N.eqb (doctor_id a) (doc_id doctor)) ;;
    let uniquePatients := nodup N.eq_dec (map user_id ofDoctor) in
    let totalPatients := List.length uniquePatients in
    (* upcoming appointments from now (status pending/confirmed) *)
    upcomingAppointments <-
      Appointment_countDocuments (fun a =>
        N.eqb (doctor_id a) (doc_id doctor)
        && (now env <=? date a)
        && includes ["Pending"; "Confirmed"] (status a)) ;;
    (* simple earnings estimate = total completed appointments * fees *)
    completedCount <- Appointment_countDocuments (completedOf doctor) ;;
    let earnings :=
      jsMul (num (Z.of_nat completedCount)) (orZero (fees doctor)) in
    send 200 (Dashboard (dashboardDoctor doctor user)
                (mkStats todayCount totalPatients upcomingAppointments earnings)))
    "Server error".

End DoctorDashboard.

(** [setHours] for a server whose local time is UTC. *)
Definition setHoursUTC (t : Instant) (h m s ms : Z) : Instant :=
  t - t mod msPerDay + ((h * 60 + m) * 60 + s) * 1000 + ms.

(** ** Vocabulary of the properties *)

(** The appointments that sit on a slot, whatever their status. *)
Definition onSlot (doctor : ObjectId) (d : Instant) (t : string)
  (a : Appointment) : bool :=
  N.eqb (doctor_id a) doctor && Z.eqb (date a) d && String.eqb (time a) t.

(** The request asks for the slot of doctor [D] on date [T] at time [S]. *)
Definition asksFor (body : Body) (D : ObjectId) (T : Instant) (S : string)
  : Prop :=
  body_doctor_id body = Some D /\ body_date body = Some T
  /\ body_time body = Some S /\ S <> "".

Definition doctorExists (D : ObjectId) (st : Store) : Prop :=
  find (fun d => N.eqb (doc_id d) D) (doctors st) <> None.

Definition userExists (U : ObjectId) (st : Store) : Prop :=
  find (fun u => N.eqb (usr_id u) U) (users st) <> None.

(** The identifier is not in use in the appointment collection. *)
Definition freshId (id : ObjectId) (st : Store) : Prop :=
  existsb (hasId id) (appointments st) = false.

(** Some appointment on the slot has one of the [blocking] statuses. *)
Definition held (blocking : list string) (D : ObjectId) (T : Instant)
  (S : string) (st : Store) : Prop :=
  exists a, In a (appointments st) /\ onSlot D T S a = true
            /\ In (status a) blocking.

(** The identity owns the doctor profile [D]. *)
Definition ownsProfile (u D : ObjectId) (st : Store) : Prop :=
  exists d, In d (doctors st) /\ userId d = u /\ doc_id d = D.

(** The six status values of the specification. *)
Definition sixStatuses : list string :=
  ["Pending"; "Confirmed"; "Completed"; "Cancelled"; "Rejected"; "Expired"].

(** The body of a status update. *)
Definition statusBody (s : option string) : Body :=
  mkBody None None None None None None s.

(** The self-booking guard as the specification words it (P2): a booking by
    an identity that owns the requested doctor profile is answered 403 and
    creates nothing. *)
Definition selfBookingRefused (env : Env) (auth : Auth) (body : Body)
  (st : Store) : Prop :=
  forall D, body_doctor_id body = Some D ->
            ownsProfile (req_userId auth) D st ->
            code (fst (bookAppointment env auth body st)) = 403%nat
            /\ snd (bookAppointment env auth body st) = st.

(** The appointment the admin route builds from a request with the given
    status. *)
Definition adminAppointment (env : Env) (body : Body) (U D : ObjectId)
  (T : Instant) (S s : string) : Appointment :=
  newAppointment env U D T S (orString (body_symptoms body) "")
    (orString (body_notes body) "") s.

(** The request [body] with its [status] set to [r], or left out for
    [None]. *)
Definition withStatus (body : Body) (r : option string) : Body :=
  mkBody (body_user_id body) (body_doctor_id body) (body_date body)
    (body_time body) (body_symptoms body) (body_notes body) r.

(** The appointment [a] is one of user [U] on the slot of doctor [D] on date
    [T] at time [S]. *)
Definition bookedFor (a : Appointment) (U D : ObjectId) (T : Instant)
  (S : string) : Prop :=
  user_id a = U /\ doctor_id a = D /\ date a = T /\ time a = S.

(** The two appointments differ at most in [status] and [updatedAt]. *)
Definition sameButStatus (a a' : Appointment) : Prop :=
  _id a' = _id a /\ user_id a' = user_id a /\ doctor_id a' = doctor_id a
  /\ date a' = date a /\ time a' = time a /\ symptoms a' = symptoms a
  /\ notes a' = notes a /\ createdAt a' = createdAt a.

(** The admin booking created [a]: the answer is 201 and [a] is the one
    document added to the store. *)
Definition createdBy (result : Response * Store) (st : Store)
  (a : Appointment) : Prop :=
  code (fst result) = 201%nat
  /\ snd result = withAppointments st (appointments st ++ [a]).

(** What the sweep's [updateMany] makes of one appointment. *)
Definition expire (currentDate : Instant) (a : Appointment) : Appointment :=
  if stale currentDate a then setStatus a "Expired" currentDate else a.

(** The statuses the sweep leaves alone. *)
Definition settled : list string := ["Completed"; "Cancelled"; "Expired"].

(** No appointment dated before [t] is still open. *)
Definition swept (t : Instant) (l : list Appointment) : Prop :=
  forall a, In a l -> date a < t -> In (status a) settled.

(** The number of appointments of doctor [D] whose status is [Completed],
    [Done] or [Approved]. *)
Definition completedCount (D : ObjectId) (l : list Appointment) : Z :=
  Z.of_nat
    (List.length
       (List.filter
          (fun a => N.eqb (doctor_id a) D
                    && includes ["Completed"; "Done"; "Approved"] (status a))
          l)).

(** The earnings a dashboard answer reports. *)
Definition earningsOf (r : Response) : option Number :=
  match json r with
  | Dashboard _ stats => Some (earnings stats)
  | _ => None
  end.

(** The doctor profile the routes find for an identity. *)
Definition profileOf (u : ObjectId) (st : Store) : option Doctor :=
  find (fun d => N.eqb (userId d) u) (doctors st).

(** The second half of P6 as the specification words it, for one doctor and
    one profile form: when the form changes the fee and the doctor has a
    completed appointment, the dashboard asked again reports other earnings
    than before. *)
Definition feeChangeShows (setHours : Instant -> Z -> Z -> Z -> Z -> Instant)
  (env env' : Env) (auth : Auth) (body : ProfileBody) (st : Store) : Prop :=
  forall d x',
    profileOf (req_userId auth) st = Some d ->
    pb_fees body = Some x' ->
    x' <> orZero (fees d) ->
    completedCount (doc_id d) (appointments st) <> 0 ->
    let before := doctorDashboard setHours env auth st in
    let st' := snd (updateProfile env auth body st) in
    let after := doctorDashboard setHours env' auth st' in
    earningsOf (fst after) <> earningsOf (fst before).

(** The unique index on [_id] of the user collection. *)
Definition uniqueUserIds (st : Store) : Prop := NoDup (map usr_id (users st)).

(** Idempotence of the sweep as the specification words it (P4): the second
    of two runs in succession, with nothing written in between, reports zero
    modified records and leaves the store as the first run made it.  Each
    run reads the clock for itself. *)
Definition sweepTwiceSame (env1 env2 : Env) (auth : Auth) (st : Store) : Prop :=
  let once := markExpired env1 auth st in
  let twice := markExpired env2 auth (snd once) in
  snd twice = snd once
  /\ fst twice = mkResponse 200 (Swept "0 appointments marked as expired" 0).

(** ** A small clinic to run the handlers on *)

Module Clinic.

Definition alice : User :=
  mkUser 1 "Alice" "alice@example.org" "555-0101" "1 Main St" "Patient".
Definition bob : User :=
  mkUser 2 "Bob" "bob@example.org" "555-0102" "2 Main St" "Doctor".
Definition root : User :=
  mkUser 3 "Root" "root@example.org" "555-0103" "3 Main St" "Admin".
Definition carol : User :=
  mkUser 4 "Carol" "carol@example.org" "555-0104" "4 Main St" "Patient".

Definition bobProfile : Doctor :=
  mkDoctor 10 2 "Cardiology" "MD" (Some (num 12)) (Some (num 500)) None.

(** 2025-01-10T00:00:00Z *)
Definition jan10 : Instant := 1736467200000.

Definition empty : Store :=
  mkStore [alice; bob; root; carol] [bobProfile] [] [] [] [].

Definition asPatient (u : ObjectId) : Auth := mkAuth u "Patient".
Definition asAdmin : Auth := mkAuth 3 "Admin".

Definition tenOClock : Body :=
  mkBody None (Some 10%N) (Some jan10) (Some "10:00 AM") None None None.

(** The admin books Alice on the same slot and leaves [status] out. *)
Definition aliceAtTen : Body :=
  mkBody (Some 1%N) (Some 10%N) (Some jan10) (Some "10:00 AM") None None None.

(** Carol, a patient, also has a doctor profile ([POST /doctor/details]
    takes any [userId] and asks for no authentication). *)
Definition carolProfile : Doctor :=
  mkDoctor 11 4 "Dermatology" "MD" (Some (num 3)) (Some (num 300)) None.

Definition moonlighting : Store :=
  mkStore [alice; bob; root; carol] [bobProfile; carolProfile] [] [] [] [].

Definition carolAtTen : Body :=
  mkBody None (Some 11%N) (Some jan10) (Some "10:00 AM") None None None.

(** 2025-01-04, 2025-01-05 and 2025-01-16. *)
Definition env1 : Env := mkEnv 1736000000000 100.
Definition env2 : Env := mkEnv 1736086400000 101.
Definition later : Env := mkEnv 1737000000000 102.

(** Alice's appointment, as her booking on 2025-01-04 stores it, and the
    clinic with it. *)
Definition alicePending : Appointment :=
  mkAppointment 100 1 10 jan10 "10:00 AM" "" "" "Pending"
    1736000000000 1736000000000.

Definition booked : Store :=
  mkStore [alice; bob; root; carol] [bobProfile] [alicePending] [] [] [].

(** The appointment once the admin has set it to [Completed], on
    2025-01-16, and a later one of Carol's. *)
Definition aliceCompleted : Appointment :=
  setStatus alicePending "Completed" 1737000000000.

Definition carolPending : Appointment :=
  mkAppointment 101 4 10 1738000000000 "09:30 AM" "cough" "" "Pending"
    1737000000000 1737000000000.

Definition completed : Store :=
  mkStore [alice; bob; root; carol] [bobProfile]
    [aliceCompleted; carolPending] [mkAdmin 50 3 ["view_users"]]
    [mkFeedback 60 1 "Thanks"] [mkConsultation 70 1 10 "Active" "Results"].

Definition asBob : Auth := mkAuth 2 "Doctor".

(** Dr Bob raises his fee to 800. *)
Definition raiseFee : ProfileBody :=
  mkProfileBody None None None (Some (num 800)) None None None None None.

(** Dr Bob at a fee of 9007199254740990 (2^53 - 2), with five completed
    appointments of Alice's on five days in a row, and the form that raises
    the fee by one. *)
Definition bobDear : Doctor :=
  mkDoctor 10 2 "Cardiology" "MD" (Some (num 12)) (Some (num 9007199254740990)) None.

Definition done (i : N) : Appointment :=
  mkAppointment (200 + i) 1 10 (jan10 + Z.of_N i * msPerDay) "10:00 AM" "" ""
    "Completed" 1736000000000 1737000000000.

Definition fiveDone : Store :=
  mkStore [alice; bob; root; carol] [bobDear]
    [done 1; done 2; done 3; done 4; done 5] [] [] [].

Definition oneMore : ProfileBody :=
  mkProfileBody None None None (Some (num 9007199254740991)) None None None
    None None.

End Clinic.

(** ** Running a handler *)

Ltac unfold_handler :=
  unfold tryCatch, bind, when, required, send, ret, throw, getStore, adminOnly,
    Appointment_findById, Appointment_findOne, Appointment_find,
    Appointment_countDocuments, Appointment_save, Appointment_updateMany,
    Appointment_findByIdAndUpdate, Appointment_deleteMany,
    Appointment_find_populate_sort,
    User_findById, User_findByIdAndDelete, User_save,
    Doctor_findById, Doctor_findOne, Doctor_save.

From Stdlib Require Import Sorted.

(** ** Vocabulary of the further properties *)

(** On every slot at most one appointment has one of the [blocking]
    statuses. *)
Definition atMostOne (blocking : list string) (st : Store) : Prop :=
  forall (D : ObjectId) (T : Instant) (S : string),
    (List.length (List.filter (slotFilter D T S blocking) (appointments st))
     <= 1)%nat.

(** The two stores differ at most in their appointments. *)
Definition sameButAppointments (st st' : Store) : Prop :=
  users st' = users st /\ doctors st' = doctors st /\ admins st' = admins st
  /\ feedbacks st' = feedbacks st /\ consultations st' = consultations st.

(** The appointment a patient booking stores. *)
Definition patientAppointment (env : Env) (auth : Auth) (body : Body)
  (D : ObjectId) (T : Instant) (S : string) : Appointment :=
  newAppointment env (req_userId auth) D T S (orString (body_symptoms body) "")
    (orString (body_notes body) "") "Pending".

(** *** DELETE /admin/appointments/:id *)

Definition Appointment_findByIdAndDelete (id : ObjectId)
  : Handler (option Appointment) :=
  fun st =>
    (Next (find (hasId id) (appointments st)),
     withAppointments st (removeFirst (hasId id) (appointments st))).

Definition deleteAppointment (auth : Auth) (id : ObjectId)
  : Store -> Response * Store :=
  tryCatch (
    when (negb (isAdmin auth)) adminOnly ;;
    appointment <- Appointment_findByIdAndDelete id ;;
    when (match appointment with Some _ => false | None => true end)
      (send 404 (Message "Appointment not found")) ;;
    send 200 (Message "Appointment deleted successfully"))
    "Server error".

(** [a] stands before [b] in the order of the admin list: on a later date,
    or on the same date at a time that is not smaller as a string. *)
Definition listedBefore (a b : Appointment) : Prop :=
  date b < date a \/ (date a = date b /\ String.leb (time b) (time a) = true).

(** The number of places at which the status differs between two lists of
    appointments. *)
Definition statusChanges (before after : list Appointment) : nat :=
  List.length
    (List.filter (fun p => negb (String.eqb (status (fst p)) (status (snd p))))
       (combine before after)).

(** The unique index on [_id] of the appointment and doctor collections. *)
Definition uniqueAppointmentIds (st : Store) : Prop :=
  NoDup (map _id (appointments st)).

Definition uniqueDoctorIds (st : Store) : Prop :=
  NoDup (map doc_id (doctors st)).

(** The appointments of the doctor profile [D]. *)
Definition appointmentsOf (D : ObjectId) (st : Store) : list Appointment :=
  List.filter (fun a => N.eqb (doctor_id a) D) (appointments st).

(** What the profile form makes of the doctor document and of the user
    document it is applied to. *)
Definition updatedDoctor (env : Env) (body : ProfileBody) (d : Doctor)
  : Doctor :=
  mkDoctor (doc_id d) (userId d)
    (assign (pb_specialization body) (specialization d))
    (assign (pb_qualification body) (qualification d))
    (match pb_experience body with Some e => Some e | None => experience d end)
    (match pb_fees body with Some f => Some f | None => fees d end)
    (match pb_file body with
     | Some ext =>
         Some (String.append "/uploads/" (String.append (showInt (now env)) ext))
     | None => profile_pic d
     end).

(** The form asks for an experience or a fee that is no number. *)
Definition notANumber (body : ProfileBody) : bool :=
  match pb_experience body, pb_fees body with
  | Some S754_nan, _ => true
  | _, Some S754_nan => true
  | _, _ => false
  end.

Definition updatedUser (body : ProfileBody) (u : User) : User :=
  mkUser (usr_id u) (assign (pb_name body) (name u))
    (assign (pb_email body) (email u)) (assign (pb_phone body) (phone u))
    (assign (pb_address body) (address u)) (role u).

(** The form carries one of the fields of the user document. *)
Definition touchesUser (body : ProfileBody) : bool :=
  match pb_name body, pb_email body, pb_phone body, pb_address body with
  | None, None, None, None => false
  | _, _, _, _ => true
  end.

(** ** Routes that end with a payload of their own *)

(** The answer of such a route: the message answer of one of its early
    returns (or of its [catch]), or the code and the payload of the
    [res.json] it ends with. *)
Inductive Answer (P : Type) : Type :=
| Refused (r : Response)
| Answered (status_code : nat) (payload : P).

Arguments Refused {P} r.
Arguments Answered {P} status_code payload.

(** The final [res.status(c).json(p)] of a route. *)
Definition answer {P : Type} (c : nat) (p : P) : Handler (nat * P) :=
  ret (c, p).

Definition route {P : Type} (h : Handler (nat * P)) (message : string)
  (st : Store) : Answer P * Store :=
  match h st with
  | (Next (c, p), st') => (Answered c p, st')
  | (Sent r, st') => (Refused r, st')
  | (Thrown, st') => (Refused (mkResponse 500 (Message message)), st')
  end.

(** [{ <items>: formatted, total: formatted.length }] *)
Record Page (V : Type) : Type := mkPage {
  items : list V;
  total : nat
}.

Arguments mkPage {V} items total.
Arguments items {V} p.
Arguments total {V} p.

Definition page {V : Type} (l : list V) : Page V := mkPage l (List.length l).

(** [.sort({ date: 1, time: 1 })], [.sort({ date: -1 })] and
    [.sort({ createdAt: -1 })] *)
Definition dateTimeAscending (a b : Appointment) : bool :=
  (date a <? date b) || ((date a =? date b) && String.leb (time a) (time b)).

Definition dateDescending (a b : Appointment) : bool := date b <=? date a.

Definition createdAtDescending (a b : Appointment) : bool :=
  createdAt b <=? createdAt a.

(** [Appointment.find(filter).populate(...)] *)
Definition Appointment_find_populate (filter : Appointment -> bool)
  : Handler (list Populated) :=
  fun st =>
    (Next (map (populate st) (List.filter filter (appointments st))), st).

(** *** GET /doctor/appointments *)

Record DoctorAppointmentView := mkDoctorAppointmentView {
  dav_id : ObjectId;
  dav_patient : string;
  dav_patientEmail : string;
  dav_patientPhone : string;
  dav_date : string;
  dav_time : string;
  dav_status : string;
  dav_createdAt : Instant
}.

Definition doctorAppointmentView (p : Populated) : DoctorAppointmentView :=
  let appt := doc p in
  mkDoctorAppointmentView (_id appt)
    (orString (userField name (pop_user p)) "Unknown Patient")
    (orString (userField email (pop_user p)) "")
    (orString (userField phone (pop_user p)) "")
    (isoDate (date appt)) (time appt) (status appt) (createdAt appt).

(** The route asks for no role: the profile of the identity decides. *)
Definition doctorAppointments (auth : Auth)
  : Store -> Answer (Page DoctorAppointmentView) * Store :=
  route (
    (* Find doctor profile *)
    found <- Doctor_findOne (fun d => N.eqb (userId d) (req_userId auth)) ;;
    doctor <- required found 404 (Message "Doctor profile not found") ;;
    (* Get all appointments for this doctor *)
    appointments <-
      Appointment_find_populate_sort
        (fun a => N.eqb (doctor_id a) (doc_id doctor)) dateTimeAscending ;;
    (* Format appointments for frontend *)
    answer 200 (page (map doctorAppointmentView appointments)))
    "Server error".

(** *** GET /patient/appointments ([routes/userRoutes.js]) *)

Record PatientAppointmentView := mkPatientAppointmentView {
  pav_id : ObjectId;
  pav_date : string;
  pav_time : string;
  pav_status : string;
  pav_symptoms : string;
  pav_notes : string;
  pav_specialization : string;
  pav_fees : Number;
  pav_createdAt : Instant
}.

(** [appt.doctor_id?.fees || 0] and [appt.doctor_id?.specialization ||
    "Unknown"] on a populated appointment. *)
Definition feesOf (p : Populated) : Number :=
  orZero (match pop_doctor p with Some (d, _) => fees d | None => None end).

Definition specializationOf (p : Populated) : string :=
  orString (option_map (fun d => specialization (fst d)) (pop_doctor p))
    "Unknown".

Definition patientAppointmentView (p : Populated) : PatientAppointmentView :=
  let appt := doc p in
  mkPatientAppointmentView (_id appt) (isoDate (date appt)) (time appt)
    (status appt) (symptoms appt) (notes appt) (specializationOf p) (feesOf p)
    (createdAt appt).

Definition patientOnly : Handler unit :=
  send 403 (Message "Only patients can access this endpoint").

Definition patientAppointments (auth : Auth)
  : Store -> Answer (Page PatientAppointmentView) * Store :=
  route (
    (* Check if user is a patient *)
    when (negb (String.eqb (userRole auth) "Patient")) patientOnly ;;
    appointments <-
      Appointment_find_populate_sort
        (fun a => N.eqb (user_id a) (req_userId auth)) dateTimeAscending ;;
    (* Format appointments for frontend *)
    answer 200 (page (map patientAppointmentView appointments)))
    "Server error".

(** *** GET /patient/dashboard ([routes/userRoutes.js]) *)

Record PatientStats := mkPatientStats {
  totalVisits : nat;
  ps_upcomingAppointments : nat;
  totalBills : Number
}.

Record RecentView := mkRecentView {
  rv_id : ObjectId;
  rv_date : string;
  rv_time : string;
  rv_status : string;
  rv_specialization : string;
  rv_fees : Number
}.

Record PatientDashboard := mkPatientDashboard {
  pd_user : PatientView;
  pd_stats : PatientStats;
  recentAppointments : list RecentView
}.

Definition recentView (p : Populated) : RecentView :=
  let appt := doc p in
  mkRecentView (_id appt) (isoDate (date appt)) (time appt) (status appt)
    (specializationOf p) (feesOf p).

(** The handler reads [new Date()] once, for the upcoming count.  Its first
    query ([allAppointments]) is read and not used. *)
Definition patientDashboard (env : Env) (auth : Auth)
  : Store -> Answer PatientDashboard * Store :=
  route (
    (* Check if user is a patient *)
    when (negb (String.eqb (userRole auth) "Patient")) patientOnly ;;
    (* Get user details *)
    found <- User_findById (req_userId auth) ;;
    user <- required found 404 (Message "User not found") ;;
    let own := fun a => N.eqb (user_id a) (req_userId auth) in
    allAppointments <- Appointment_find own ;;
    (* Total completed appointments (visits) *)
    totalVisits <-
      Appointment_countDocuments (fun a =>
        own a
        && includes ["Completed"; "Done"; "Approved"; "Finished"; "Attended"]
             (status a)) ;;
    (* Upcoming appointments *)
    upcomingAppointments <-
      Appointment_countDocuments (fun a =>
        own a && (now env <=? date a)
        && includes ["Pending"; "Confirmed"; "Scheduled"; "Booked"] (status a)) ;;
    (* Calculate total bills (all appointments * doctor fees for now) *)
    allAppointmentsWithFees <- Appointment_find_populate own ;;
    let totalBills :=
      fold_left (fun total appt => jsAdd total (feesOf appt))
        allAppointmentsWithFees (num 0) in
    (* If no appointments found, set default values for testing *)
    let empty := Nat.eqb (List.length allAppointmentsWithFees) 0 in
    let totalVisits := if empty then O else totalVisits in
    let upcomingAppointments := if empty then O else upcomingAppointments in
    let totalBills := if empty then num 0 else totalBills in
    (* Get recent appointments *)
    sorted <- Appointment_find_populate_sort own dateDescending ;;
    let recentAppointments := firstn 5 sorted in
    answer 200
      (mkPatientDashboard
         (mkPatientView (Some (usr_id user)) (name user) (email user) (phone user))
         (mkPatientStats totalVisits upcomingAppointments totalBills)
         (map recentView recentAppointments)))
    "Server error".

(** *** GET /admin/dashboard *)

Record AdminStats := mkAdminStats {
  totalUsers : nat;
  totalDoctors : nat;
  totalAppointments : nat;
  pendingAppointments : nat;
  confirmedAppointments : nat;
  completedAppointments : nat;
  cancelledAppointments : nat;
  expiredAppointments : nat
}.

Record AdminRecentView := mkAdminRecentView {
  arv_id : ObjectId;
  arv_date : string;
  arv_time : string;
  arv_status : string;
  arv_patient : string;
  arv_doctor : string;
  arv_specialization : string
}.

Record AdminDashboard := mkAdminDashboard {
  ad_name : string;
  ad_email : string;
  ad_permissions : list string;
  ad_stats : AdminStats;
  ad_recentAppointments : list AdminRecentView
}.

Definition adminRecentView (p : Populated) : AdminRecentView :=
  let appt := doc p in
  mkAdminRecentView (_id appt) (isoDate (date appt)) (time appt) (status appt)
    (orString (userField name (pop_user p)) "Unknown")
    (orString
       (match pop_doctor p with Some (_, u) => userField name u | None => None end)
       "Unknown")
    (specializationOf p).

Definition Admin_findOne (filter : Admin -> bool) : Handler (option Admin) :=
  fun st => (Next (find filter (admins st)), st).

Definition User_countDocuments (filter : User -> bool) : Handler nat :=
  fun st => (Next (List.length (List.filter filter (users st))), st).

Definition hasRole (r : string) (u : User) : bool := String.eqb (role u) r.

Definition hasStatus (s : string) (a : Appointment) : bool :=
  String.eqb (status a) s.

Definition adminDashboard (auth : Auth)
  : Store -> Answer AdminDashboard * Store :=
  route (
    when (negb (isAdmin auth)) adminOnly ;;
    (* Get admin details and permissions *)
    adminDetails <- Admin_findOne (fun a => N.eqb (adm_user_id a) (req_userId auth)) ;;
    adminUser <-
      match adminDetails with
      | Some a => User_findById (adm_user_id a)
      | None => ret None
      end ;;
    (* Get statistics *)
    totalUsers <- User_countDocuments (hasRole "Patient") ;;
    totalDoctors <- User_countDocuments (hasRole "Doctor") ;;
    totalAppointments <- Appointment_countDocuments (fun _ => true) ;;
    pendingAppointments <- Appointment_countDocuments (hasStatus "Pending") ;;
    confirmedAppointments <- Appointment_countDocuments (hasStatus "Confirmed") ;;
    completedAppointments <- Appointment_countDocuments (hasStatus "Completed") ;;
    cancelledAppointments <- Appointment_countDocuments (hasStatus "Cancelled") ;;
    expiredAppointments <- Appointment_countDocuments (hasStatus "Expired") ;;
    (* Get recent appointments *)
    sorted <- Appointment_find_populate_sort (fun _ => true) createdAtDescending ;;
    let recentAppointments := firstn 5 sorted in
    answer 200
      (mkAdminDashboard
         (orString (userField name adminUser) "Admin")
         (orString (userField email adminUser) "")
         (match adminDetails with Some a => permissions a | None => [] end)
         (mkAdminStats totalUsers totalDoctors totalAppointments
            pendingAppointments confirmedAppointments completedAppointments
            cancelledAppointments expiredAppointments)
         (map adminRecentView recentAppointments)))
    "Server error".

(** *** POST /admin/create and DELETE /admin/:id *)

Record CreatedAdmin := mkCreatedAdmin {
  ca_message : string;
  ca_id : ObjectId;
  ca_userId : ObjectId;
  ca_permissions : list string
}.

Definition defaultPermissions : list string :=
  ["view_appointments"; "manage_appointments"; "view_users"; "view_doctors"].

(** [User.findByIdAndUpdate(id, { role })] *)
Definition User_setRole (id : ObjectId) (r : string) : Handler unit :=
  fun st =>
    (Next tt,
     withUsers st
       (updateFirst (fun u => N.eqb (usr_id u) id)
          (fun u => mkUser (usr_id u) (name u) (email u) (phone u) (address u) r)
          (users st))).

Definition withAdmins (st : Store) (l : list Admin) : Store :=
  mkStore (users st) (doctors st) (appointments st) l (feedbacks st)
    (consultations st).

Definition Admin_findByIdAndDelete (id : ObjectId) : Handler (option Admin) :=
  fun st =>
    (Next (find (fun a => N.eqb (adm_id a) id) (admins st)),
     withAdmins st (removeFirst (fun a => N.eqb (adm_id a) id) (admins st))).

Definition deleteAdmin (auth : Auth) (id : ObjectId) : Store -> Response * Store :=
  tryCatch (
    when (negb (isAdmin auth)) adminOnly ;;
    found <- Admin_findByIdAndDelete id ;;
    admin <- required found 404 (Message "Admin not found") ;;
    (* Update user role back to Patient *)
    User_setRole (adm_user_id admin) "Patient" ;;
    send 200 (Message "Admin removed successfully"))
    "Server error".

Section AdminSchema.

(** The validation of the Admin schema ([models/Admin.js] is not among the
    sources): which permission lists [save] accepts. *)
Variable permissionsValid : list string -> bool.

(** [admin.save()] of a new document; as for appointments, an identifier the
    collection holds makes it throw. *)
Definition Admin_save (a : Admin) : Handler unit :=
  fun st =>
    if permissionsValid (permissions a)
       && negb (existsb (fun x => N.eqb (adm_id x) (adm_id a)) (admins st))
    then (Next tt, withAdmins st (admins st ++ [a]))
    else (Thrown, st).

(** The body carries [userId], cast as the identifiers of the other
    requests are, and may carry [permissions]; an empty array is truthy and
    is kept. *)
Definition createAdmin (env : Env) (auth : Auth) (userId : ObjectId)
  (requested : option (list string)) : Store -> Answer CreatedAdmin * Store :=
  route (
    (* Check if current user is admin *)
    when (negb (isAdmin auth))
      (send 403 (Message "Only admins can create other admins")) ;;
    (* Check if user exists *)
    user <- User_findById userId ;;
    when (match user with Some _ => false | None => true end)
      (send 404 (Message "User not found")) ;;
    (* Check if user is already an admin *)
    existingAdmin <- Admin_findOne (fun a => N.eqb (adm_user_id a) userId) ;;
    when (match existingAdmin with Some _ => true | None => false end)
      (send 400 (Message "User is already an admin")) ;;
    (* Create admin record *)
    let admin :=
      mkAdmin (newId env) userId
        (match requested with Some l => l | None => defaultPermissions end) in
    Admin_save admin ;;
    (* Update user role to Admin *)
    User_setRole userId "Admin" ;;
    answer 200
      (mkCreatedAdmin "Admin created successfully" (adm_id admin)
         (adm_user_id admin) (permissions admin)))
    "Server error".

End AdminSchema.

Ltac unfold_route :=
  unfold route, answer, patientOnly, Appointment_find_populate, Admin_findOne,
    User_countDocuments, User_setRole, Admin_findByIdAndDelete, Admin_save,
    Appointment_findByIdAndDelete;
  unfold_handler.

(** [a] stands before [b] in the order of the doctor's and the patient's
    list: on an earlier date, or on the same date at a time that is not
    greater as a string. *)
Definition listedAscending (a b : Appointment) : Prop :=
  date a < date b \/ (date a = date b /\ String.leb (time a) (time b) = true).

(** The appointments of the identity [u] as a patient. *)
Definition ownAppointments (u : ObjectId) (st : Store) : list Appointment :=
  List.filter (fun a => N.eqb (user_id a) u) (appointments st).

(** The fee the store has now for the doctor of an appointment: that of the
    first profile under the appointment's [doctor_id], and 0 where the
    profile is missing or its fee is missing, zero or no number. *)
Definition billOf (st : Store) (a : Appointment) : Number :=
  match find (fun d => N.eqb (doc_id d) (doctor_id a)) (doctors st) with
  | Some d =>
      match fees d with
      | Some (S754_finite s m e) => S754_finite s m e
      | Some (S754_infinity s) => S754_infinity s
      | _ => S754_zero false
      end
  | None => S754_zero false
  end.

(** The Numbers of a list added from the left, starting at 0. *)
Definition jsSum (l : list Number) : Number := fold_left jsAdd l (num 0).

Definition sumZ (l : list Z) : Z := fold_right Z.add 0 l.

(** The statuses the admin dashboard has a counter for. *)
Definition countedStatuses : list string :=
  ["Pending"; "Confirmed"; "Completed"; "Cancelled"; "Expired"].

(** The role of the user [U], when the user exists. *)
Definition roleOf (U : ObjectId) (st : Store) : option string :=
  option_map role (find (fun u => N.eqb (usr_id u) U) (users st)).

(** The admin record of the user [U], when there is one. *)
Definition adminOf (U : ObjectId) (st : Store) : option Admin :=
  find (fun a => N.eqb (adm_user_id a) U) (admins st).

(** The two stores differ at most in their users and admins. *)
Definition sameButUsersAndAdmins (st st' : Store) : Prop :=
  doctors st' = doctors st /\ appointments st' = appointments st
  /\ feedbacks st' = feedbacks st /\ consultations st' = consultations st.

(** The identifier is not in use in the admin collection. *)
Definition freshAdminId (id : ObjectId) (st : Store) : Prop :=
  existsb (fun x => N.eqb (adm_id x) id) (admins st) = false.

(** [User.findByIdAndUpdate(U, { role: r })] on the list of users. *)
Definition withRole (U : ObjectId) (r : string) (l : list User) : list User :=
  updateFirst (fun u => N.eqb (usr_id u) U)
    (fun u => mkUser (usr_id u) (name u) (email u) (phone u) (address u) r) l.

(** * Properties *)

(** ** Numbers

    Whole values below 2^53 are Numbers of their own, and their sums and
    products are exact as long as they stay below 2^53. *)

Lemma iter_xO_value p d : Zpos (Pos.iter xO p d) = Zpos p * 2 ^ Zpos d.
Proof.
  induction d as [|d IH] using Pos.peano_ind.
  - simpl. lia.
  - rewrite Pos.iter_succ, Pos2Z.inj_xO, IH, Pos2Z.inj_succ, Z.pow_succ_r by lia.
    lia.
Qed.

Lemma iter_xO_digits p d :
  digits2_pos (Pos.iter xO p d) = (digits2_pos p + d)%positive.
Proof.
  induction d as [|d IH] using Pos.peano_ind.
  - simpl. lia.
  - rewrite Pos.iter_succ. simpl. rewrite IH. lia.
Qed.

Lemma shlP_value p k : 0 <= k -> Zpos (shlP p k) = Zpos p * 2 ^ k.
Proof.
  destruct k as [|d|d]; intros Hk; try lia.
  - simpl. lia.
  - apply iter_xO_value.
Qed.

Lemma shlP_digits p k :
  0 <= k -> Zpos (digits2_pos (shlP p k)) = Zpos (digits2_pos p) + k.
Proof.
  destruct k as [|d|d]; intros Hk; try lia.
  - simpl. lia.
  - simpl. rewrite iter_xO_digits. lia.
Qed.

Lemma iter_pos_iter {A : Type} (f : A -> A) n x :
  iter_pos f n x = Pos.iter f x n.
Proof.
  revert x. induction n as [n IH|n IH|]; intros x; simpl.
  - rewrite !IH, !Pos.iter_swap. reflexivity.
  - rewrite !IH. reflexivity.
  - reflexivity.
Qed.

Lemma shr_exact m d :
  iter_pos shr_1 d (Build_shr_record (Zpos (Pos.iter xO m d)) false false)
  = Build_shr_record (Zpos m) false false.
Proof.
  rewrite iter_pos_iter.
  induction d as [|d IH] using Pos.peano_ind.
  - reflexivity.
  - rewrite !Pos.iter_succ, <- Pos.iter_swap. simpl shr_1. exact IH.
Qed.

Lemma digits_bounds p :
  2 ^ (Zpos (digits2_pos p) - 1) <= Zpos p < 2 ^ Zpos (digits2_pos p).
Proof.
  induction p as [p IH|p IH|]; simpl digits2_pos.
  - rewrite Pos2Z.inj_succ, (Pos2Z.inj_xI p).
    replace (Z.succ (Zpos (digits2_pos p)) - 1)
      with (Z.succ (Zpos (digits2_pos p) - 1)) by lia.
    rewrite !Z.pow_succ_r by lia.
    generalize dependent (2 ^ (Zpos (digits2_pos p) - 1)).
    generalize (2 ^ Zpos (digits2_pos p)). intros; lia.
  - rewrite Pos2Z.inj_succ, (Pos2Z.inj_xO p).
    replace (Z.succ (Zpos (digits2_pos p)) - 1)
      with (Z.succ (Zpos (digits2_pos p) - 1)) by lia.
    rewrite !Z.pow_succ_r by lia.
    generalize dependent (2 ^ (Zpos (digits2_pos p) - 1)).
    generalize (2 ^ Zpos (digits2_pos p)). intros; lia.
  - simpl. lia.
Qed.

Lemma digits_le p n : 0 <= n -> Zpos p < 2 ^ n -> Zpos (digits2_pos p) <= n.
Proof.
  intros Hn Hp. destruct (digits_bounds p) as [Hlo _].
  assert (H : 2 ^ (Zpos (digits2_pos p) - 1) < 2 ^ n) by lia.
  apply Z.pow_lt_mono_r_iff in H; lia.
Qed.

Lemma digits_gt p n : 0 <= n -> 2 ^ n <= Zpos p -> n < Zpos (digits2_pos p).
Proof.
  intros Hn Hp. destruct (digits_bounds p) as [_ Hhi].
  assert (H : 2 ^ n < 2 ^ Zpos (digits2_pos p)) by lia.
  apply Z.pow_lt_mono_r_iff in H; lia.
Qed.

Lemma digits_lt_pow p : Zpos (digits2_pos p) <= 53 -> Zpos p < 2 ^ 53.
Proof.
  intros H. destruct (digits_bounds p) as [_ Hhi].
  assert (2 ^ Zpos (digits2_pos p) <= 2 ^ 53) by (apply Z.pow_le_mono_r; lia).
  lia.
Qed.

(** Rounding a mantissa whose low bits are all zero is exact. *)
Lemma round_exact s q j E :
  let dq := Zpos (digits2_pos q) in
  dq <= 53 -> 53 <= dq + j -> -1074 <= dq + j + E - 53 ->
  E + (dq + j - 53) <= 971 ->
  binary_round_aux 53 1024 s (Zpos (shlP q j)) E loc_Exact
  = S754_finite s (shlP q (53 - dq)) (E + (dq + j - 53)).
Proof.
  intros dq Hd Hj Hlo Hhi.
  assert (Hj0 : 0 <= j) by lia.
  unfold binary_round_aux, shr_fexp.
  unfold Zdigits2 at 1. rewrite (shlP_digits q j Hj0). fold dq.
  assert (Hf : fexp 53 1024 (dq + j + E) - E = dq + j - 53).
  { unfold fexp, emin. lia. }
  rewrite Hf.
  assert (Hm : shlP q j = shlP (shlP q (53 - dq)) (dq + j - 53)).
  { apply Pos2Z.inj. rewrite !shlP_value by lia.
    rewrite <- Z.mul_assoc, <- Z.pow_add_r by lia. f_equal. f_equal. lia. }
  assert (Hd1 : Zpos (digits2_pos (shlP q (53 - dq))) = 53).
  { rewrite shlP_digits by lia. fold dq. lia. }
  assert (Hshr : shr (shr_record_of_loc (Zpos (shlP q j)) loc_Exact) E (dq + j - 53)
                 = (Build_shr_record (Zpos (shlP q (53 - dq))) false false,
                    E + (dq + j - 53))).
  { rewrite Hm. destruct (dq + j - 53) as [|d|d] eqn:En; try lia.
    - simpl. f_equal. lia.
    - unfold shr, shr_record_of_loc. simpl shlP. rewrite shr_exact. reflexivity. }
  rewrite Hshr. cbn [shr_m loc_of_shr_record round_nearest_even].
  unfold Zdigits2. rewrite Hd1.
  assert (Hf2 : fexp 53 1024 (53 + (E + (dq + j - 53))) - (E + (dq + j - 53)) = 0).
  { unfold fexp, emin. lia. }
  rewrite Hf2. cbn [shr shr_record_of_loc shr_m].
  replace (E + (dq + j - 53) <=? 1024 - 53) with true
    by (symmetry; apply Z.leb_le; lia).
  reflexivity.
Qed.

Lemma num_pos q :
  Zpos (digits2_pos q) <= 53 ->
  num (Zpos q)
  = S754_finite false (shlP q (53 - Zpos (digits2_pos q)))
      (Zpos (digits2_pos q) - 53).
Proof.
  intros Hd. unfold num, binary_normalize, binary_round.
  assert (Hf : fexp 53 1024 (Zpos (digits2_pos q) + 0) = Zpos (digits2_pos q) - 53).
  { unfold fexp, emin. lia. }
  rewrite Hf.
  assert (Hs : shl_align q 0 (Zpos (digits2_pos q) - 53)
               = (shlP q (53 - Zpos (digits2_pos q)),
                  if Zpos (digits2_pos q) =? 53 then 0 else Zpos (digits2_pos q) - 53)).
  { unfold shl_align.
    destruct (Zpos (digits2_pos q) - 53 - 0) as [|d|d] eqn:En; try lia.
    - replace (53 - Zpos (digits2_pos q)) with 0 by lia.
      replace (Zpos (digits2_pos q) =? 53) with true
        by (symmetry; apply Z.eqb_eq; lia).
      reflexivity.
    - replace (53 - Zpos (digits2_pos q)) with (Zpos d) by lia.
      replace (Zpos (digits2_pos q) =? 53) with false
        by (symmetry; apply Z.eqb_neq; lia).
      reflexivity. }
  rewrite Hs.
  set (E := if Zpos (digits2_pos q) =? 53 then 0 else Zpos (digits2_pos q) - 53).
  assert (HE : E = Zpos (digits2_pos q) - 53).
  { unfold E. destruct (Z.eqb_spec (Zpos (digits2_pos q)) 53); lia. }
  rewrite (round_exact false q (53 - Zpos (digits2_pos q)) E) by lia.
  f_equal. lia.
Qed.

Lemma num_0 : num 0 = S754_zero false.
Proof. reflexivity. Qed.

Lemma mul_digits p q :
  Zpos (digits2_pos p) + Zpos (digits2_pos q) - 1 <= Zpos (digits2_pos (p * q)).
Proof.
  destruct (digits_bounds p) as [Hp _]. destruct (digits_bounds q) as [Hq _].
  assert (Hd : 1 <= Zpos (digits2_pos p) /\ 1 <= Zpos (digits2_pos q)) by lia.
  assert (H : 2 ^ (Zpos (digits2_pos p) - 1 + (Zpos (digits2_pos q) - 1))
              <= Zpos (p * q)).
  { rewrite Z.pow_add_r by lia. rewrite Pos2Z.inj_mul.
    apply Z.mul_le_mono_nonneg; lia. }
  apply digits_gt in H; lia.
Qed.

(** The product of two whole Numbers is exact when it is below 2^53. *)
Lemma jsMul_exact a b :
  0 <= a < 2 ^ 53 -> 0 <= b < 2 ^ 53 -> a * b < 2 ^ 53 ->
  jsMul (num a) (num b) = num (a * b).
Proof.
  intros Ha Hb Hab.
  destruct a as [|p|p]; [| |lia].
  { destruct b as [|q|q]; [reflexivity| |lia].
    rewrite num_pos by (apply digits_le; lia). reflexivity. }
  destruct b as [|q|q]; [| |lia].
  { rewrite num_pos by (apply digits_le; lia). reflexivity. }
  assert (Hp : Zpos (digits2_pos p) <= 53) by (apply digits_le; lia).
  assert (Hq : Zpos (digits2_pos q) <= 53) by (apply digits_le; lia).
  assert (Hpq : Zpos (digits2_pos (p * q)) <= 53)
    by (apply digits_le; [lia | rewrite Pos2Z.inj_mul; lia]).
  pose proof (mul_digits p q) as Hm.
  rewrite (num_pos p Hp), (num_pos q Hq).
  change (Zpos p * Zpos q) with (Zpos (p * q)). rewrite (num_pos _ Hpq).
  unfold jsMul, SFmul. simpl xorb.
  set (dp := Zpos (digits2_pos p)) in *. set (dq := Zpos (digits2_pos q)) in *.
  set (d := Zpos (digits2_pos (p * q))) in *.
  assert (He : (shlP p (53 - dp) * shlP q (53 - dq))%positive
               = shlP (p * q) (53 - dp + (53 - dq))).
  { apply Pos2Z.inj. rewrite Pos2Z.inj_mul, !shlP_value by lia.
    rewrite Pos2Z.inj_mul, Z.pow_add_r by lia. ring. }
  rewrite He.
  rewrite (round_exact false (p * q) (53 - dp + (53 - dq)) (dp - 53 + (dq - 53)))
    by (fold d; lia).
  fold d. f_equal. lia.
Qed.

Lemma add_digits p q :
  Zpos (digits2_pos p) <= Zpos (digits2_pos (p + q)).
Proof.
  destruct (digits_bounds p) as [Hp _].
  assert (H : 2 ^ (Zpos (digits2_pos p) - 1) <= Zpos (p + q)) by lia.
  apply digits_gt in H; lia.
Qed.

(** So is the sum of two whole Numbers. *)
Lemma jsAdd_exact a b :
  0 <= a -> 0 <= b -> a + b < 2 ^ 53 ->
  jsAdd (num a) (num b) = num (a + b).
Proof.
  intros Ha Hb Hab.
  destruct a as [|p|p]; [| |lia].
  { destruct b as [|q|q]; [reflexivity| |lia].
    rewrite Z.add_0_l, num_pos by (apply digits_le; lia). reflexivity. }
  destruct b as [|q|q]; [| |lia].
  { rewrite Z.add_0_r, num_pos by (apply digits_le; lia). reflexivity. }
  assert (Hp : Zpos (digits2_pos p) <= 53) by (apply digits_le; lia).
  assert (Hq : Zpos (digits2_pos q) <= 53) by (apply digits_le; lia).
  assert (Hpq : Zpos (digits2_pos (p + q)) <= 53)
    by (apply digits_le; lia).
  pose proof (add_digits p q) as Hm1.
  pose proof (add_digits q p) as Hm2. rewrite (Pos.add_comm q p) in Hm2.
  rewrite (num_pos p Hp), (num_pos q Hq).
  change (Zpos p + Zpos q) with (Zpos (p + q)). rewrite (num_pos _ Hpq).
  unfold jsAdd, SFadd, cond_Zopp.
  set (dp := Zpos (digits2_pos p)) in *. set (dq := Zpos (digits2_pos q)) in *.
  set (d := Zpos (digits2_pos (p + q))) in *.
  set (ez := Z.min (dp - 53) (dq - 53)).
  assert (Hal : forall r dr, dr <= 53 -> ez <= dr - 53 ->
            fst (shl_align (shlP r (53 - dr)) (dr - 53) ez) = shlP r (- ez)).
  { intros r dr Hr Hez. unfold shl_align.
    destruct (ez - (dr - 53)) as [|k|k] eqn:En; try lia; cbn [fst].
    - f_equal. lia.
    - apply Pos2Z.inj. rewrite iter_xO_value, !shlP_value by lia.
      rewrite <- Z.mul_assoc, <- Z.pow_add_r by lia. f_equal. f_equal. lia. }
  rewrite (Hal p dp), (Hal q dq) by (unfold ez; lia).
  assert (Hs : Zpos (shlP p (- ez)) + Zpos (shlP q (- ez))
               = Zpos (shlP (p + q) (- ez))).
  { rewrite !shlP_value by (unfold ez; lia). rewrite Pos2Z.inj_add. ring. }
  rewrite Hs. unfold binary_normalize, binary_round.
  rewrite shlP_digits by (unfold ez; lia). fold d.
  assert (Hf : fexp 53 1024 (d + - ez + ez) = d - 53).
  { unfold fexp, emin. unfold d. lia. }
  rewrite Hf.
  assert (Hsa : shl_align (shlP (p + q) (- ez)) ez (d - 53)
                = (shlP (p + q) (- ez), ez)).
  { unfold shl_align. destruct (d - 53 - ez) as [|k|k] eqn:En; try reflexivity.
    unfold ez in En. lia. }
  rewrite Hsa.
  rewrite (round_exact false (p + q) (- ez) ez) by (fold d; unfold ez; lia).
  fold d. f_equal. lia.
Qed.

(** Different whole values below 2^53 are different Numbers. *)
Lemma num_inj a b :
  0 <= a < 2 ^ 53 -> 0 <= b < 2 ^ 53 -> num a = num b -> a = b.
Proof.
  intros Ha Hb.
  destruct a as [|p|p]; [| |lia]; destruct b as [|q|q]; try lia;
    rewrite ?num_0, ?num_pos by (apply digits_le; lia); try discriminate.
  intros H.
  pose (ex := fun x => match x with S754_finite _ _ e => e | _ => 0 end).
  pose (mx := fun x => match x with S754_finite _ m _ => Zpos m | _ => 0 end).
  pose proof (f_equal ex H) as He. pose proof (f_equal mx H) as Hm.
  cbv beta delta [ex mx] iota in He, Hm. clear ex mx.
  assert (Hd : Zpos (digits2_pos p) = Zpos (digits2_pos q)) by lia.
  rewrite Hd in Hm.
  assert (Hq : Zpos (digits2_pos q) <= 53) by (apply digits_le; lia).
  rewrite !shlP_value in Hm by lia.
  apply Z.mul_cancel_r in Hm; [exact Hm|].
  apply Z.pow_nonzero; lia.
Qed.

(** ** Dates as the answers print them *)

Example isoDate_epoch : isoDate 0 = "1970-01-01".
Proof. reflexivity. Qed.

Example isoDate_jan10 : isoDate Clinic.jan10 = "2025-01-10".
Proof. reflexivity. Qed.

Example isoDate_leap_day : isoDate (951782400000 + 86399999) = "2000-02-29".
Proof. reflexivity. Qed.

Example isoDate_before_epoch : isoDate (-1) = "1969-12-31".
Proof. reflexivity. Qed.

(** ** The patient booking *)

Lemma slotFilter_onSlot doctor d t blocking a :
  slotFilter doctor d t blocking a
  = onSlot doctor d t a && includes blocking (status a).
Proof. reflexivity. Qed.

Lemma find_none_filter {A : Type} (p q : A -> bool) (l : list A) :
  List.filter q l = [] ->
  (forall x, p x = true -> q x = true) ->
  find p l = None.
Proof.
  intros Hq Hpq.
  induction l as [|x l IH]; simpl in *; [reflexivity|].
  destruct (q x) eqn:Eq; [discriminate|].
  destruct (p x) eqn:Ep.
  - apply Hpq in Ep. congruence.
  - auto.
Qed.

Lemma find_app_last {A : Type} (p : A -> bool) (l : list A) (x : A) :
  find p l = None -> p x = true -> find p (l ++ [x]) = Some x.
Proof.
  intros Hl Hx.
  induction l as [|y l IH]; simpl in *.
  - now rewrite Hx.
  - destruct (p y); [discriminate | auto].
Qed.

Lemma truthy_nonEmpty (s : string) :
  s <> "" -> nonEmpty (Some s) = Some s.
Proof.
  intros Hs. unfold nonEmpty, truthy.
  destruct (String.eqb_spec s ""); [contradiction | reflexivity].
Qed.

(** The patient booking when nothing stops it. *)
Lemma bookAppointment_created env auth body st D T S :
  userRole auth = "Patient" ->
  asksFor body D T S ->
  doctorExists D st ->
  find (slotFilter D T S ["Pending"; "Upcoming"]) (appointments st) = None ->
  freshId (newId env) st ->
  let a := newAppointment env (req_userId auth) D T S
             (orString (body_symptoms body) "") (orString (body_notes body) "")
             "Pending" in
  bookAppointment env auth body st
  = (mkResponse 201 (Booked "Appointment booked successfully" (bookedView a)),
     withAppointments st (appointments st ++ [a])).
Proof.
  intros Hrole (Hd & Hdate & Htime & HS) Hdoc Hfree Hfresh a.
  unfold bookAppointment. unfold_handler.
  rewrite Hrole, Hd, Hdate, Htime, (truthy_nonEmpty _ HS). simpl.
  unfold doctorExists in Hdoc.
  destruct (find _ (doctors st)); [|contradiction].
  rewrite Hfree. simpl. unfold freshId in Hfresh. rewrite Hfresh. reflexivity.
Qed.

(** The patient booking of a slot held by a [Pending] (or [Upcoming])
    appointment. *)
Lemma bookAppointment_conflict env auth body st D T S held :
  userRole auth = "Patient" ->
  asksFor body D T S ->
  doctorExists D st ->
  find (slotFilter D T S ["Pending"; "Upcoming"]) (appointments st) = Some held ->
  bookAppointment env auth body st = (ConflictError, st).
Proof.
  intros Hrole (Hd & Hdate & Htime & HS) Hdoc Hheld.
  unfold bookAppointment. unfold_handler.
  rewrite Hrole, Hd, Hdate, Htime, (truthy_nonEmpty _ HS). simpl.
  unfold doctorExists in Hdoc.
  destruct (find _ (doctors st)); [|contradiction].
  rewrite Hheld. reflexivity.
Qed.

Lemma filter_app_last {A : Type} (p : A -> bool) (l : list A) (x : A) :
  List.filter p l = [] -> p x = true -> List.filter p (l ++ [x]) = [x].
Proof.
  intros Hl Hx. rewrite filter_app, Hl. simpl. now rewrite Hx.
Qed.

Lemma onSlot_refl (D : ObjectId) (T : Instant) (S : string) a :
  doctor_id a = D -> date a = T -> time a = S -> onSlot D T S a = true.
Proof.
  intros <- <- <-. unfold onSlot.
  now rewrite N.eqb_refl, Z.eqb_refl, String.eqb_refl.
Qed.

(** C1 (P1, no double active booking).  On a slot (D, T, S) that no
    appointment occupies, two patient bookings run one after the other give:
    a 201 answer and one new [Pending] appointment for the first, and for
    the second the conflict answer (400, "This time slot is already booked")
    with the store left as the first booking made it; the slot then holds
    exactly that one appointment. *)
Theorem no_double_booking
  (st : Store) (env1 env2 : Env) (auth1 auth2 : Auth) (body1 body2 : Body)
  (D : ObjectId) (T : Instant) (S : string) :
  userRole auth1 = "Patient" ->
  userRole auth2 = "Patient" ->
  asksFor body1 D T S ->
  asksFor body2 D T S ->
  doctorExists D st ->
  List.filter (onSlot D T S) (appointments st) = [] ->
  freshId (newId env1) st ->
  let first := bookAppointment env1 auth1 body1 st in
  let second := bookAppointment env2 auth2 body2 (snd first) in
  exists a : Appointment,
    fst first
    = mkResponse 201 (Booked "Appointment booked successfully" (bookedView a))
    /\ status a = "Pending"
    /\ appointments (snd first) = appointments st ++ [a]
    /\ fst second = ConflictError
    /\ snd second = snd first
    /\ List.filter (onSlot D T S) (appointments (snd second)) = [a].
Proof.
  intros Hr1 Hr2 Hb1 Hb2 Hdoc Hempty Hfresh first second.
  assert (Hfree : find (slotFilter D T S ["Pending"; "Upcoming"])
                    (appointments st) = None).
  { apply (find_none_filter _ (onSlot D T S)); [exact Hempty|].
    intros x Hx. rewrite slotFilter_onSlot in Hx.
    now apply andb_true_iff in Hx. }
  pose proof (bookAppointment_created env1 auth1 body1 st D T S
                Hr1 Hb1 Hdoc Hfree Hfresh) as H1.
  cbv zeta in H1.
  set (a := newAppointment env1 (req_userId auth1) D T S
              (orString (body_symptoms body1) "")
              (orString (body_notes body1) "") "Pending") in *.
  assert (Hslot : onSlot D T S a = true) by (apply onSlot_refl; reflexivity).
  assert (Hheld : find (slotFilter D T S ["Pending"; "Upcoming"])
                    (appointments (snd first)) = Some a).
  { subst first. rewrite H1. simpl.
    apply find_app_last; [exact Hfree|].
    rewrite slotFilter_onSlot, Hslot. reflexivity. }
  assert (H2 : second = (ConflictError, snd first)).
  { subst second.
    apply (bookAppointment_conflict env2 auth2 body2 (snd first) D T S a);
      auto.
    subst first. rewrite H1. exact Hdoc. }
  exists a. subst first. rewrite H2, H1. simpl.
  repeat split; try reflexivity.
  now apply filter_app_last.
Qed.

(** Alice, then Carol, ask for Dr Bob on 2025-01-10 at 10:00 AM. *)
Lemma no_double_booking_witness :
  let first :=
    bookAppointment Clinic.env1 (Clinic.asPatient 1) Clinic.tenOClock Clinic.empty in
  let second :=
    bookAppointment Clinic.env2 (Clinic.asPatient 4) Clinic.tenOClock (snd first) in
  exists a : Appointment,
    fst first
    = mkResponse 201 (Booked "Appointment booked successfully" (bookedView a))
    /\ status a = "Pending"
    /\ appointments (snd first) = appointments Clinic.empty ++ [a]
    /\ fst second = ConflictError
    /\ snd second = snd first
    /\ List.filter (onSlot 10 Clinic.jan10 "10:00 AM") (appointments (snd second))
       = [a].
Proof.
  apply (no_double_booking Clinic.empty Clinic.env1 Clinic.env2
           (Clinic.asPatient 1) (Clinic.asPatient 4)
           Clinic.tenOClock Clinic.tenOClock 10 Clinic.jan10 "10:00 AM").
  - reflexivity.
  - reflexivity.
  - repeat split; discriminate.
  - repeat split; discriminate.
  - discriminate.
  - reflexivity.
  - reflexivity.
Defined.

(** C2 (active-hold set of the patient booking), at the input where the
    route departs from it.  The admin books Alice with Dr Bob at 10:00 AM and
    leaves the status out, so the slot is held by a [Confirmed] appointment;
    Carol's patient booking of the same slot is nevertheless answered 201 and
    the slot ends up with two appointments.  The filter of the patient route
    lists "Pending" and "Upcoming", not "Confirmed". *)
Theorem confirmed_slot_booked_again :
  let before :=
    snd (adminCreateAppointment Clinic.env1 Clinic.asAdmin Clinic.aliceAtTen
           Clinic.empty) in
  let booking :=
    bookAppointment Clinic.env2 (Clinic.asPatient 4) Clinic.tenOClock before in
  map status (List.filter (onSlot 10 Clinic.jan10 "10:00 AM") (appointments before))
  = ["Confirmed"]
  /\ code (fst booking) = 201%nat
  /\ fst booking <> ConflictError
  /\ map status
       (List.filter (onSlot 10 Clinic.jan10 "10:00 AM") (appointments (snd booking)))
     = ["Confirmed"; "Pending"].
Proof.
  vm_compute. repeat split; try reflexivity. discriminate.
Qed.

(** ** The role gate of the patient booking *)

Lemma bookAppointment_not_patient env auth body st :
  userRole auth <> "Patient" ->
  bookAppointment env auth body st
  = (ForbiddenError "Only patients can book appointments", st).
Proof.
  intros Hrole. unfold bookAppointment. unfold_handler.
  destruct (String.eqb_spec (userRole auth) "Patient"); [contradiction|].
  reflexivity.
Qed.

(** C8 as stated fails: Carol signs in as a patient, owns the doctor profile
    11, books it, and is answered 201. *)
Lemma self_booking_not_refused :
  ~ selfBookingRefused Clinic.env1 (Clinic.asPatient 4) Clinic.carolAtTen
      Clinic.moonlighting.
Proof.
  intros H.
  destruct (H 11%N) as [Hcode _].
  - reflexivity.
  - exists Clinic.carolProfile. simpl. auto.
  - vm_compute in Hcode. discriminate.
Qed.

(** C8, amended.  A booking request on the patient route by an identity whose
    role is Doctor is answered 403 ("Only patients can book appointments")
    and leaves the store as it was, whatever the slot and whichever doctor
    profile is asked for, the identity's own included. *)
Theorem doctor_role_cannot_book env auth body st :
  userRole auth = "Doctor" ->
  bookAppointment env auth body st
  = (ForbiddenError "Only patients can book appointments", st).
Proof.
  intros Hrole. apply bookAppointment_not_patient.
  rewrite Hrole. discriminate.
Qed.

(** Dr Bob asks for his own profile on the patient route. *)
Lemma doctor_role_cannot_book_witness :
  bookAppointment Clinic.env1 (mkAuth 2 "Doctor") Clinic.tenOClock Clinic.empty
  = (ForbiddenError "Only patients can book appointments", Clinic.empty).
Proof.
  apply (doctor_role_cannot_book Clinic.env1 (mkAuth 2 "Doctor")
           Clinic.tenOClock Clinic.empty).
  reflexivity.
Defined.

(** ** The admin booking *)

Lemma includes_In (l : list string) (s : string) :
  includes l s = true <-> In s l.
Proof.
  unfold includes. rewrite existsb_exists. split.
  - intros (x & Hx & Heq). apply String.eqb_eq in Heq. now subst.
  - intros H. exists s. split; [exact H | apply String.eqb_refl].
Qed.

Lemma find_slotFilter_held blocking D T S st :
  find (slotFilter D T S blocking) (appointments st) <> None
  <-> held blocking D T S st.
Proof.
  split.
  - destruct (find _ _) as [a|] eqn:Hf; [intros _ | congruence].
    apply find_some in Hf. destruct Hf as [Hin Hp].
    rewrite slotFilter_onSlot in Hp. apply andb_true_iff in Hp.
    exists a. rewrite <- includes_In. tauto.
  - intros (a & Hin & Hslot & Hst) Hnone.
    pose proof (find_none _ _ Hnone a Hin) as Hp.
    rewrite slotFilter_onSlot, Hslot in Hp.
    apply includes_In in Hst. rewrite Hst in Hp. discriminate.
Qed.

Lemma find_fresh_last (l : list Appointment) (a : Appointment) :
  existsb (hasId (_id a)) l = false -> find (hasId (_id a)) (l ++ [a]) = Some a.
Proof.
  intros Hfresh. apply find_app_last.
  - destruct (find _ l) eqn:Hf; [|reflexivity].
    apply find_some in Hf.
    assert (existsb (hasId (_id a)) l = true) by (apply existsb_exists; eauto).
    congruence.
  - apply N.eqb_refl.
Qed.

(** What the admin route does once the request has passed its checks of the
    role, the fields, the user and the doctor. *)
Lemma adminCreateAppointment_run env auth body st U D T S :
  userRole auth = "Admin" ->
  body_user_id body = Some U ->
  asksFor body D T S ->
  userExists U st ->
  doctorExists D st ->
  adminCreateAppointment env auth body st
  = match find (slotFilter D T S ["Pending"; "Confirmed"]) (appointments st) with
    | Some _ => (ConflictError, st)
    | None =>
        let a := adminAppointment env body U D T S
                   (orString (body_status body) "Confirmed") in
        if includes statusEnum (status a)
           && negb (existsb (hasId (_id a)) (appointments st))
        then
          let st' := withAppointments st (appointments st ++ [a]) in
          match createdView a (option_map (populate st')
                                 (find (hasId (newId env)) (appointments st'))) with
          | Some view =>
              (mkResponse 201 (Created "Appointment booked successfully" view), st')
          | None => (mkResponse 500 (Message "Server error"), st')
          end
        else (mkResponse 500 (Message "Server error"), st)
    end.
Proof.
  intros Hrole HU (Hd & Hdate & Htime & HS) Huser Hdoc.
  unfold adminCreateAppointment, isAdmin. unfold_handler.
  rewrite Hrole, HU, Hd, Hdate, Htime, (truthy_nonEmpty _ HS). simpl.
  unfold userExists in Huser. unfold doctorExists in Hdoc.
  destruct (find _ (users st)); [|contradiction].
  destruct (find _ (doctors st)); [|contradiction].
  destruct (find (slotFilter _ _ _ _) _); [reflexivity|].
  simpl. unfold adminAppointment.
  destruct (includes statusEnum _ && _); [|reflexivity].
  destruct (createdView _ _); reflexivity.
Qed.

Lemma adminCreateAppointment_created env auth body st U D T S :
  userRole auth = "Admin" ->
  body_user_id body = Some U ->
  asksFor body D T S ->
  userExists U st ->
  doctorExists D st ->
  freshId (newId env) st ->
  ~ held ["Pending"; "Confirmed"] D T S st ->
  In (orString (body_status body) "Confirmed") statusEnum ->
  createdBy (adminCreateAppointment env auth body st) st
    (adminAppointment env body U D T S (orString (body_status body) "Confirmed")).
Proof.
  intros Hrole HU Hb Huser Hdoc Hfresh Hfree Hst.
  rewrite (adminCreateAppointment_run env auth body st U D T S); auto.
  destruct (find (slotFilter _ _ _ _) _) eqn:Hf.
  { exfalso. apply Hfree. apply find_slotFilter_held. congruence. }
  cbv zeta. set (a := adminAppointment _ _ _ _ _ _ _).
  apply includes_In in Hst.
  change (status a) with (orString (body_status body) "Confirmed").
  change (_id a) with (newId env).
  unfold freshId in Hfresh. rewrite Hst, Hfresh. simpl.
  change (newId env) with (_id a).
  rewrite find_fresh_last by exact Hfresh. simpl.
  unfold populate. simpl.
  unfold userExists in Huser. unfold doctorExists in Hdoc.
  destruct (find _ (users st)) as [u|]; [|contradiction].
  destruct (find _ (doctors st)) as [d|]; [|contradiction].
  split; reflexivity.
Qed.

(** The answer of the admin route to a request that creates. *)
Lemma adminCreateAppointment_answer env auth body st U D T S :
  userRole auth = "Admin" ->
  body_user_id body = Some U ->
  asksFor body D T S ->
  userExists U st ->
  doctorExists D st ->
  freshId (newId env) st ->
  ~ held ["Pending"; "Confirmed"] D T S st ->
  In (orString (body_status body) "Confirmed") statusEnum ->
  exists view,
    fst (adminCreateAppointment env auth body st)
    = mkResponse 201 (Created "Appointment booked successfully" view)
    /\ cv_id view = newId env
    /\ cv_status view = orString (body_status body) "Confirmed".
Proof.
  intros Hrole HU Hb Huser Hdoc Hfresh Hfree Hst.
  rewrite (adminCreateAppointment_run env auth body st U D T S); auto.
  destruct (find (slotFilter _ _ _ _) _) eqn:Hf.
  { exfalso. apply Hfree. apply find_slotFilter_held. congruence. }
  cbv zeta. set (a := adminAppointment _ _ _ _ _ _ _).
  apply includes_In in Hst.
  change (status a) with (orString (body_status body) "Confirmed").
  change (_id a) with (newId env).
  unfold freshId in Hfresh. rewrite Hst, Hfresh. simpl.
  change (newId env) with (_id a).
  rewrite find_fresh_last by exact Hfresh. simpl.
  unfold populate. simpl.
  unfold userExists in Huser. unfold doctorExists in Hdoc.
  destruct (find _ (users st)) as [u|]; [|contradiction].
  destruct (find _ (doctors st)) as [d|]; [|contradiction].
  simpl. eexists. split; [reflexivity|]. split; reflexivity.
Qed.

(** C3 (admin booking override).  For an admin booking request that names an
    existing user and an existing doctor and asks for the slot (D, T, S),
    whatever [status] it carries: the answer is the conflict answer exactly
    when an appointment on the slot is [Pending] or [Confirmed], and the
    store is then unchanged.  Otherwise the request without [status] is
    answered 201 and adds one appointment of that user on that slot, whose
    status is [Confirmed]; and the request with any one of the six status
    values is answered 201 and adds one such appointment whose status is
    that value, whatever else the store holds.  The answer shows the same
    status. *)
Theorem admin_booking env auth body st U D T S :
  userRole auth = "Admin" ->
  body_user_id body = Some U ->
  asksFor body D T S ->
  userExists U st ->
  doctorExists D st ->
  freshId (newId env) st ->
  let request r := adminCreateAppointment env auth (withStatus body r) st in
  (forall r, fst (request r) = ConflictError
             <-> held ["Pending"; "Confirmed"] D T S st)
  /\ (held ["Pending"; "Confirmed"] D T S st -> forall r, snd (request r) = st)
  /\ (~ held ["Pending"; "Confirmed"] D T S st ->
      exists a view,
        createdBy (request None) st a
        /\ status a = "Confirmed"
        /\ bookedFor a U D T S
        /\ _id a = newId env
        /\ fst (request None)
           = mkResponse 201 (Created "Appointment booked successfully" view)
        /\ cv_id view = _id a
        /\ cv_status view = "Confirmed")
  /\ (~ held ["Pending"; "Confirmed"] D T S st ->
      forall s, In s ["Pending"; "Confirmed"; "Completed"; "Cancelled";
                      "Rejected"; "Expired"] ->
      exists a view,
        createdBy (request (Some s)) st a
        /\ status a = s
        /\ bookedFor a U D T S
        /\ _id a = newId env
        /\ fst (request (Some s))
           = mkResponse 201 (Created "Appointment booked successfully" view)
        /\ cv_id view = _id a
        /\ cv_status view = s).
Proof.
  intros Hrole HU Hb Huser Hdoc Hfresh request.
  assert (HbU : forall r, body_user_id (withStatus body r) = Some U)
    by (intros r; exact HU).
  assert (Hbr : forall r, asksFor (withStatus body r) D T S)
    by (intros r; exact Hb).
  pose proof (fun r => adminCreateAppointment_run env auth (withStatus body r)
                         st U D T S Hrole (HbU r) (Hbr r) Huser Hdoc) as Hrun.
  pose proof (find_slotFilter_held ["Pending"; "Confirmed"] D T S st) as Hheld.
  assert (Hc : forall r s,
            ~ held ["Pending"; "Confirmed"] D T S st ->
            orString r "Confirmed" = s -> In s statusEnum ->
            exists a view,
              createdBy (request r) st a
              /\ status a = s
              /\ bookedFor a U D T S
              /\ _id a = newId env
              /\ fst (request r)
                 = mkResponse 201 (Created "Appointment booked successfully" view)
              /\ cv_id view = _id a
              /\ cv_status view = s).
  { intros r s Hfree Hs Hin. subst s.
    destruct (adminCreateAppointment_answer env auth (withStatus body r) st
                U D T S Hrole (HbU r) (Hbr r) Huser Hdoc Hfresh Hfree Hin)
      as (view & Hview & Hid & Hstatus).
    exists (adminAppointment env (withStatus body r) U D T S
              (orString r "Confirmed")), view.
    split.
    { exact (adminCreateAppointment_created env auth (withStatus body r) st
               U D T S Hrole (HbU r) (Hbr r) Huser Hdoc Hfresh Hfree Hin). }
    split; [reflexivity|]. split; [repeat split|]. split; [reflexivity|].
    split; [exact Hview|]. split; [exact Hid | exact Hstatus]. }
  split; [intros r; split | split; [| split]].
  - intros Hconf. apply Hheld. subst request. cbv beta in Hconf.
    rewrite Hrun in Hconf.
    destruct (find (slotFilter _ _ _ _) _); [discriminate|].
    exfalso. cbv zeta in Hconf.
    destruct (includes statusEnum _ && _); [|discriminate].
    destruct (createdView _ _); discriminate.
  - intros H. apply Hheld in H. subst request. cbv beta. rewrite Hrun.
    destruct (find (slotFilter _ _ _ _) _); [reflexivity | congruence].
  - intros H r. apply Hheld in H. subst request. cbv beta. rewrite Hrun.
    destruct (find (slotFilter _ _ _ _) _); [reflexivity | congruence].
  - intros Hfree. apply (Hc None "Confirmed"); simpl; auto.
  - intros Hfree s Hin. apply (Hc (Some s) s); auto.
    simpl in Hin.
    repeat (destruct Hin as [<- | Hin]; [reflexivity|]). contradiction.
Qed.

(** The admin books Alice on a free slot: without a status, and with each of
    the six. *)
Lemma admin_booking_witness :
  let request r :=
    adminCreateAppointment Clinic.env1 Clinic.asAdmin
      (withStatus Clinic.aliceAtTen r) Clinic.empty in
  (forall r, fst (request r) = ConflictError
             <-> held ["Pending"; "Confirmed"] 10 Clinic.jan10 "10:00 AM"
                   Clinic.empty)
  /\ (held ["Pending"; "Confirmed"] 10 Clinic.jan10 "10:00 AM" Clinic.empty ->
      forall r, snd (request r) = Clinic.empty)
  /\ (~ held ["Pending"; "Confirmed"] 10 Clinic.jan10 "10:00 AM" Clinic.empty ->
      exists a view,
        createdBy (request None) Clinic.empty a
        /\ status a = "Confirmed"
        /\ bookedFor a 1 10 Clinic.jan10 "10:00 AM"
        /\ _id a = newId Clinic.env1
        /\ fst (request None)
           = mkResponse 201 (Created "Appointment booked successfully" view)
        /\ cv_id view = _id a
        /\ cv_status view = "Confirmed")
  /\ (~ held ["Pending"; "Confirmed"] 10 Clinic.jan10 "10:00 AM" Clinic.empty ->
      forall s, In s ["Pending"; "Confirmed"; "Completed"; "Cancelled";
                      "Rejected"; "Expired"] ->
      exists a view,
        createdBy (request (Some s)) Clinic.empty a
        /\ status a = s
        /\ bookedFor a 1 10 Clinic.jan10 "10:00 AM"
        /\ _id a = newId Clinic.env1
        /\ fst (request (Some s))
           = mkResponse 201 (Created "Appointment booked successfully" view)
        /\ cv_id view = _id a
        /\ cv_status view = s).
Proof.
  apply (admin_booking Clinic.env1 Clinic.asAdmin Clinic.aliceAtTen
           Clinic.empty 1 10 Clinic.jan10 "10:00 AM").
  - reflexivity.
  - reflexivity.
  - repeat split; discriminate.
  - discriminate.
  - discriminate.
  - reflexivity.
Defined.

(** On the free slot the admin books Alice as [Confirmed] when the status is
    left out, and as [Rejected] or [Expired] when asked to, though no
    appointment was there to reject or to expire.  On the slot Alice holds as
    [Pending], Carol is refused whatever the status asked for, and nothing is
    stored; once Alice's appointment is [Completed], Carol is booked. *)
Example admin_booking_runs :
  let book body st := adminCreateAppointment Clinic.env2 Clinic.asAdmin body st in
  let carol r :=
    mkBody (Some 4%N) (Some 10%N) (Some Clinic.jan10) (Some "10:00 AM") None None r in
  map status (appointments (snd (book Clinic.aliceAtTen Clinic.empty)))
  = ["Confirmed"]
  /\ map status
       (appointments
          (snd (book (withStatus Clinic.aliceAtTen (Some "Rejected")) Clinic.empty)))
     = ["Rejected"]
  /\ map status
       (appointments
          (snd (book (withStatus Clinic.aliceAtTen (Some "Expired")) Clinic.empty)))
     = ["Expired"]
  /\ book (carol None) Clinic.booked = (ConflictError, Clinic.booked)
  /\ book (carol (Some "Completed")) Clinic.booked
     = (ConflictError, Clinic.booked)
  /\ map status
       (appointments
          (snd (adminCreateAppointment Clinic.later Clinic.asAdmin (carol None)
                  Clinic.completed)))
     = ["Completed"; "Pending"; "Confirmed"].
Proof. repeat split; reflexivity. Qed.

(** ** The expiry sweep *)

Lemma markExpired_run env auth st :
  userRole auth = "Admin" ->
  markExpired env auth st
  = (let n := List.length (List.filter (stale (now env)) (appointments st)) in
     mkResponse 200
       (Swept (String.append (decimal (Z.of_nat n))
                 " appointments marked as expired") n),
     withAppointments st (map (expire (now env)) (appointments st))).
Proof.
  intros Hrole. unfold markExpired, isAdmin. unfold_handler.
  rewrite Hrole. reflexivity.
Qed.

Lemma stale_settled t a :
  In (status a) settled -> stale t a = false.
Proof.
  intros Hin. unfold stale.
  apply includes_In in Hin. unfold settled in Hin. rewrite Hin.
  apply andb_false_r.
Qed.

Lemma stale_open t a :
  date a < t -> ~ In (status a) settled -> stale t a = true.
Proof.
  intros Hd Hs. unfold stale.
  apply Z.ltb_lt in Hd. rewrite Hd. simpl.
  destruct (includes _ (status a)) eqn:Hi; [|reflexivity].
  apply includes_In in Hi. contradiction.
Qed.

Lemma expire_not_stale t a : stale t (expire t a) = false.
Proof.
  unfold expire. destruct (stale t a) eqn:Hs; [|exact Hs].
  apply stale_settled. simpl. auto.
Qed.

Lemma expire_swept t l : swept t (map (expire t) l).
Proof.
  intros a Hin Hd.
  apply in_map_iff in Hin. destruct Hin as (b & <- & _).
  pose proof (expire_not_stale t b) as Hs.
  destruct (in_dec string_dec (status (expire t b)) settled) as [H|H];
    [exact H|].
  rewrite (stale_open t _ Hd H) in Hs. discriminate.
Qed.

(** C4 (P5, sweep correctness).  One run of the sweep at the instant [now]:
    an appointment dated before [now] that is [Pending] is afterwards
    [Expired] (the same document otherwise, with a new [updatedAt]); one that
    is [Completed], [Cancelled] or [Expired] is the same document as
    before. *)
Theorem sweep_correct env auth st i a :
  userRole auth = "Admin" ->
  nth_error (appointments st) i = Some a ->
  date a < now env ->
  let after := appointments (snd (markExpired env auth st)) in
  (status a = "Pending" ->
   nth_error after i = Some (setStatus a "Expired" (now env))
   /\ status (setStatus a "Expired" (now env)) = "Expired")
  /\ (In (status a) ["Completed"; "Cancelled"; "Expired"] ->
      nth_error after i = Some a).
Proof.
  intros Hrole Hnth Hdate after.
  subst after. rewrite markExpired_run by exact Hrole. simpl.
  rewrite nth_error_map, Hnth. simpl. unfold expire.
  split.
  - intros Hp. split; [|reflexivity].
    rewrite stale_open; [reflexivity | exact Hdate |].
    rewrite Hp. simpl. intuition discriminate.
  - intros Hs. now rewrite stale_settled.
Qed.

Example booked_by_alice :
  snd (bookAppointment Clinic.env1 (Clinic.asPatient 1) Clinic.tenOClock
         Clinic.empty)
  = Clinic.booked.
Proof. reflexivity. Qed.

(** The sweep of 2025-01-16 meets Alice's appointment of 2025-01-10. *)
Lemma sweep_correct_witness :
  let after :=
    appointments (snd (markExpired Clinic.later Clinic.asAdmin Clinic.booked)) in
  (status Clinic.alicePending = "Pending" ->
   nth_error after 0
   = Some (setStatus Clinic.alicePending "Expired" (now Clinic.later))
   /\ status (setStatus Clinic.alicePending "Expired" (now Clinic.later))
      = "Expired")
  /\ (In (status Clinic.alicePending) ["Completed"; "Cancelled"; "Expired"] ->
      nth_error after 0 = Some Clinic.alicePending).
Proof.
  apply (sweep_correct Clinic.later Clinic.asAdmin Clinic.booked 0
           Clinic.alicePending).
  - reflexivity.
  - reflexivity.
  - reflexivity.
Defined.

Lemma filter_none {A : Type} (p : A -> bool) (l : list A) :
  (forall x, In x l -> p x = false) -> List.filter p l = [].
Proof.
  induction l as [|x l IH]; intros H; simpl; [reflexivity|].
  rewrite (H x (or_introl eq_refl)). apply IH.
  intros y Hy. apply H. now right.
Qed.

Lemma expire_unchanged u l :
  (forall a, In a l -> stale u a = false) -> map (expire u) l = l.
Proof.
  intros H. rewrite <- (map_id l) at 2.
  apply map_ext_in. intros a Ha. unfold expire. now rewrite (H a Ha).
Qed.

(** C6 as stated fails when the clock moves on between the two runs.  Alice's
    appointment is dated 2025-01-10 and [Pending]: the sweep of 2025-01-05
    leaves it alone, the sweep of 2025-01-16 that follows it, with nothing
    written in between, expires it and reports one modified record. *)
Lemma sweep_twice_not_same :
  ~ sweepTwiceSame Clinic.env2 Clinic.later Clinic.asAdmin Clinic.booked.
Proof.
  intros [Hsame _]. vm_compute in Hsame. discriminate.
Qed.

(** After a sweep at [t1], nothing is stale at [t2] unless it has become so
    in between. *)
Lemma expire_later_not_stale t1 t2 l :
  (forall a, In a l -> t1 <= date a < t2 -> In (status a) settled) ->
  forall a, In a (map (expire t1) l) -> stale t2 a = false.
Proof.
  intros Hbetween a Ha.
  apply in_map_iff in Ha. destruct Ha as (b & <- & Hb).
  unfold expire. destruct (stale t1 b) eqn:H1.
  - apply stale_settled. simpl. auto.
  - destruct (in_dec string_dec (status b) settled) as [Hs|Hs];
      [now apply stale_settled|].
    destruct (Z_lt_ge_dec (date b) t1) as [Hlt|Hge].
    + rewrite (stale_open _ _ Hlt Hs) in H1. discriminate.
    + destruct (Z_lt_ge_dec (date b) t2) as [Hlt2|Hge2].
      * destruct Hs. apply (Hbetween b Hb). lia.
      * unfold stale.
        assert (Hf : (date b <? t2) = false) by (apply Z.ltb_ge; lia).
        now rewrite Hf.
Qed.

(** A sweep that finds nothing stale reports zero and writes nothing. *)
Lemma markExpired_nothing_stale env auth st :
  userRole auth = "Admin" ->
  (forall a, In a (appointments st) -> stale (now env) a = false) ->
  markExpired env auth st
  = (mkResponse 200 (Swept "0 appointments marked as expired" 0), st).
Proof.
  intros Hrole Hnone.
  rewrite (markExpired_run env auth st Hrole). cbv zeta.
  rewrite (filter_none _ _ Hnone), (expire_unchanged _ _ Hnone).
  destruct st; reflexivity.
Qed.

(** C6 (P4, sweep idempotence), amended.  Two runs of the sweep in
    succession, with nothing written in between, leave after the second run
    the store the first run made, and the second run reports zero modified
    records, provided no appointment that is still open is dated from the
    instant the first run read up to (not including) the instant the second
    run read; this is so in particular when both runs read the same
    instant. *)
Theorem sweep_idempotent env1 env2 auth st :
  userRole auth = "Admin" ->
  (forall a, In a (appointments st) ->
             now env1 <= date a < now env2 -> In (status a) settled) ->
  sweepTwiceSame env1 env2 auth st.
Proof.
  intros Hrole Hbetween. unfold sweepTwiceSame. cbv zeta.
  rewrite (markExpired_nothing_stale env2 auth _ Hrole).
  - split; reflexivity.
  - rewrite (markExpired_run env1 auth st Hrole). simpl.
    now apply expire_later_not_stale.
Qed.

(** Two sweeps on 2025-01-16, a hundred seconds apart. *)
Lemma sweep_idempotent_witness :
  sweepTwiceSame Clinic.later (mkEnv 1737000100000 103) Clinic.asAdmin
    Clinic.completed.
Proof.
  apply (sweep_idempotent Clinic.later (mkEnv 1737000100000 103) Clinic.asAdmin
           Clinic.completed).
  - reflexivity.
  - simpl. intros a [<- | [<- | []]]; simpl; intros H; [auto | lia].
Defined.

(** Both runs at one instant. *)
Lemma sweep_twice_same_instant env auth st :
  userRole auth = "Admin" -> sweepTwiceSame env env auth st.
Proof.
  intros Hrole. unfold sweepTwiceSame. cbv zeta.
  rewrite (markExpired_nothing_stale env auth _ Hrole).
  - split; reflexivity.
  - rewrite (markExpired_run env auth st Hrole). simpl.
    apply expire_later_not_stale. intros a _ H. lia.
Qed.

(** X13.  A second run at a later instant finds what has become stale in
    between and nothing else: it modifies as many records as there are open
    appointments dated from the first instant up to the second. *)
Lemma sweep_again_later env1 env2 auth st :
  userRole auth = "Admin" ->
  now env1 <= now env2 ->
  let once := markExpired env1 auth st in
  let twice := markExpired env2 auth (snd once) in
  exists n,
    json (fst twice)
    = Swept (String.append (decimal (Z.of_nat n)) " appointments marked as expired") n
    /\ n = List.length
             (List.filter (fun a => stale (now env2) a && (now env1 <=? date a))
                (appointments st)).
Proof.
  intros Hrole Hle once twice. subst once twice.
  rewrite (markExpired_run env1 auth st Hrole). cbv zeta. simpl snd.
  rewrite markExpired_run by exact Hrole. cbv zeta. simpl.
  eexists. split; [reflexivity|].
  induction (appointments st) as [|a l IH]; simpl; [reflexivity|].
  assert (Ha : stale (now env2) (expire (now env1) a)
               = stale (now env2) a && (now env1 <=? date a)).
  { unfold expire, stale.
    destruct (date a <? now env1) eqn:H1.
    - apply Z.ltb_lt in H1.
      assert (H2 : (date a <? now env2) = true) by (apply Z.ltb_lt; lia).
      assert (H3 : (now env1 <=? date a) = false) by (apply Z.leb_gt; lia).
      rewrite H3, andb_false_r.
      destruct (includes _ (status a)) eqn:Hi; simpl.
      + rewrite Hi. apply andb_false_r.
      + apply andb_false_r.
    - apply Z.ltb_ge in H1.
      assert (H3 : (now env1 <=? date a) = true) by (apply Z.leb_le; lia).
      rewrite H3, andb_true_r. reflexivity. }
  rewrite Ha.
  destruct (stale (now env2) a && (now env1 <=? date a)); simpl; now rewrite IH.
Qed.

(** ** The admin list *)

Lemma insertBy_perm {A : Type} (before : A -> A -> bool) (x : A) (l : list A) :
  Permutation (insertBy before x l) (x :: l).
Proof.
  induction l as [|y l IH]; simpl.
  - apply Permutation_refl.
  - destruct (before x y).
    + apply Permutation_refl.
    + apply perm_trans with (y :: x :: l).
      * now apply perm_skip.
      * apply perm_swap.
Qed.

Lemma sortBy_perm {A : Type} (before : A -> A -> bool) (l : list A) :
  Permutation (sortBy before l) l.
Proof.
  induction l as [|x l IH]; simpl.
  - apply perm_nil.
  - apply perm_trans with (x :: sortBy before l).
    + apply insertBy_perm.
    + now apply perm_skip.
Qed.

Lemma filter_all {A : Type} (l : list A) : List.filter (fun _ => true) l = l.
Proof.
  induction l as [|x l IH]; simpl; [reflexivity | now rewrite IH].
Qed.

Lemma adminGetAppointments_run env auth st :
  userRole auth = "Admin" ->
  adminGetAppointments env auth st
  = (let st' := withAppointments st (map (expire (now env)) (appointments st)) in
     let listed := sortBy dateTimeDescending (appointments st') in
     (mkResponse 200
        (Listing (map adminView (map (populate st') listed))
           (List.length (map adminView (map (populate st') listed)))),
      st')).
Proof.
  intros Hrole. unfold adminGetAppointments, isAdmin. unfold_handler.
  rewrite Hrole. simpl. rewrite filter_all. reflexivity.
Qed.

(** C5 (the list sweeps before it reads).  The admin list leaves the store
    as the sweep of the same instant leaves it, so no appointment dated
    before that instant is still open; and the list it answers with shows
    every stored appointment once, each with its status after the sweep:
    an entry of an appointment dated before the instant reads [Completed],
    [Cancelled] or [Expired]. *)
Theorem listing_is_swept env auth st :
  userRole auth = "Admin" ->
  let result := adminGetAppointments env auth st in
  let st' := snd result in
  st' = snd (markExpired env auth st)
  /\ swept (now env) (appointments st')
  /\ exists listed : list Appointment,
       Permutation listed (appointments st')
       /\ fst result
          = mkResponse 200
              (Listing (map (fun a => adminView (populate st' a)) listed)
                 (List.length listed))
       /\ forall a, In a listed -> date a < now env ->
                    In (av_status (adminView (populate st' a)))
                       ["Completed"; "Cancelled"; "Expired"].
Proof.
  intros Hrole result st'. subst st' result.
  rewrite (adminGetAppointments_run env auth st Hrole).
  rewrite (markExpired_run env auth st Hrole). cbv zeta. simpl fst. simpl snd.
  split; [reflexivity|]. split; [apply expire_swept|].
  set (st' := withAppointments st (map (expire (now env)) (appointments st))).
  exists (sortBy dateTimeDescending (appointments st')).
  split; [apply sortBy_perm|]. split.
  - rewrite !length_map, map_map. reflexivity.
  - intros a Hin Hd. simpl.
    apply (expire_swept (now env) (appointments st)); [|exact Hd].
    apply (Permutation_in a (sortBy_perm dateTimeDescending (appointments st'))).
    exact Hin.
Qed.

(** The list of 2025-01-16 shows Alice's appointment of 2025-01-10. *)
Lemma listing_is_swept_witness :
  let result := adminGetAppointments Clinic.later Clinic.asAdmin Clinic.booked in
  let st' := snd result in
  st' = snd (markExpired Clinic.later Clinic.asAdmin Clinic.booked)
  /\ swept (now Clinic.later) (appointments st')
  /\ exists listed : list Appointment,
       Permutation listed (appointments st')
       /\ fst result
          = mkResponse 200
              (Listing (map (fun a => adminView (populate st' a)) listed)
                 (List.length listed))
       /\ forall a, In a listed -> date a < now Clinic.later ->
                    In (av_status (adminView (populate st' a)))
                       ["Completed"; "Cancelled"; "Expired"].
Proof.
  apply (listing_is_swept Clinic.later Clinic.asAdmin Clinic.booked).
  reflexivity.
Defined.

Example listing_on_jan16 :
  json (fst (adminGetAppointments Clinic.later Clinic.asAdmin Clinic.booked))
  = Listing
      [mkAdminView 100 "2025-01-10" "10:00 AM" "Expired" "" ""
         (mkPatientView (Some 1%N) "Alice" "alice@example.org" "555-0101")
         (mkDoctorView (Some 10%N) "Bob" "bob@example.org" "555-0102"
            "Cardiology" (num 500))
         1736000000000]
      1.
Proof. reflexivity. Qed.

(** ** The admin status update *)

Lemma oneOf_Some l v s :
  oneOf l v = Some s <-> v = Some s /\ In s l.
Proof.
  unfold oneOf. destruct v as [x|].
  - destruct (includes l x) eqn:Hi.
    + apply includes_In in Hi. split.
      * intros [= <-]. auto.
      * intros [[= <-] _]. reflexivity.
    + split; [discriminate|]. intros [[= <-] Hin].
      apply includes_In in Hin. congruence.
  - split; [discriminate | intros [H _]; discriminate].
Qed.

Lemma oneOf_None l v :
  oneOf l v = None <-> (forall s, v = Some s -> ~ In s l).
Proof.
  split.
  - intros Hn s Hv Hin.
    assert (oneOf l v = Some s) by (apply oneOf_Some; auto). congruence.
  - intros H. destruct (oneOf l v) as [s|] eqn:Ho; [|reflexivity].
    apply oneOf_Some in Ho. destruct Ho as [Hv Hin]. now destruct (H s Hv).
Qed.

Lemma find_updateFirst {A : Type} (p : A -> bool) (f : A -> A) (l : list A) a :
  find p l = Some a -> p (f a) = true -> find p (updateFirst p f l) = Some (f a).
Proof.
  intros Hf Hp.
  induction l as [|x l IH]; simpl in *; [discriminate|].
  destruct (p x) eqn:Hx.
  - injection Hf as ->. simpl. now rewrite Hp.
  - simpl. rewrite Hx. auto.
Qed.

Lemma updateAppointmentStatus_run env auth id body st :
  userRole auth = "Admin" ->
  updateAppointmentStatus env auth id body st
  = match oneOf validStatuses (body_status body) with
    | None =>
        (ValidationError "Invalid status. Valid statuses are: Pending, Confirmed, Completed, Cancelled, Rejected, Expired",
         st)
    | Some s =>
        match find (hasId id) (appointments st) with
        | None => (NotFoundError "Appointment not found", st)
        | Some a =>
            let st' :=
              withAppointments st
                (updateFirst (hasId id) (fun a => setStatus a s (now env))
                   (appointments st)) in
            (mkResponse 200
               (Updated "Appointment status updated successfully"
                  (updatedView (populate st' (setStatus a s (now env))))),
             st')
        end
    end.
Proof.
  intros Hrole. unfold updateAppointmentStatus, isAdmin. unfold_handler.
  rewrite Hrole. simpl.
  destruct (oneOf validStatuses (body_status body)) as [s|] eqn:Ho;
    [|reflexivity].
  apply oneOf_Some in Ho. destruct Ho as [_ Hin].
  apply includes_In in Hin.
  change (includes statusEnum s) with (includes validStatuses s).
  rewrite Hin.
  destruct (find (hasId id) (appointments st)); reflexivity.
Qed.

(** C7 (P3 and the contract of the status update).  For an admin request to
    set the status of the appointment [id]: a value outside the six (or no
    value) is answered 400 and the store is unchanged; one of the six on an
    appointment that exists is answered 200, and the stored appointment then
    has that status, whatever its status was, and is otherwise the document
    it was but for [updatedAt]; the answer shows the new status; one of the
    six on an identifier no appointment has is answered 404 and the store is
    unchanged. *)
Theorem status_update env auth id body st :
  userRole auth = "Admin" ->
  let result := updateAppointmentStatus env auth id body st in
  ((forall s, body_status body = Some s -> ~ In s sixStatuses) ->
   fst result
   = ValidationError "Invalid status. Valid statuses are: Pending, Confirmed, Completed, Cancelled, Rejected, Expired"
   /\ snd result = st)
  /\ (forall s, body_status body = Some s -> In s sixStatuses ->
      (forall a, find (hasId id) (appointments st) = Some a ->
         code (fst result) = 200%nat
         /\ find (hasId id) (appointments (snd result))
            = Some (setStatus a s (now env))
         /\ appointments (snd result)
            = updateFirst (hasId id) (fun x => setStatus x s (now env))
                (appointments st)
         /\ exists a' view,
              find (hasId id) (appointments (snd result)) = Some a'
              /\ status a' = s
              /\ updatedAt a' = now env
              /\ sameButStatus a a'
              /\ fst result
                 = mkResponse 200
                     (Updated "Appointment status updated successfully" view)
              /\ uv_id view = id
              /\ uv_status view = s)
      /\ (find (hasId id) (appointments st) = None ->
          fst result = NotFoundError "Appointment not found"
          /\ snd result = st)).
Proof.
  intros Hrole result. subst result.
  rewrite (updateAppointmentStatus_run env auth id body st Hrole).
  split.
  - intros Hout. apply (oneOf_None validStatuses) in Hout.
    rewrite Hout. split; reflexivity.
  - intros s Hs Hin.
    assert (Ho : oneOf validStatuses (body_status body) = Some s)
      by (apply oneOf_Some; auto).
    rewrite Ho. split.
    + intros a Ha. rewrite Ha. cbv zeta. simpl.
      assert (Hfound :
        find (hasId id)
          (updateFirst (hasId id) (fun x => setStatus x s (now env))
             (appointments st))
        = Some (setStatus a s (now env))).
      { apply (find_updateFirst (hasId id) (fun x => setStatus x s (now env)));
          [exact Ha|].
        apply find_some in Ha. exact (proj2 Ha). }
      split; [reflexivity|]. split; [exact Hfound|]. split; [reflexivity|].
      eexists. eexists. split; [exact Hfound|].
      split; [reflexivity|]. split; [reflexivity|].
      split; [repeat split|]. split; [reflexivity|].
      split; [|reflexivity].
      apply find_some in Ha. destruct Ha as [_ Hid].
      apply N.eqb_eq in Hid. exact Hid.
    + intros Hn. rewrite Hn. split; reflexivity.
Qed.

(** The admin completes Alice's appointment. *)
Lemma status_update_witness :
  let result :=
    updateAppointmentStatus Clinic.env2 Clinic.asAdmin 100
      (statusBody (Some "Completed")) Clinic.booked in
  ((forall s, Some "Completed" = Some s -> ~ In s sixStatuses) ->
   fst result
   = ValidationError "Invalid status. Valid statuses are: Pending, Confirmed, Completed, Cancelled, Rejected, Expired"
   /\ snd result = Clinic.booked)
  /\ (forall s, Some "Completed" = Some s -> In s sixStatuses ->
      (forall a, find (hasId 100) (appointments Clinic.booked) = Some a ->
         code (fst result) = 200%nat
         /\ find (hasId 100) (appointments (snd result))
            = Some (setStatus a s (now Clinic.env2))
         /\ appointments (snd result)
            = updateFirst (hasId 100) (fun x => setStatus x s (now Clinic.env2))
                (appointments Clinic.booked)
         /\ exists a' view,
              find (hasId 100) (appointments (snd result)) = Some a'
              /\ status a' = s
              /\ updatedAt a' = now Clinic.env2
              /\ sameButStatus a a'
              /\ fst result
                 = mkResponse 200
                     (Updated "Appointment status updated successfully" view)
              /\ uv_id view = 100%N
              /\ uv_status view = s)
      /\ (find (hasId 100) (appointments Clinic.booked) = None ->
          fst result = NotFoundError "Appointment not found"
          /\ snd result = Clinic.booked)).
Proof.
  apply (status_update Clinic.env2 Clinic.asAdmin 100
           (statusBody (Some "Completed")) Clinic.booked).
  reflexivity.
Defined.

Example status_update_runs :
  let completed :=
    updateAppointmentStatus Clinic.env2 Clinic.asAdmin 100
      (statusBody (Some "Completed")) Clinic.booked in
  let reopened :=
    updateAppointmentStatus Clinic.later Clinic.asAdmin 100
      (statusBody (Some "Pending")) (snd completed) in
  map status (appointments (snd completed)) = ["Completed"]
  /\ map status (appointments (snd reopened)) = ["Pending"]
  /\ updateAppointmentStatus Clinic.later Clinic.asAdmin 100
       (statusBody (Some "Upcoming")) Clinic.booked
     = (ValidationError "Invalid status. Valid statuses are: Pending, Confirmed, Completed, Cancelled, Rejected, Expired",
        Clinic.booked)
  /\ updateAppointmentStatus Clinic.later Clinic.asAdmin 999
       (statusBody (Some "Cancelled")) Clinic.booked
     = (NotFoundError "Appointment not found", Clinic.booked).
Proof. repeat split; reflexivity. Qed.

(** ** The doctor dashboard *)

Lemma doctorDashboard_earnings setHours env auth st d :
  profileOf (req_userId auth) st = Some d ->
  earningsOf (fst (doctorDashboard setHours env auth st))
  = Some (jsMul (num (completedCount (doc_id d) (appointments st)))
            (orZero (fees d))).
Proof.
  intros Hd. unfold profileOf in Hd.
  unfold doctorDashboard. unfold_handler. rewrite Hd. reflexivity.
Qed.

Lemma notANumber_isNaN body :
  match pb_experience body with Some e => isNaN e | None => false end
  || match pb_fees body with Some f => isNaN f | None => false end
  = notANumber body.
Proof.
  unfold notANumber.
  destruct (pb_experience body) as [[]|], (pb_fees body) as [[]|]; reflexivity.
Qed.

Lemma updateProfile_run env auth body st d :
  profileOf (req_userId auth) st = Some d ->
  notANumber body = false ->
  let st' := snd (updateProfile env auth body st) in
  doctors st'
  = updateFirst (fun x => N.eqb (doc_id x) (doc_id d))
      (fun _ => updatedDoctor env body d) (doctors st)
  /\ appointments st' = appointments st.
Proof.
  intros Hd Hnan st'. subst st'. unfold profileOf in Hd.
  unfold updateProfile. unfold_handler. rewrite Hd. cbn beta iota.
  rewrite notANumber_isNaN, Hnan. unfold updatedDoctor, storageFilename.
  destruct (pb_file body); cbn [option_map];
    destruct (pb_name body), (pb_email body), (pb_phone body), (pb_address body);
    simpl;
    try (destruct (find _ (users st)); simpl; split; reflexivity);
    split; reflexivity.
Qed.

(** Saving a profile under its own identifier keeps it the profile of its
    owner. *)
Lemma profileOf_updateFirst (u : ObjectId) (l : list Doctor) (d d' : Doctor) :
  NoDup (map doc_id l) ->
  find (fun x => N.eqb (userId x) u) l = Some d ->
  doc_id d' = doc_id d ->
  userId d' = userId d ->
  find (fun x => N.eqb (userId x) u)
    (updateFirst (fun x => N.eqb (doc_id x) (doc_id d)) (fun _ => d') l)
  = Some d'.
Proof.
  intros Hnd Hf Hid Hu.
  induction l as [|x l IH]; simpl in *; [discriminate|].
  inversion Hnd as [|? ? Hnotin Hnd']; subst.
  destruct (N.eqb (userId x) u) eqn:Hx.
  - injection Hf as ->. rewrite N.eqb_refl. simpl.
    now rewrite Hu, Hx.
  - assert (Hin : In (doc_id d) (map doc_id l)).
    { apply find_some in Hf. apply in_map. exact (proj1 Hf). }
    destruct (N.eqb_spec (doc_id x) (doc_id d)) as [Heq|Hne].
    + rewrite Heq in Hnotin. contradiction.
    + simpl. rewrite Hx. auto.
Qed.

Lemma orZero_num z : 0 <= z < 2 ^ 53 -> orZero (Some (num z)) = num z.
Proof.
  intros Hz. destruct z as [|p|p]; [reflexivity| |lia].
  rewrite num_pos by (apply digits_le; lia). reflexivity.
Qed.

Lemma orZero_not_NaN x : isNaN (orZero x) = false.
Proof. destruct x as [[]|]; reflexivity. Qed.

(** With five completed appointments, the fees 9007199254740990 and
    9007199254740991 both give earnings of 45035996273704952: the products
    45035996273704950 and 45035996273704955 have 56 significant bits and
    round to the same Number. *)
Example earnings_at_a_high_fee :
  let st' :=
    snd (updateProfile Clinic.later Clinic.asBob Clinic.oneMore Clinic.fiveDone) in
  completedCount 10 (appointments Clinic.fiveDone) = 5
  /\ option_map fees (profileOf 2 Clinic.fiveDone)
     = Some (Some (num 9007199254740990))
  /\ option_map fees (profileOf 2 st') = Some (Some (num 9007199254740991))
  /\ num 9007199254740991 <> num 9007199254740990
  /\ earningsOf
       (fst (doctorDashboard setHoursUTC Clinic.later Clinic.asBob Clinic.fiveDone))
     = Some (num 45035996273704952)
  /\ earningsOf (fst (doctorDashboard setHoursUTC Clinic.later Clinic.asBob st'))
     = Some (num 45035996273704952).
Proof.
  repeat split; try (vm_compute; reflexivity).
  vm_compute. discriminate.
Qed.

(** C9, the claim as worded does not hold: Dr Bob has five completed
    appointments and raises his fee from 9007199254740990 to
    9007199254740991; the dashboard reports the same earnings before and
    after. *)
Lemma fee_change_not_shown :
  ~ feeChangeShows setHoursUTC Clinic.later Clinic.later Clinic.asBob
      Clinic.oneMore Clinic.fiveDone.
Proof.
  intros H.
  apply (H Clinic.bobDear (num 9007199254740991)).
  - reflexivity.
  - reflexivity.
  - vm_compute. discriminate.
  - vm_compute. discriminate.
  - vm_compute. reflexivity.
Qed.

(** C9 (P6, earnings recompute), amended.  The earnings of the dashboard are
    the product, as JavaScript Numbers, of the number of the doctor's
    appointments that are [Completed], [Done] or [Approved] and the fee the
    profile has when the dashboard is asked for (an absent, zero or
    not-a-number fee counts as 0); after the doctor has changed the fee, the
    same appointments are reported at the new fee.  Where the fees are whole
    non-negative amounts and the products stay below 2^53, the earnings are
    the exact products: then, with at least one such appointment and a fee
    that differs from the old one, the reported earnings differ. *)
Theorem earnings_follow_fees setHours env envp env' auth body st d x' :
  NoDup (map doc_id (doctors st)) ->
  profileOf (req_userId auth) st = Some d ->
  pb_fees body = Some x' ->
  notANumber body = false ->
  let n := completedCount (doc_id d) (appointments st) in
  let before := doctorDashboard setHours env auth st in
  let st' := snd (updateProfile envp auth body st) in
  let after := doctorDashboard setHours env' auth st' in
  earningsOf (fst before) = Some (jsMul (num n) (orZero (fees d)))
  /\ appointments st' = appointments st
  /\ option_map fees (profileOf (req_userId auth) st') = Some (Some x')
  /\ earningsOf (fst after) = Some (jsMul (num n) (orZero (Some x')))
  /\ (forall f f' : Z,
        orZero (fees d) = num f -> x' = num f' ->
        0 <= f < 2 ^ 53 -> 0 <= f' < 2 ^ 53 ->
        n < 2 ^ 53 -> n * f < 2 ^ 53 -> n * f' < 2 ^ 53 ->
        earningsOf (fst before) = Some (num (n * f))
        /\ earningsOf (fst after) = Some (num (n * f'))
        /\ (n <> 0 -> f' <> f ->
            earningsOf (fst after) <> earningsOf (fst before))).
Proof.
  intros Hnd Hd Hf Hnan' n before st' after.
  pose proof (updateProfile_run envp auth body st d Hd Hnan') as [Hdocs Happts].
  fold st' in Hdocs, Happts.
  assert (Hd' : profileOf (req_userId auth) st' = Some (updatedDoctor envp body d)).
  { unfold profileOf. rewrite Hdocs.
    apply profileOf_updateFirst; auto. }
  assert (Hfee : fees (updatedDoctor envp body d) = Some x').
  { unfold updatedDoctor. rewrite Hf. reflexivity. }
  assert (Hb : earningsOf (fst before)
               = Some (jsMul (num n) (orZero (fees d))))
    by (apply doctorDashboard_earnings; exact Hd).
  assert (Ha : earningsOf (fst after)
               = Some (jsMul (num n) (orZero (Some x')))).
  { subst after. rewrite (doctorDashboard_earnings _ _ _ _ _ Hd').
    rewrite Happts, Hfee. reflexivity. }
  assert (Hn0 : 0 <= n) by (unfold n, completedCount; lia).
  split; [exact Hb|]. split; [exact Happts|].
  split; [rewrite Hd'; cbn [option_map]; rewrite Hfee; reflexivity|].
  split; [exact Ha|].
  intros f f' Hof Hx' Hr Hr' Hn Hnf Hnf'.
  assert (Hbz : earningsOf (fst before) = Some (num (n * f))).
  { rewrite Hb, Hof, jsMul_exact by lia. reflexivity. }
  assert (Haz : earningsOf (fst after) = Some (num (n * f'))).
  { rewrite Ha, Hx', orZero_num, jsMul_exact by lia. reflexivity. }
  split; [exact Hbz|]. split; [exact Haz|].
  intros Hne Hff. rewrite Haz, Hbz. intros [= Heq].
  apply num_inj in Heq; nia.
Qed.

(** The scenario of the specification: one completed appointment, the fee
    goes from 500 to 800. *)
Lemma earnings_follow_fees_witness :
  let n := completedCount 10 (appointments Clinic.completed) in
  let before :=
    doctorDashboard setHoursUTC Clinic.later Clinic.asBob Clinic.completed in
  let st' :=
    snd (updateProfile Clinic.later Clinic.asBob Clinic.raiseFee Clinic.completed) in
  let after := doctorDashboard setHoursUTC Clinic.later Clinic.asBob st' in
  earningsOf (fst before) = Some (jsMul (num n) (orZero (Some (num 500))))
  /\ appointments st' = appointments Clinic.completed
  /\ option_map fees (profileOf 2 st') = Some (Some (num 800))
  /\ earningsOf (fst after) = Some (jsMul (num n) (orZero (Some (num 800))))
  /\ (forall f f' : Z,
        orZero (Some (num 500)) = num f -> num 800 = num f' ->
        0 <= f < 2 ^ 53 -> 0 <= f' < 2 ^ 53 ->
        n < 2 ^ 53 -> n * f < 2 ^ 53 -> n * f' < 2 ^ 53 ->
        earningsOf (fst before) = Some (num (n * f))
        /\ earningsOf (fst after) = Some (num (n * f'))
        /\ (n <> 0 -> f' <> f ->
            earningsOf (fst after) <> earningsOf (fst before))).
Proof.
  apply (earnings_follow_fees setHoursUTC Clinic.later Clinic.later Clinic.later
           Clinic.asBob Clinic.raiseFee Clinic.completed Clinic.bobProfile
           (num 800)).
  - repeat constructor. simpl. tauto.
  - reflexivity.
  - reflexivity.
  - reflexivity.
Defined.

Example earnings_500_then_800 :
  let st' :=
    snd (updateProfile Clinic.later Clinic.asBob Clinic.raiseFee Clinic.completed) in
  earningsOf
    (fst (doctorDashboard setHoursUTC Clinic.later Clinic.asBob Clinic.completed))
  = Some (num 500)
  /\ earningsOf (fst (doctorDashboard setHoursUTC Clinic.later Clinic.asBob st'))
     = Some (num 800).
Proof. split; vm_compute; reflexivity. Qed.

(** ** Deleting a user *)

Lemma deleteUser_run auth U st :
  userRole auth = "Admin" ->
  userExists U st ->
  deleteUser auth U st
  = (mkResponse 200 (Message "User deleted successfully"),
     mkStore (removeFirst (fun u => N.eqb (usr_id u) U) (users st))
       (doctors st)
       (List.filter (fun a => negb (N.eqb (user_id a) U)) (appointments st))
       (admins st) (feedbacks st) (consultations st)).
Proof.
  intros Hrole Hex. unfold deleteUser, isAdmin. unfold_handler.
  rewrite Hrole. simpl. unfold userExists in Hex.
  destruct (find _ (users st)); [reflexivity | contradiction].
Qed.

Lemma removeFirst_In {A : Type} (p : A -> bool) (l : list A) (x : A) :
  p x = false -> (In x (removeFirst p l) <-> In x l).
Proof.
  intros Hx. induction l as [|y l IH]; simpl; [tauto|].
  destruct (p y) eqn:Hy; simpl.
  - split; [auto|]. intros [<- | H]; [congruence | exact H].
  - rewrite IH. tauto.
Qed.

Lemma removeFirst_unique (U : ObjectId) (l : list User) :
  NoDup (map usr_id l) ->
  find (fun u => N.eqb (usr_id u) U) (removeFirst (fun u => N.eqb (usr_id u) U) l)
  = None.
Proof.
  intros Hnd. induction l as [|x l IH]; simpl in *; [reflexivity|].
  inversion Hnd as [|? ? Hnotin Hnd']; subst.
  destruct (N.eqb_spec (usr_id x) U) as [Heq|Hne].
  - destruct (find _ l) as [y|] eqn:Hf; [|reflexivity].
    apply find_some in Hf. destruct Hf as [Hin Hy].
    apply N.eqb_eq in Hy. exfalso. apply Hnotin.
    rewrite Heq, <- Hy. now apply in_map.
  - simpl. destruct (N.eqb_spec (usr_id x) U); [contradiction | auto].
Qed.

(** C10 (cascade of the user deletion).  When the admin deletes an existing
    user [U], the answer is 200, the appointments whose [user_id] is [U] are
    gone and every other appointment stays, in the order it had; the user
    document is gone and the other users stay; the doctor, admin, feedback
    and consultation collections are what they were. *)
Theorem delete_user_cascade auth U st :
  userRole auth = "Admin" ->
  userExists U st ->
  uniqueUserIds st ->
  let result := deleteUser auth U st in
  let st' := snd result in
  fst result = mkResponse 200 (Message "User deleted successfully")
  /\ (forall a, In a (appointments st')
                <-> In a (appointments st) /\ user_id a <> U)
  /\ appointments st'
     = List.filter (fun a => negb (N.eqb (user_id a) U)) (appointments st)
  /\ ~ userExists U st'
  /\ (forall u, usr_id u <> U -> (In u (users st') <-> In u (users st)))
  /\ doctors st' = doctors st
  /\ admins st' = admins st
  /\ feedbacks st' = feedbacks st
  /\ consultations st' = consultations st.
Proof.
  intros Hrole Hex Huniq result st'. subst st' result.
  rewrite (deleteUser_run auth U st Hrole Hex). simpl.
  split; [reflexivity|]. split.
  { intros a. rewrite filter_In, negb_true_iff, N.eqb_neq. tauto. }
  split; [reflexivity|]. split.
  { unfold userExists. simpl. rewrite removeFirst_unique; auto. }
  split.
  { intros u Hu. apply removeFirst_In. now apply N.eqb_neq. }
  repeat split; reflexivity.
Qed.

(** The admin deletes Alice: her completed appointment goes, Carol's
    stays. *)
Lemma delete_user_cascade_witness :
  let result := deleteUser Clinic.asAdmin 1 Clinic.completed in
  let st' := snd result in
  fst result = mkResponse 200 (Message "User deleted successfully")
  /\ (forall a, In a (appointments st')
                <-> In a (appointments Clinic.completed) /\ user_id a <> 1%N)
  /\ appointments st'
     = List.filter (fun a => negb (N.eqb (user_id a) 1))
         (appointments Clinic.completed)
  /\ ~ userExists 1 st'
  /\ (forall u, usr_id u <> 1%N ->
                (In u (users st') <-> In u (users Clinic.completed)))
  /\ doctors st' = doctors Clinic.completed
  /\ admins st' = admins Clinic.completed
  /\ feedbacks st' = feedbacks Clinic.completed
  /\ consultations st' = consultations Clinic.completed.
Proof.
  apply (delete_user_cascade Clinic.asAdmin 1 Clinic.completed).
  - reflexivity.
  - discriminate.
  - unfold uniqueUserIds. simpl.
    repeat constructor; simpl; intuition discriminate.
Defined.

Example alice_deleted :
  let st' := snd (deleteUser Clinic.asAdmin 1 Clinic.completed) in
  appointments st' = [Clinic.carolPending]
  /\ map name (users st') = ["Bob"; "Root"; "Carol"].
Proof. split; reflexivity. Qed.

(** * Further properties of the routes *)

(** ** The patient booking, case by case *)

Lemma nonEmpty_Some v s : nonEmpty v = Some s -> v = Some s /\ s <> "".
Proof.
  unfold nonEmpty, truthy. destruct v as [x|]; [|discriminate].
  destruct (String.eqb_spec x ""); simpl; [discriminate|].
  intros [= <-]. auto.
Qed.

Lemma nonEmpty_None v : nonEmpty v = None <-> truthy v = false.
Proof.
  unfold nonEmpty. destruct v as [x|]; simpl.
  - destruct (String.eqb x ""); simpl; split; congruence.
  - split; reflexivity.
Qed.

(** What the patient route does for a patient, branch by branch. *)
Lemma bookAppointment_patient env auth body st :
  userRole auth = "Patient" ->
  bookAppointment env auth body st
  = match body_doctor_id body, body_date body, nonEmpty (body_time body) with
    | Some D, Some T, Some slot =>
        match find (fun d => N.eqb (doc_id d) D) (doctors st) with
        | None => (NotFoundError "Doctor not found", st)
        | Some _ =>
            match find (slotFilter D T slot ["Pending"; "Upcoming"])
                    (appointments st) with
            | Some _ => (ConflictError, st)
            | None =>
                let a := patientAppointment env auth body D T slot in
                if existsb (hasId (newId env)) (appointments st)
                then (mkResponse 500 (Message "Failed to book appointment"), st)
                else (mkResponse 201
                        (Booked "Appointment booked successfully" (bookedView a)),
                      withAppointments st (appointments st ++ [a]))
            end
        end
    | _, _, _ =>
        (ValidationError "Doctor ID, date, and time are required", st)
    end.
Proof.
  intros Hrole. unfold bookAppointment. unfold_handler. rewrite Hrole. simpl.
  destruct (body_doctor_id body) as [D|]; [|reflexivity].
  destruct (body_date body) as [T|]; [|reflexivity].
  destruct (nonEmpty (body_time body)) as [S|]; [|reflexivity].
  simpl. destruct (find _ (doctors st)); [|reflexivity].
  simpl. destruct (find (slotFilter _ _ _ _) _); [reflexivity|].
  simpl. unfold patientAppointment.
  destruct (existsb _ _); reflexivity.
Qed.

(** X1.  For a patient who asks for a slot of an existing doctor, the answer
    is the conflict answer exactly when an appointment on the slot is
    [Pending] or [Upcoming]; the store is then unchanged.  Otherwise the
    booking is answered 201. *)
Theorem patient_booking_conflict env auth body st D T S :
  userRole auth = "Patient" ->
  asksFor body D T S ->
  doctorExists D st ->
  freshId (newId env) st ->
  let result := bookAppointment env auth body st in
  (fst result = ConflictError <-> held ["Pending"; "Upcoming"] D T S st)
  /\ (held ["Pending"; "Upcoming"] D T S st -> snd result = st)
  /\ (~ held ["Pending"; "Upcoming"] D T S st -> code (fst result) = 201%nat).
Proof.
  intros Hrole Hb Hdoc Hfresh result.
  pose proof (find_slotFilter_held ["Pending"; "Upcoming"] D T S st) as Hheld.
  destruct (find (slotFilter D T S ["Pending"; "Upcoming"]) (appointments st))
    as [h|] eqn:Hf.
  - assert (Hr : result = (ConflictError, st))
      by (apply (bookAppointment_conflict env auth body st D T S h); auto).
    rewrite Hr. simpl.
    assert (Hh : held ["Pending"; "Upcoming"] D T S st)
      by (apply Hheld; discriminate).
    repeat split; auto. intros Hn. contradiction.
  - pose proof (bookAppointment_created env auth body st D T S
                  Hrole Hb Hdoc Hf Hfresh) as Hr.
    cbv zeta in Hr. subst result. rewrite Hr. simpl.
    assert (Hn : ~ held ["Pending"; "Upcoming"] D T S st).
    { intros Hh. apply Hheld in Hh. congruence. }
    repeat split; auto; try (intros H; discriminate H); intros H; contradiction.
Qed.

(** Carol asks for the slot Alice holds as [Pending]. *)
Lemma patient_booking_conflict_witness :
  let result :=
    bookAppointment Clinic.env2 (Clinic.asPatient 4) Clinic.tenOClock
      Clinic.booked in
  (fst result = ConflictError
   <-> held ["Pending"; "Upcoming"] 10 Clinic.jan10 "10:00 AM" Clinic.booked)
  /\ (held ["Pending"; "Upcoming"] 10 Clinic.jan10 "10:00 AM" Clinic.booked ->
      snd result = Clinic.booked)
  /\ (~ held ["Pending"; "Upcoming"] 10 Clinic.jan10 "10:00 AM" Clinic.booked ->
      code (fst result) = 201%nat).
Proof.
  apply (patient_booking_conflict Clinic.env2 (Clinic.asPatient 4)
           Clinic.tenOClock Clinic.booked 10 Clinic.jan10 "10:00 AM").
  - reflexivity.
  - repeat split; discriminate.
  - discriminate.
  - reflexivity.
Defined.

(** X2.  A patient's booking request that lacks the doctor, the date or the
    time (an empty time included) is answered 400, and one that names a
    doctor no profile has is answered 404; neither writes to the store. *)
Theorem patient_booking_rejections env auth body st :
  userRole auth = "Patient" ->
  let result := bookAppointment env auth body st in
  (body_doctor_id body = None \/ body_date body = None
   \/ truthy (body_time body) = false ->
   result = (ValidationError "Doctor ID, date, and time are required", st))
  /\ (forall D, body_doctor_id body = Some D ->
                body_date body <> None ->
                truthy (body_time body) = true ->
                ~ doctorExists D st ->
                result = (NotFoundError "Doctor not found", st)).
Proof.
  intros Hrole result. subst result.
  rewrite (bookAppointment_patient env auth body st Hrole).
  split.
  - intros [H | [H | H]].
    + now rewrite H.
    + rewrite H. destruct (body_doctor_id body); reflexivity.
    + apply nonEmpty_None in H. rewrite H.
      destruct (body_doctor_id body), (body_date body); reflexivity.
  - intros D HD Hdate Htime Hdoc. rewrite HD.
    destruct (body_date body) as [T|]; [|contradiction].
    destruct (nonEmpty (body_time body)) as [S|] eqn:Hn.
    + unfold doctorExists in Hdoc.
      destruct (find _ (doctors st)); [|reflexivity].
      exfalso. apply Hdoc. discriminate.
    + apply nonEmpty_None in Hn. congruence.
Qed.

(** Alice asks for a doctor no profile has. *)
Lemma patient_booking_rejections_witness :
  let body :=
    mkBody None (Some 99%N) (Some Clinic.jan10) (Some "10:00 AM") None None None in
  let result := bookAppointment Clinic.env1 (Clinic.asPatient 1) body Clinic.empty in
  (body_doctor_id body = None \/ body_date body = None
   \/ truthy (body_time body) = false ->
   result
   = (ValidationError "Doctor ID, date, and time are required", Clinic.empty))
  /\ (forall D, body_doctor_id body = Some D ->
                body_date body <> None ->
                truthy (body_time body) = true ->
                ~ doctorExists D Clinic.empty ->
                result = (NotFoundError "Doctor not found", Clinic.empty)).
Proof.
  apply (patient_booking_rejections Clinic.env1 (Clinic.asPatient 1)
           (mkBody None (Some 99%N) (Some Clinic.jan10) (Some "10:00 AM")
              None None None)
           Clinic.empty).
  reflexivity.
Defined.

(** X3.  The answer "Doctors cannot book appointments with themselves" is
    never given: the check that would give it asks for the role Doctor, and a
    request with that role has been answered 403 before. *)
Theorem self_booking_answer_never_given env auth body st :
  json (fst (bookAppointment env auth body st))
  <> Message "Doctors cannot book appointments with themselves".
Proof.
  destruct (String.eqb_spec (userRole auth) "Patient") as [Hrole|Hrole].
  - rewrite (bookAppointment_patient env auth body st Hrole).
    destruct (body_doctor_id body); [|discriminate].
    destruct (body_date body); [|discriminate].
    destruct (nonEmpty (body_time body)); [|discriminate].
    destruct (find _ (doctors st)); [|discriminate].
    destruct (find _ (appointments st)); [discriminate|].
    cbv zeta. destruct (existsb _ _); discriminate.
  - rewrite (bookAppointment_not_patient env auth body st Hrole). discriminate.
Qed.

(** X4.  The patient route writes to the store only when it answers 201, and
    then it adds one appointment and nothing else: a [Pending] appointment of
    the requesting identity, with the new identifier and the instant of the
    request as [createdAt]. *)
Theorem patient_booking_effect env auth body st :
  let result := bookAppointment env auth body st in
  (code (fst result) <> 201%nat -> snd result = st)
  /\ (code (fst result) = 201%nat ->
      exists a,
        snd result = withAppointments st (appointments st ++ [a])
        /\ status a = "Pending" /\ user_id a = req_userId auth
        /\ body_doctor_id body = Some (doctor_id a)
        /\ _id a = newId env /\ createdAt a = now env).
Proof.
  intros result. subst result.
  destruct (String.eqb_spec (userRole auth) "Patient") as [Hrole|Hrole].
  - rewrite (bookAppointment_patient env auth body st Hrole).
    destruct (body_doctor_id body) as [D|];
      [|split; [reflexivity | discriminate]].
    destruct (body_date body) as [T|];
      [|split; [reflexivity | discriminate]].
    destruct (nonEmpty (body_time body)) as [S|];
      [|split; [reflexivity | discriminate]].
    destruct (find _ (doctors st));
      [|split; [reflexivity | discriminate]].
    destruct (find _ (appointments st));
      [split; [reflexivity | discriminate]|].
    cbv zeta. destruct (existsb _ _);
      [split; [reflexivity | discriminate]|].
    split; [intros H; now destruct H|]. intros _.
    exists (patientAppointment env auth body D T S). simpl. auto 10.
  - rewrite (bookAppointment_not_patient env auth body st Hrole).
    split; [reflexivity | discriminate].
Qed.

(** ** The role gate of the admin routes *)

Lemma not_admin auth : userRole auth <> "Admin" -> isAdmin auth = false.
Proof.
  intros H. unfold isAdmin.
  destruct (String.eqb_spec (userRole auth) "Admin"); [contradiction|reflexivity].
Qed.

Lemma markExpired_forbidden env auth st :
  userRole auth <> "Admin" ->
  markExpired env auth st
  = (ForbiddenError "Only admins can access this endpoint", st).
Proof.
  intros H. unfold markExpired. unfold_handler. now rewrite (not_admin _ H).
Qed.

Lemma adminGetAppointments_forbidden env auth st :
  userRole auth <> "Admin" ->
  adminGetAppointments env auth st
  = (ForbiddenError "Only admins can access this endpoint", st).
Proof.
  intros H. unfold adminGetAppointments. unfold_handler.
  now rewrite (not_admin _ H).
Qed.

Lemma updateAppointmentStatus_forbidden env auth id body st :
  userRole auth <> "Admin" ->
  updateAppointmentStatus env auth id body st
  = (ForbiddenError "Only admins can access this endpoint", st).
Proof.
  intros H. unfold updateAppointmentStatus. unfold_handler.
  now rewrite (not_admin _ H).
Qed.

Lemma adminCreateAppointment_forbidden env auth body st :
  userRole auth <> "Admin" ->
  adminCreateAppointment env auth body st
  = (ForbiddenError "Only admins can access this endpoint", st).
Proof.
  intros H. unfold adminCreateAppointment. unfold_handler.
  now rewrite (not_admin _ H).
Qed.

Lemma deleteUser_forbidden auth id st :
  userRole auth <> "Admin" ->
  deleteUser auth id st
  = (ForbiddenError "Only admins can access this endpoint", st).
Proof.
  intros H. unfold deleteUser. unfold_handler. now rewrite (not_admin _ H).
Qed.

Lemma deleteAppointment_forbidden auth id st :
  userRole auth <> "Admin" ->
  deleteAppointment auth id st
  = (ForbiddenError "Only admins can access this endpoint", st).
Proof.
  intros H. unfold deleteAppointment. unfold_handler.
  now rewrite (not_admin _ H).
Qed.

(** X5.  Every admin route that touches appointments or users answers 403 to
    an identity whose role is not Admin and writes nothing; the list, in
    particular, does not sweep for it. *)
Theorem admin_routes_gated env auth id body st :
  userRole auth <> "Admin" ->
  let forbidden := (ForbiddenError "Only admins can access this endpoint", st) in
  adminGetAppointments env auth st = forbidden
  /\ markExpired env auth st = forbidden
  /\ updateAppointmentStatus env auth id body st = forbidden
  /\ adminCreateAppointment env auth body st = forbidden
  /\ deleteAppointment auth id st = forbidden
  /\ deleteUser auth id st = forbidden.
Proof.
  intros H forbidden. subst forbidden.
  repeat split.
  - now apply adminGetAppointments_forbidden.
  - now apply markExpired_forbidden.
  - now apply updateAppointmentStatus_forbidden.
  - now apply adminCreateAppointment_forbidden.
  - now apply deleteAppointment_forbidden.
  - now apply deleteUser_forbidden.
Qed.

(** Dr Bob tries the admin routes on Alice's appointment. *)
Lemma admin_routes_gated_witness :
  let forbidden :=
    (ForbiddenError "Only admins can access this endpoint", Clinic.booked) in
  adminGetAppointments Clinic.later Clinic.asBob Clinic.booked = forbidden
  /\ markExpired Clinic.later Clinic.asBob Clinic.booked = forbidden
  /\ updateAppointmentStatus Clinic.later Clinic.asBob 100
       (statusBody (Some "Cancelled")) Clinic.booked = forbidden
  /\ adminCreateAppointment Clinic.later Clinic.asBob
       (statusBody (Some "Cancelled")) Clinic.booked = forbidden
  /\ deleteAppointment Clinic.asBob 100 Clinic.booked = forbidden
  /\ deleteUser Clinic.asBob 100 Clinic.booked = forbidden.
Proof.
  apply (admin_routes_gated Clinic.later Clinic.asBob 100
           (statusBody (Some "Cancelled")) Clinic.booked).
  discriminate.
Defined.

(** ** At most one holder per slot *)

Lemma filter_find_none {A : Type} (p q : A -> bool) (l : list A) :
  find p l = None ->
  (forall x, q x = true -> p x = true) ->
  List.filter q l = [].
Proof.
  intros Hp Hqp. apply filter_none. intros x Hx.
  destruct (q x) eqn:Hq; [|reflexivity].
  apply Hqp in Hq. pose proof (find_none _ _ Hp x Hx). congruence.
Qed.

Lemma slotFilter_incl D T S blocking checked x :
  incl blocking checked ->
  slotFilter D T S blocking x = true ->
  slotFilter D T S checked x = true.
Proof.
  intros Hincl. rewrite !slotFilter_onSlot, !andb_true_iff, !includes_In.
  intros [Hs Hin]. auto.
Qed.

Lemma onSlot_inj D T S D' T' S' a :
  onSlot D T S a = true -> onSlot D' T' S' a = true ->
  D' = D /\ T' = T /\ S' = S.
Proof.
  unfold onSlot. rewrite !andb_true_iff.
  intros [[H1 H2] H3] [[H1' H2'] H3'].
  apply N.eqb_eq in H1, H1'. apply Z.eqb_eq in H2, H2'.
  apply String.eqb_eq in H3, H3'. repeat split; congruence.
Qed.

(** Storing an appointment on a slot the route found free keeps the
    holders of every slot at most one. *)
Lemma append_keeps_atMostOne blocking checked st D T S a :
  atMostOne blocking st ->
  onSlot D T S a = true ->
  find (slotFilter D T S checked) (appointments st) = None ->
  incl blocking checked ->
  atMostOne blocking (withAppointments st (appointments st ++ [a])).
Proof.
  intros Hone Ha Hfree Hincl D' T' S'. simpl.
  rewrite filter_app, length_app. simpl.
  destruct (slotFilter D' T' S' blocking a) eqn:Hm; simpl.
  - rewrite slotFilter_onSlot in Hm. apply andb_true_iff in Hm.
    destruct (onSlot_inj D T S D' T' S' a Ha (proj1 Hm)) as (-> & -> & ->).
    rewrite (filter_find_none (slotFilter D T S checked)); [simpl; lia | exact Hfree |].
    intros x. now apply slotFilter_incl.
  - specialize (Hone D' T' S'). lia.
Qed.

(** X6.  If no slot has more than one [Pending] appointment, no slot has
    more than one after a request to the patient route, whatever the
    request. *)
Theorem patient_booking_keeps_one_pending env auth body st :
  atMostOne ["Pending"] st ->
  atMostOne ["Pending"] (snd (bookAppointment env auth body st)).
Proof.
  intros Hone.
  destruct (String.eqb_spec (userRole auth) "Patient") as [Hrole|Hrole].
  - rewrite (bookAppointment_patient env auth body st Hrole).
    destruct (body_doctor_id body) as [D|]; [|exact Hone].
    destruct (body_date body) as [T|]; [|exact Hone].
    destruct (nonEmpty (body_time body)) as [S|]; [|exact Hone].
    destruct (find _ (doctors st)); [|exact Hone].
    destruct (find _ (appointments st)) eqn:Hfree; [exact Hone|].
    cbv zeta. destruct (existsb _ _); [exact Hone|]. simpl.
    apply (append_keeps_atMostOne ["Pending"] ["Pending"; "Upcoming"] st D T S);
      auto.
    + now apply onSlot_refl.
    + intros x [<- | []]. simpl. auto.
  - now rewrite (bookAppointment_not_patient env auth body st Hrole).
Qed.

Lemma atMostOne_single blocking st a :
  appointments st = [a] -> atMostOne blocking st.
Proof.
  intros H D T S. rewrite H. simpl.
  destruct (slotFilter D T S blocking a); simpl; lia.
Qed.

(** Carol asks for another time on the day Alice is booked. *)
Lemma patient_booking_keeps_one_pending_witness :
  atMostOne ["Pending"]
    (snd (bookAppointment Clinic.env2 (Clinic.asPatient 4)
            (mkBody None (Some 10%N) (Some Clinic.jan10) (Some "11:00 AM")
               None None None)
            Clinic.booked)).
Proof.
  apply (patient_booking_keeps_one_pending Clinic.env2 (Clinic.asPatient 4)
           (mkBody None (Some 10%N) (Some Clinic.jan10) (Some "11:00 AM")
              None None None)
           Clinic.booked).
  apply (atMostOne_single ["Pending"] Clinic.booked Clinic.alicePending).
  reflexivity.
Defined.

(** What the admin booking can do to the store, whatever the request: leave
    it, or add one appointment on a slot it found free of [Pending] and
    [Confirmed] holders. *)
Lemma adminCreateAppointment_effect env auth body st :
  snd (adminCreateAppointment env auth body st) = st
  \/ exists D T S a,
       onSlot D T S a = true
       /\ find (slotFilter D T S ["Pending"; "Confirmed"]) (appointments st)
          = None
       /\ snd (adminCreateAppointment env auth body st)
          = withAppointments st (appointments st ++ [a]).
Proof.
  unfold adminCreateAppointment. unfold_handler.
  destruct (isAdmin auth); simpl; [|now left].
  destruct (body_user_id body) as [U|]; simpl; [|now left].
  destruct (body_doctor_id body) as [D|]; simpl; [|now left].
  destruct (body_date body) as [T|]; simpl; [|now left].
  destruct (nonEmpty (body_time body)) as [S|]; simpl; [|now left].
  destruct (find _ (users st)); simpl; [|now left].
  destruct (find _ (doctors st)); simpl; [|now left].
  destruct (find (slotFilter _ _ _ _) _) eqn:Hfree; simpl; [now left|].
  destruct (includes statusEnum _ && _); simpl; [|now left].
  right. exists D, T, S. eexists. split; [|split; [exact Hfree|]].
  2:{ destruct (createdView _ _); reflexivity. }
  now apply onSlot_refl.
Qed.

(** X7.  If no slot has more than one appointment that is [Pending] or
    [Confirmed], no slot has more than one after a request to the admin
    booking route, whatever the request and whatever status it asks for. *)
Theorem admin_booking_keeps_one_active env auth body st :
  atMostOne ["Pending"; "Confirmed"] st ->
  atMostOne ["Pending"; "Confirmed"]
    (snd (adminCreateAppointment env auth body st)).
Proof.
  intros Hone.
  destruct (adminCreateAppointment_effect env auth body st)
    as [Hsame | (D & T & S & a & Ha & Hfree & Hst)].
  - now rewrite Hsame.
  - rewrite Hst.
    apply (append_keeps_atMostOne _ ["Pending"; "Confirmed"] st D T S);
      auto using incl_refl.
Qed.

(** The admin books Carol at 11:00 AM on the day Alice is booked. *)
Lemma admin_booking_keeps_one_active_witness :
  atMostOne ["Pending"; "Confirmed"]
    (snd (adminCreateAppointment Clinic.env2 Clinic.asAdmin
            (mkBody (Some 4%N) (Some 10%N) (Some Clinic.jan10) (Some "11:00 AM")
               None None None)
            Clinic.booked)).
Proof.
  apply (admin_booking_keeps_one_active Clinic.env2 Clinic.asAdmin
           (mkBody (Some 4%N) (Some 10%N) (Some Clinic.jan10) (Some "11:00 AM")
              None None None)
           Clinic.booked).
  apply (atMostOne_single _ Clinic.booked Clinic.alicePending).
  reflexivity.
Defined.

(** ** More on the sweep *)

Lemma expire_fields t a :
  _id (expire t a) = _id a /\ user_id (expire t a) = user_id a
  /\ doctor_id (expire t a) = doctor_id a /\ date (expire t a) = date a
  /\ time (expire t a) = time a /\ symptoms (expire t a) = symptoms a
  /\ notes (expire t a) = notes a /\ createdAt (expire t a) = createdAt a.
Proof. unfold expire. destruct (stale t a); simpl; auto 10. Qed.

Lemma slotFilter_expire D T S blocking t a :
  ~ In "Expired" blocking ->
  slotFilter D T S blocking (expire t a) = true ->
  slotFilter D T S blocking a = true.
Proof.
  intros Hno. unfold expire. destruct (stale t a); [|auto].
  rewrite slotFilter_onSlot, andb_true_iff, includes_In. simpl.
  intros [_ Hin]. contradiction.
Qed.

Lemma filter_map_length {A : Type} (p : A -> bool) (f : A -> A) (l : list A) :
  (forall x, p (f x) = true -> p x = true) ->
  (List.length (List.filter p (map f l)) <= List.length (List.filter p l))%nat.
Proof.
  intros H. induction l as [|x l IH]; simpl; [lia|].
  destruct (p (f x)) eqn:Hf.
  - rewrite (H x Hf). simpl. lia.
  - destruct (p x); simpl; lia.
Qed.

Lemma expire_keeps_atMostOne blocking t st :
  ~ In "Expired" blocking ->
  atMostOne blocking st ->
  atMostOne blocking (withAppointments st (map (expire t) (appointments st))).
Proof.
  intros Hno Hone D T S. simpl.
  pose proof (filter_map_length (slotFilter D T S blocking) (expire t)
                (appointments st)
                (fun x => slotFilter_expire D T S blocking t x Hno)).
  specialize (Hone D T S). lia.
Qed.

Lemma sweep_store env auth st :
  snd (markExpired env auth st) = st
  \/ snd (markExpired env auth st)
     = withAppointments st (map (expire (now env)) (appointments st)).
Proof.
  destruct (String.eqb_spec (userRole auth) "Admin") as [Hrole|Hrole].
  - right. now rewrite (markExpired_run env auth st Hrole).
  - left. now rewrite (markExpired_forbidden env auth st Hrole).
Qed.

Lemma listing_store env auth st :
  snd (adminGetAppointments env auth st) = snd (markExpired env auth st).
Proof.
  destruct (String.eqb_spec (userRole auth) "Admin") as [Hrole|Hrole].
  - now rewrite (adminGetAppointments_run env auth st Hrole),
      (markExpired_run env auth st Hrole).
  - now rewrite (adminGetAppointments_forbidden env auth st Hrole),
      (markExpired_forbidden env auth st Hrole).
Qed.

(** X8.  The sweep, run on demand or by the admin list, keeps every bound
    "at most one appointment per slot with a status among these", as long as
    [Expired] is not among them: it never adds a holder to a slot. *)
Theorem sweep_keeps_at_most_one blocking env auth st :
  ~ In "Expired" blocking ->
  atMostOne blocking st ->
  atMostOne blocking (snd (markExpired env auth st))
  /\ atMostOne blocking (snd (adminGetAppointments env auth st)).
Proof.
  intros Hno Hone.
  assert (H : atMostOne blocking (snd (markExpired env auth st))).
  { destruct (sweep_store env auth st) as [-> | ->]; [exact Hone|].
    now apply expire_keeps_atMostOne. }
  split; [exact H|]. now rewrite listing_store.
Qed.

(** The sweep of 2025-01-16 in the clinic with Alice's booking. *)
Lemma sweep_keeps_at_most_one_witness :
  atMostOne ["Pending"; "Confirmed"]
    (snd (markExpired Clinic.later Clinic.asAdmin Clinic.booked))
  /\ atMostOne ["Pending"; "Confirmed"]
       (snd (adminGetAppointments Clinic.later Clinic.asAdmin Clinic.booked)).
Proof.
  apply (sweep_keeps_at_most_one ["Pending"; "Confirmed"] Clinic.later
           Clinic.asAdmin Clinic.booked).
  - simpl. intuition discriminate.
  - apply (atMostOne_single _ Clinic.booked Clinic.alicePending). reflexivity.
Defined.

(** X9.  The sweep changes nothing but the status and [updatedAt] of
    appointments dated before the instant it reads: the other collections
    are untouched, every appointment keeps its place and its other fields,
    an appointment dated at or after the instant is the same document, and
    one that changed is [Expired] with that instant as [updatedAt]. *)
Theorem sweep_frame env auth st :
  let st' := snd (markExpired env auth st) in
  sameButAppointments st st'
  /\ List.length (appointments st') = List.length (appointments st)
  /\ forall i a,
       nth_error (appointments st) i = Some a ->
       exists a',
         nth_error (appointments st') i = Some a'
         /\ _id a' = _id a /\ user_id a' = user_id a
         /\ doctor_id a' = doctor_id a /\ date a' = date a
         /\ time a' = time a /\ symptoms a' = symptoms a
         /\ notes a' = notes a /\ createdAt a' = createdAt a
         /\ (now env <= date a -> a' = a)
         /\ (a' = a \/ (status a' = "Expired" /\ updatedAt a' = now env)).
Proof.
  intros st'. subst st'.
  destruct (sweep_store env auth st) as [-> | ->].
  - split; [repeat split|]. split; [reflexivity|].
    intros i a Ha. exists a. rewrite Ha. auto 15.
  - split; [repeat split|]. split; [simpl; apply length_map|].
    intros i a Ha. exists (expire (now env) a). simpl.
    rewrite nth_error_map, Ha. simpl.
    destruct (expire_fields (now env) a)
      as (H1 & H2 & H3 & H4 & H5 & H6 & H7 & H8).
    repeat (split; [assumption || reflexivity|]).
    unfold expire, stale. split.
    + intros Hd. apply Z.ltb_ge in Hd. now rewrite Hd.
    + destruct (_ && _); simpl; auto.
Qed.

Lemma statusChanges_expire t l :
  statusChanges l (map (expire t) l) = List.length (List.filter (stale t) l).
Proof.
  unfold statusChanges.
  induction l as [|a l IH]; simpl; [reflexivity|].
  unfold expire at 1. destruct (stale t a) eqn:Hs; simpl.
  - assert (Hne : String.eqb (status a) "Expired" = false).
    { apply String.eqb_neq. intros Heq.
      rewrite stale_settled in Hs; [discriminate|].
      rewrite Heq. simpl. auto. }
    rewrite Hne. simpl. now rewrite IH.
  - rewrite String.eqb_refl. simpl. exact IH.
Qed.

(** X10.  The count the on-demand sweep reports is the number of
    appointments whose status the sweep changed. *)
Theorem sweep_reports_changes env auth st :
  userRole auth = "Admin" ->
  let result := markExpired env auth st in
  exists n message,
    fst result = mkResponse 200 (Swept message n)
    /\ n = statusChanges (appointments st) (appointments (snd result)).
Proof.
  intros Hrole result. subst result.
  rewrite (markExpired_run env auth st Hrole). cbv zeta. simpl.
  do 2 eexists. split; [reflexivity|].
  now rewrite statusChanges_expire.
Qed.

Lemma sweep_reports_changes_witness :
  let result := markExpired Clinic.later Clinic.asAdmin Clinic.completed in
  exists n message,
    fst result = mkResponse 200 (Swept message n)
    /\ n = statusChanges (appointments Clinic.completed)
             (appointments (snd result)).
Proof.
  apply (sweep_reports_changes Clinic.later Clinic.asAdmin Clinic.completed).
  reflexivity.
Defined.

Lemma expire_expire_status t1 t2 a :
  t1 <= t2 -> status (expire t2 (expire t1 a)) = status (expire t2 a).
Proof.
  intros Hle. unfold expire at 2. destruct (stale t1 a) eqn:H1; [|reflexivity].
  assert (H2 : stale t2 a = true).
  { unfold stale in *. apply andb_true_iff in H1. destruct H1 as [Hd Hs].
    apply Z.ltb_lt in Hd. rewrite Hs, andb_true_r. apply Z.ltb_lt. lia. }
  unfold expire. rewrite H2.
  rewrite stale_settled; [reflexivity|]. simpl. auto.
Qed.

(** X11.  A sweep after an earlier sweep leaves every appointment with the
    status a single sweep at the later instant gives it. *)
Theorem sweep_after_sweep env1 env2 auth st :
  userRole auth = "Admin" ->
  now env1 <= now env2 ->
  map status
    (appointments (snd (markExpired env2 auth (snd (markExpired env1 auth st)))))
  = map status (appointments (snd (markExpired env2 auth st))).
Proof.
  intros Hrole Hle.
  rewrite (markExpired_run env1 auth st Hrole). cbv zeta. simpl snd.
  rewrite !markExpired_run by exact Hrole. cbv zeta. simpl.
  rewrite !map_map. apply map_ext.
  intros a. now apply expire_expire_status.
Qed.

(** The sweeps of 2025-01-05 and 2025-01-16. *)
Lemma sweep_after_sweep_witness :
  map status
    (appointments
       (snd (markExpired Clinic.later Clinic.asAdmin
               (snd (markExpired Clinic.env2 Clinic.asAdmin Clinic.booked)))))
  = map status
      (appointments (snd (markExpired Clinic.later Clinic.asAdmin Clinic.booked))).
Proof.
  apply (sweep_after_sweep Clinic.env2 Clinic.later Clinic.asAdmin Clinic.booked).
  - reflexivity.
  - discriminate.
Defined.

(** The second of the sweeps of 2025-01-05 and 2025-01-16 expires Alice's
    appointment of 2025-01-10. *)
Lemma sweep_again_later_witness :
  let once := markExpired Clinic.env2 Clinic.asAdmin Clinic.booked in
  let twice := markExpired Clinic.later Clinic.asAdmin (snd once) in
  exists n,
    json (fst twice)
    = Swept (String.append (decimal (Z.of_nat n)) " appointments marked as expired") n
    /\ n = List.length
             (List.filter
                (fun a => stale (now Clinic.later) a
                          && (now Clinic.env2 <=? date a))
                (appointments Clinic.booked)).
Proof.
  apply (sweep_again_later Clinic.env2 Clinic.later Clinic.asAdmin Clinic.booked).
  - reflexivity.
  - discriminate.
Defined.

(** ** The order of the admin list *)

Lemma dateTimeDescending_total a b :
  dateTimeDescending a b = false -> dateTimeDescending b a = true.
Proof.
  unfold dateTimeDescending. intros H.
  apply orb_false_iff in H. destruct H as [Hlt Heq].
  apply Z.ltb_ge in Hlt.
  destruct (Z.ltb_spec (date a) (date b)) as [Hab|Hab]; [reflexivity|].
  assert (Hd : date a = date b) by lia.
  rewrite Hd, Z.eqb_refl in *. simpl in *.
  destruct (String.leb_total (time a) (time b)); congruence.
Qed.

Lemma dateTimeDescending_listedBefore a b :
  dateTimeDescending a b = true -> listedBefore a b.
Proof.
  unfold dateTimeDescending, listedBefore. intros H.
  apply orb_true_iff in H. destruct H as [H|H].
  - left. now apply Z.ltb_lt.
  - right. apply andb_true_iff in H. destruct H as [H1 H2].
    apply Z.eqb_eq in H1. auto.
Qed.

Lemma insertBy_sorted {A : Type} (before : A -> A -> bool) (x : A) (l : list A) :
  (forall a b, before a b = false -> before b a = true) ->
  Sorted (fun a b => before a b = true) l ->
  Sorted (fun a b => before a b = true) (insertBy before x l).
Proof.
  intros Htotal Hs. induction Hs as [|y l Hs IH Hhd]; simpl.
  - repeat constructor.
  - destruct (before x y) eqn:Hxy.
    + constructor; [constructor; assumption|]. now constructor.
    + constructor; [exact IH|].
      destruct l as [|z l']; simpl.
      * constructor. now apply Htotal.
      * destruct (before x z); constructor.
        -- now apply Htotal.
        -- now inversion Hhd.
Qed.

Lemma sortBy_sorted {A : Type} (before : A -> A -> bool) (l : list A) :
  (forall a b, before a b = false -> before b a = true) ->
  Sorted (fun a b => before a b = true) (sortBy before l).
Proof.
  intros Htotal. induction l as [|x l IH]; simpl.
  - constructor.
  - now apply insertBy_sorted.
Qed.

Lemma Sorted_weaken {A : Type} (R Q : A -> A -> Prop) (l : list A) :
  (forall a b, R a b -> Q a b) -> Sorted R l -> Sorted Q l.
Proof.
  intros H Hs. induction Hs as [|x l Hs IH Hhd]; constructor; auto.
  destruct Hhd; constructor; auto.
Qed.

(** X12.  The admin list shows the appointments latest date first, those of
    one date by descending time string, and its [total] is the number of
    appointments in the store. *)
Theorem listing_order env auth st :
  userRole auth = "Admin" ->
  let result := adminGetAppointments env auth st in
  exists listed : list Appointment,
    fst result
    = mkResponse 200
        (Listing (map (fun a => adminView (populate (snd result) a)) listed)
           (List.length (appointments st)))
    /\ Permutation listed (appointments (snd result))
    /\ Sorted listedBefore listed.
Proof.
  intros Hrole result. subst result.
  rewrite (adminGetAppointments_run env auth st Hrole). cbv zeta. simpl.
  set (st' := withAppointments st (map (expire (now env)) (appointments st))).
  exists (sortBy dateTimeDescending (map (expire (now env)) (appointments st))).
  split; [|split].
  - rewrite !length_map, map_map.
    rewrite (Permutation_length (sortBy_perm dateTimeDescending _)), length_map.
    reflexivity.
  - apply sortBy_perm.
  - apply (Sorted_weaken (fun a b => dateTimeDescending a b = true)).
    + apply dateTimeDescending_listedBefore.
    + apply sortBy_sorted. apply dateTimeDescending_total.
Qed.

Lemma listing_order_witness :
  let result :=
    adminGetAppointments Clinic.later Clinic.asAdmin Clinic.completed in
  exists listed : list Appointment,
    fst result
    = mkResponse 200
        (Listing (map (fun a => adminView (populate (snd result) a)) listed)
           (List.length (appointments Clinic.completed)))
    /\ Permutation listed (appointments (snd result))
    /\ Sorted listedBefore listed.
Proof.
  apply (listing_order Clinic.later Clinic.asAdmin Clinic.completed).
  reflexivity.
Defined.

(** ** More on the status update *)

Lemma nth_error_updateFirst {A : Type} (p : A -> bool) (f : A -> A)
  (l : list A) i x :
  nth_error l i = Some x ->
  exists x', nth_error (updateFirst p f l) i = Some x'
             /\ (x' = x \/ (p x = true /\ x' = f x)).
Proof.
  revert i. induction l as [|y l IH]; intros [|i] H; simpl in *;
    try discriminate.
  - injection H as ->. destruct (p x) eqn:Hp; simpl; eauto.
  - destruct (p y); simpl; eauto.
Qed.

Lemma updateAppointmentStatus_store env auth id body st :
  snd (updateAppointmentStatus env auth id body st) = st
  \/ exists s,
       In s validStatuses
       /\ snd (updateAppointmentStatus env auth id body st)
          = withAppointments st
              (updateFirst (hasId id) (fun a => setStatus a s (now env))
                 (appointments st)).
Proof.
  destruct (String.eqb_spec (userRole auth) "Admin") as [Hrole|Hrole].
  - rewrite (updateAppointmentStatus_run env auth id body st Hrole).
    destruct (oneOf validStatuses (body_status body)) as [s|] eqn:Ho;
      [|now left].
    apply oneOf_Some in Ho.
    destruct (find (hasId id) (appointments st)); [|now left].
    right. exists s. split; [tauto | reflexivity].
  - left. now rewrite (updateAppointmentStatus_forbidden env auth id body st Hrole).
Qed.

(** X14.  A status update writes to one appointment at most, and to its
    status and [updatedAt] only: the other collections are untouched, every
    appointment keeps its place, one with another identifier is the same
    document, and one that changed has the identifier of the request, one of
    the six statuses and its other fields as before. *)
Theorem status_update_frame env auth id body st :
  let st' := snd (updateAppointmentStatus env auth id body st) in
  sameButAppointments st st'
  /\ forall i a,
       nth_error (appointments st) i = Some a ->
       exists a',
         nth_error (appointments st') i = Some a'
         /\ (a' = a
             \/ (_id a = id /\ In (status a') sixStatuses
                 /\ a' = setStatus a (status a') (now env))).
Proof.
  intros st'. subst st'.
  destruct (updateAppointmentStatus_store env auth id body st)
    as [-> | (s & Hs & ->)].
  - split; [repeat split|]. intros i a Ha. exists a. auto.
  - split; [repeat split|]. intros i a Ha. simpl.
    destruct (nth_error_updateFirst (hasId id)
                (fun a => setStatus a s (now env)) _ i a Ha)
      as (a' & Hn & [-> | [Hp ->]]).
    + exists a. auto.
    + exists (setStatus a s (now env)). split; [exact Hn|]. right.
      apply N.eqb_eq in Hp. simpl. auto.
Qed.

Lemma find_map_hasId id (f : Appointment -> Appointment) l :
  (forall a, _id (f a) = _id a) ->
  find (hasId id) (map f l) = option_map f (find (hasId id) l).
Proof.
  intros Hf. induction l as [|x l IH]; simpl; [reflexivity|].
  unfold hasId at 1 3. rewrite Hf.
  destruct (N.eqb (_id x) id); [reflexivity | exact IH].
Qed.

(** X15.  An admin may set a past appointment back to an open status, and the
    next admin list takes it away again: after a status update to [s] and a
    list read at an instant after the appointment's date, the appointment is
    [s] when [s] is [Completed], [Cancelled] or [Expired], and [Expired]
    when [s] is [Pending], [Confirmed] or [Rejected]. *)
Theorem reopened_past_appointment_expires env1 env2 auth id s a st :
  userRole auth = "Admin" ->
  In s sixStatuses ->
  find (hasId id) (appointments st) = Some a ->
  date a < now env2 ->
  let st1 := snd (updateAppointmentStatus env1 auth id (statusBody (Some s)) st) in
  let st2 := snd (adminGetAppointments env2 auth st1) in
  option_map status (find (hasId id) (appointments st2))
  = Some (if includes ["Completed"; "Cancelled"; "Expired"] s then s
          else "Expired").
Proof.
  intros Hrole Hs Ha Hd st1 st2. subst st2 st1.
  rewrite (updateAppointmentStatus_run env1 auth id _ st Hrole). simpl body_status.
  assert (Ho : oneOf validStatuses (Some s) = Some s)
    by (apply oneOf_Some; auto).
  rewrite Ho, Ha. cbv zeta. simpl snd.
  rewrite adminGetAppointments_run by exact Hrole. cbv zeta. simpl.
  rewrite find_map_hasId by (intros x; apply expire_fields).
  rewrite (find_updateFirst (hasId id) (fun x => setStatus x s (now env1)) _ a Ha).
  2:{ apply find_some in Ha. exact (proj2 Ha). }
  simpl. unfold expire, stale. simpl.
  apply Z.ltb_lt in Hd. rewrite Hd. simpl.
  destruct (includes _ s); reflexivity.
Qed.

(** On 2025-01-16 the admin sets Alice's appointment of 2025-01-10 to
    [Confirmed] and reads the list. *)
Lemma reopened_past_appointment_expires_witness :
  let st1 :=
    snd (updateAppointmentStatus Clinic.later Clinic.asAdmin 100
           (statusBody (Some "Confirmed")) Clinic.booked) in
  let st2 := snd (adminGetAppointments Clinic.later Clinic.asAdmin st1) in
  option_map status (find (hasId 100) (appointments st2))
  = Some (if includes ["Completed"; "Cancelled"; "Expired"] "Confirmed"
          then "Confirmed" else "Expired").
Proof.
  apply (reopened_past_appointment_expires Clinic.later Clinic.later
           Clinic.asAdmin 100 "Confirmed" Clinic.alicePending Clinic.booked).
  - reflexivity.
  - simpl. auto.
  - reflexivity.
  - reflexivity.
Defined.

(** ** Deleting an appointment *)

Lemma removeFirst_none {A : Type} (p : A -> bool) (l : list A) :
  find p l = None -> removeFirst p l = l.
Proof.
  induction l as [|x l IH]; simpl; [reflexivity|].
  destruct (p x); [discriminate|]. intros H. now rewrite IH.
Qed.

Lemma removeFirst_length {A : Type} (p : A -> bool) (l : list A) a :
  find p l = Some a ->
  (List.length (removeFirst p l) + 1 = List.length l)%nat.
Proof.
  induction l as [|x l IH]; simpl; [discriminate|].
  destruct (p x); intros H; simpl; [lia|]. specialize (IH H). lia.
Qed.

Lemma removeFirst_unique_id id (l : list Appointment) :
  NoDup (map _id l) -> find (hasId id) (removeFirst (hasId id) l) = None.
Proof.
  intros Hnd. induction l as [|x l IH]; simpl in *; [reflexivity|].
  inversion Hnd as [|? ? Hnotin Hnd']; subst.
  unfold hasId at 2. destruct (N.eqb_spec (_id x) id) as [Heq|Hne].
  - destruct (find (hasId id) l) as [y|] eqn:Hf; [|reflexivity].
    apply find_some in Hf. destruct Hf as [Hin Hy].
    apply N.eqb_eq in Hy. exfalso. apply Hnotin.
    rewrite Heq, <- Hy. now apply in_map.
  - simpl. unfold hasId at 1.
    destruct (N.eqb_spec (_id x) id); [contradiction | auto].
Qed.

Lemma deleteAppointment_run auth id st :
  userRole auth = "Admin" ->
  deleteAppointment auth id st
  = match find (hasId id) (appointments st) with
    | Some _ =>
        (mkResponse 200 (Message "Appointment deleted successfully"),
         withAppointments st (removeFirst (hasId id) (appointments st)))
    | None => (NotFoundError "Appointment not found", st)
    end.
Proof.
  intros Hrole. unfold deleteAppointment, isAdmin. unfold_handler.
  unfold Appointment_findByIdAndDelete. rewrite Hrole. simpl.
  destruct (find (hasId id) (appointments st)) eqn:Hf; simpl; [reflexivity|].
  rewrite (removeFirst_none _ _ Hf). destruct st; reflexivity.
Qed.

(** X16.  The admin's deletion of an appointment: an identifier no
    appointment has is answered 404 and nothing is written; otherwise the
    answer is 200, the appointment with the identifier is gone, every
    appointment with another identifier stays, in its order, one document
    fewer is stored, and the other collections are untouched. *)
Theorem delete_appointment auth id st :
  userRole auth = "Admin" ->
  uniqueAppointmentIds st ->
  let result := deleteAppointment auth id st in
  (find (hasId id) (appointments st) = None ->
   result = (NotFoundError "Appointment not found", st))
  /\ (forall a, find (hasId id) (appointments st) = Some a ->
      fst result = mkResponse 200 (Message "Appointment deleted successfully")
      /\ sameButAppointments st (snd result)
      /\ find (hasId id) (appointments (snd result)) = None
      /\ List.filter (fun b => negb (hasId id b)) (appointments (snd result))
         = List.filter (fun b => negb (hasId id b)) (appointments st)
      /\ (List.length (appointments (snd result)) + 1
          = List.length (appointments st))%nat).
Proof.
  intros Hrole Huniq result. subst result.
  rewrite (deleteAppointment_run auth id st Hrole). split.
  - intros Hn. now rewrite Hn.
  - intros a Ha. rewrite Ha. simpl.
    split; [reflexivity|]. split; [repeat split|].
    split; [now apply removeFirst_unique_id|]. split.
    + clear Ha Huniq. induction (appointments st) as [|x l IH]; simpl;
        [reflexivity|].
      destruct (hasId id x) eqn:Hx; simpl; [reflexivity|].
      rewrite Hx. simpl. now rewrite IH.
    + now apply (removeFirst_length _ _ a).
Qed.

(** The admin deletes Alice's appointment. *)
Lemma delete_appointment_witness :
  let result := deleteAppointment Clinic.asAdmin 100 Clinic.completed in
  (find (hasId 100) (appointments Clinic.completed) = None ->
   result = (NotFoundError "Appointment not found", Clinic.completed))
  /\ (forall a, find (hasId 100) (appointments Clinic.completed) = Some a ->
      fst result = mkResponse 200 (Message "Appointment deleted successfully")
      /\ sameButAppointments Clinic.completed (snd result)
      /\ find (hasId 100) (appointments (snd result)) = None
      /\ List.filter (fun b => negb (hasId 100 b)) (appointments (snd result))
         = List.filter (fun b => negb (hasId 100 b))
             (appointments Clinic.completed)
      /\ (List.length (appointments (snd result)) + 1
          = List.length (appointments Clinic.completed))%nat).
Proof.
  apply (delete_appointment Clinic.asAdmin 100 Clinic.completed).
  - reflexivity.
  - unfold uniqueAppointmentIds. simpl.
    repeat constructor; simpl; intuition discriminate.
Defined.

Lemma filter_removeFirst_only {A : Type} (p q : A -> bool) (l : list A) a :
  find p l = Some a ->
  List.filter q l = [a] ->
  List.filter q (removeFirst p l) = [].
Proof.
  intros Hf Hq. pose proof (find_some _ _ Hf) as [_ Hpa].
  induction l as [|x l IH]; simpl in *; [discriminate|].
  destruct (p x) eqn:Hpx.
  - injection Hf as Hxa. subst x.
    destruct (q a) eqn:Hqa; [now injection Hq|].
    assert (Hin : In a (List.filter q l)) by (rewrite Hq; simpl; auto).
    apply filter_In in Hin. destruct Hin as [_ Hqa']. congruence.
  - simpl. destruct (q x) eqn:Hqx.
    + injection Hq as Hxa _. subst x. congruence.
    + auto.
Qed.

Lemma existsb_removeFirst {A : Type} (p q : A -> bool) (l : list A) :
  existsb q l = false -> existsb q (removeFirst p l) = false.
Proof.
  induction l as [|x l IH]; simpl; [auto|].
  intros H. apply orb_false_iff in H. destruct H as [Hx Hl].
  destruct (p x); simpl; [exact Hl|]. rewrite Hx. auto.
Qed.

(** X17.  Deleting the one appointment that sits on a slot frees the slot:
    the patient booking of that slot that follows is answered 201. *)
Theorem deleted_appointment_frees_slot env admin auth id body st a D T S :
  userRole admin = "Admin" ->
  userRole auth = "Patient" ->
  asksFor body D T S ->
  doctorExists D st ->
  freshId (newId env) st ->
  find (hasId id) (appointments st) = Some a ->
  List.filter (onSlot D T S) (appointments st) = [a] ->
  let st' := snd (deleteAppointment admin id st) in
  code (fst (bookAppointment env auth body st')) = 201%nat.
Proof.
  intros Hadmin Hrole Hb Hdoc Hfresh Ha Honly st'. subst st'.
  rewrite (deleteAppointment_run admin id st Hadmin), Ha. simpl snd.
  set (st' := withAppointments st (removeFirst (hasId id) (appointments st))).
  assert (Hfree : find (slotFilter D T S ["Pending"; "Upcoming"])
                    (appointments st') = None).
  { apply (find_none_filter _ (onSlot D T S)).
    - simpl. now apply (filter_removeFirst_only _ _ _ a).
    - intros x Hx. rewrite slotFilter_onSlot in Hx.
      now apply andb_true_iff in Hx. }
  pose proof (bookAppointment_created env auth body st' D T S Hrole Hb) as Hc.
  cbv zeta in Hc. rewrite Hc; auto.
  unfold freshId. simpl. now apply existsb_removeFirst.
Qed.

(** The admin deletes Alice's appointment, then Carol books its slot. *)
Lemma deleted_appointment_frees_slot_witness :
  let st' := snd (deleteAppointment Clinic.asAdmin 100 Clinic.booked) in
  code (fst (bookAppointment Clinic.env2 (Clinic.asPatient 4) Clinic.tenOClock st'))
  = 201%nat.
Proof.
  apply (deleted_appointment_frees_slot Clinic.env2 Clinic.asAdmin
           (Clinic.asPatient 4) 100 Clinic.tenOClock Clinic.booked
           Clinic.alicePending 10 Clinic.jan10 "10:00 AM").
  - reflexivity.
  - reflexivity.
  - repeat split; discriminate.
  - discriminate.
  - reflexivity.
  - reflexivity.
  - reflexivity.
Defined.

(** ** More on the doctor profile *)

Lemma updateFirst_const {A : Type} (p : A -> bool) (f : A -> A) (l : list A) u :
  find p l = Some u ->
  updateFirst p (fun _ => f u) l = updateFirst p f l.
Proof.
  induction l as [|x l IH]; simpl; [reflexivity|].
  destruct (p x).
  - now intros [= ->].
  - intros H. now rewrite IH.
Qed.

Lemma updateFirst_none {A : Type} (p : A -> bool) (f : A -> A) (l : list A) :
  find p l = None -> updateFirst p f l = l.
Proof.
  induction l as [|x l IH]; simpl; [reflexivity|].
  destruct (p x); [discriminate|]. intros H. now rewrite IH.
Qed.

Lemma updateFirst_idem {A : Type} (p : A -> bool) (f : A -> A) (l : list A) :
  (forall x, p x = true -> p (f x) = true) ->
  (forall x, f (f x) = f x) ->
  updateFirst p f (updateFirst p f l) = updateFirst p f l.
Proof.
  intros Hp Hf. induction l as [|x l IH]; simpl; [reflexivity|].
  destruct (p x) eqn:Hx; simpl.
  - now rewrite (Hp x Hx), Hf.
  - now rewrite Hx, IH.
Qed.

Lemma find_updateFirst_same {A : Type} (p : A -> bool) (f : A -> A) (l : list A) :
  (forall x, p x = true -> p (f x) = true) ->
  find p (updateFirst p f l) = option_map f (find p l).
Proof.
  intros Hp. induction l as [|x l IH]; simpl; [reflexivity|].
  destruct (p x) eqn:Hx; simpl.
  - now rewrite (Hp x Hx).
  - now rewrite Hx.
Qed.

(** The profile route in full, for an identity that has a profile. *)
Lemma updateProfile_full env auth body st d :
  profileOf (req_userId auth) st = Some d ->
  notANumber body = false ->
  updateProfile env auth body st
  = (mkResponse 200
       (ProfileUpdated "✅ Profile updated successfully"
          (updatedDoctor env body d)
          (if touchesUser body
           then option_map (updatedUser body)
                  (find (fun u => N.eqb (usr_id u) (req_userId auth)) (users st))
           else None)),
     mkStore
       (if touchesUser body
        then updateFirst (fun u => N.eqb (usr_id u) (req_userId auth))
               (updatedUser body) (users st)
        else users st)
       (updateFirst (fun x => N.eqb (doc_id x) (doc_id d))
          (fun _ => updatedDoctor env body d) (doctors st))
       (appointments st) (admins st) (feedbacks st) (consultations st)).
Proof.
  intros Hd Hnan. unfold profileOf in Hd.
  unfold updateProfile. unfold_handler. rewrite Hd. cbn beta iota.
  rewrite notANumber_isNaN, Hnan. cbn beta iota.
  assert (Hdoc :
    mkDoctor (doc_id d) (userId d)
      (assign (pb_specialization body) (specialization d))
      (assign (pb_qualification body) (qualification d))
      (match pb_experience body with Some e => Some e | None => experience d end)
      (match pb_fees body with Some f => Some f | None => fees d end)
      (match option_map (storageFilename env) (pb_file body) with
       | Some filename => Some (String.append "/uploads/" filename)
       | None => profile_pic d
       end)
    = updatedDoctor env body d).
  { unfold updatedDoctor, storageFilename. destruct (pb_file body); reflexivity. }
  rewrite Hdoc.
  assert (Hsame : doc_id (updatedDoctor env body d) = doc_id d) by reflexivity.
  revert Hsame. generalize (updatedDoctor env body d). intros d' Hsame.
  assert (Hsave : forall u,
    find (fun u => N.eqb (usr_id u) (req_userId auth)) (users st) = Some u ->
    updateFirst (fun x => N.eqb (usr_id x) (usr_id u))
      (fun _ => updatedUser body u) (users st)
    = updateFirst (fun u => N.eqb (usr_id u) (req_userId auth))
        (updatedUser body) (users st)).
  { intros u Hu. pose proof (find_some _ _ Hu) as [_ Hid].
    apply N.eqb_eq in Hid. rewrite Hid.
    now apply (updateFirst_const _ (updatedUser body)). }
  unfold touchesUser, updatedUser in *.
  destruct (pb_name body), (pb_email body), (pb_phone body), (pb_address body);
    simpl in *; rewrite ?Hsame;
    try reflexivity;
    (destruct (find (fun u => N.eqb (usr_id u) (req_userId auth)) (users st))
       as [u|] eqn:Hu; simpl;
     [ unfold withUsers; simpl; rewrite <- (Hsave u eq_refl); reflexivity
     | rewrite (updateFirst_none _ _ _ Hu); reflexivity ]).
Qed.

(** A fee that is no number is not saved. *)
Lemma updateProfile_NaN env auth body st d :
  profileOf (req_userId auth) st = Some d ->
  notANumber body = true ->
  updateProfile env auth body st = (mkResponse 500 (Message "Server error"), st).
Proof.
  intros Hd Hnan. unfold profileOf in Hd.
  unfold updateProfile. unfold_handler. rewrite Hd. cbn beta iota.
  rewrite notANumber_isNaN, Hnan. reflexivity.
Qed.

Lemma updateProfile_no_profile env auth body st :
  profileOf (req_userId auth) st = None ->
  updateProfile env auth body st = (NotFoundError "Doctor profile not found", st).
Proof.
  intros Hd. unfold profileOf in Hd. unfold updateProfile. unfold_handler.
  now rewrite Hd.
Qed.

Example profile_fee_not_a_number :
  updateProfile Clinic.later Clinic.asBob
    (mkProfileBody None None None (Some S754_nan) None (Some "Robert") None
       None None)
    Clinic.completed
  = (mkResponse 500 (Message "Server error"), Clinic.completed).
Proof. reflexivity. Qed.

Lemma NoDup_map_eq {A B : Type} (f : A -> B) (l : list A) x y :
  NoDup (map f l) -> In x l -> In y l -> f x = f y -> x = y.
Proof.
  intros Hnd. induction l as [|z l IH]; simpl; [contradiction|].
  inversion Hnd as [|? ? Hnotin Hnd']; subst.
  intros [-> | Hx] [-> | Hy] Heq; auto.
  - exfalso. apply Hnotin. rewrite Heq. now apply in_map.
  - exfalso. apply Hnotin. rewrite <- Heq. now apply in_map.
Qed.

(** X18.  The profile route writes to the profile and the user document of
    the requesting identity and to nothing else: appointments and the other
    collections are untouched, no profile changes its identifier or its
    owner, no user changes identifier or role, and the profiles and users of
    other identities are the same documents as before. *)
Theorem profile_update_frame env auth body st :
  uniqueDoctorIds st ->
  let st' := snd (updateProfile env auth body st) in
  appointments st' = appointments st
  /\ admins st' = admins st /\ feedbacks st' = feedbacks st
  /\ consultations st' = consultations st
  /\ (forall i d, nth_error (doctors st) i = Some d ->
        exists d', nth_error (doctors st') i = Some d'
                   /\ doc_id d' = doc_id d /\ userId d' = userId d
                   /\ (userId d <> req_userId auth -> d' = d))
  /\ (forall i u, nth_error (users st) i = Some u ->
        exists u', nth_error (users st') i = Some u'
                   /\ usr_id u' = usr_id u /\ role u' = role u
                   /\ (usr_id u <> req_userId auth -> u' = u)).
Proof.
  intros Huniq st'. subst st'.
  destruct (profileOf (req_userId auth) st) as [d|] eqn:Hd.
  - destruct (notANumber body) eqn:Hnan.
    { rewrite (updateProfile_NaN env auth body st d Hd Hnan). simpl.
      repeat (split; [reflexivity|]).
      split; intros i x Hx; exists x; auto. }
    rewrite (updateProfile_full env auth body st d Hd Hnan). simpl.
    repeat (split; [reflexivity|]). split.
    + intros i x Hx.
      destruct (nth_error_updateFirst (fun x => N.eqb (doc_id x) (doc_id d))
                  (fun _ => updatedDoctor env body d) _ i x Hx)
        as (x' & Hn & [-> | [Hp ->]]).
      * exists x. auto.
      * exists (updatedDoctor env body d). split; [exact Hn|].
        apply N.eqb_eq in Hp.
        pose proof (find_some _ _ Hd) as [Hin Hown]. apply N.eqb_eq in Hown.
        assert (x = d).
        { apply (NoDup_map_eq doc_id (doctors st)); auto.
          now apply nth_error_In in Hx. }
        subst x. simpl. repeat split; auto. intros Hne. contradiction.
    + intros i u Hu. destruct (touchesUser body); [|exists u; auto].
      destruct (nth_error_updateFirst
                  (fun u => N.eqb (usr_id u) (req_userId auth))
                  (updatedUser body) _ i u Hu)
        as (u' & Hn & [-> | [Hp ->]]).
      * exists u. auto.
      * exists (updatedUser body u). apply N.eqb_eq in Hp. simpl.
        repeat split; auto. intros Hne. contradiction.
  - rewrite (updateProfile_no_profile env auth body st Hd). simpl.
    repeat (split; [reflexivity|]).
    split; intros i x Hx; exists x; auto.
Qed.

(** Dr Bob raises his fee. *)
Lemma profile_update_frame_witness :
  let st' :=
    snd (updateProfile Clinic.later Clinic.asBob Clinic.raiseFee Clinic.completed) in
  appointments st' = appointments Clinic.completed
  /\ admins st' = admins Clinic.completed
  /\ feedbacks st' = feedbacks Clinic.completed
  /\ consultations st' = consultations Clinic.completed
  /\ (forall i d, nth_error (doctors Clinic.completed) i = Some d ->
        exists d', nth_error (doctors st') i = Some d'
                   /\ doc_id d' = doc_id d /\ userId d' = userId d
                   /\ (userId d <> req_userId Clinic.asBob -> d' = d))
  /\ (forall i u, nth_error (users Clinic.completed) i = Some u ->
        exists u', nth_error (users st') i = Some u'
                   /\ usr_id u' = usr_id u /\ role u' = role u
                   /\ (usr_id u <> req_userId Clinic.asBob -> u' = u)).
Proof.
  apply (profile_update_frame Clinic.later Clinic.asBob Clinic.raiseFee
           Clinic.completed).
  unfold uniqueDoctorIds. simpl. repeat constructor. simpl. tauto.
Defined.

Lemma assign_assign {A : Type} (v : option A) (old : A) :
  assign v (assign v old) = assign v old.
Proof. destruct v; reflexivity. Qed.

(** A second form finds what the first has written, but for the name of the
    picture, which is the instant of its upload. *)
Lemma updatedDoctor_again env env' body d :
  pb_file body = None \/ now env' = now env ->
  updatedDoctor env' body (updatedDoctor env body d) = updatedDoctor env body d.
Proof.
  intros H. unfold updatedDoctor. simpl. rewrite !assign_assign.
  destruct H as [H | H]; [rewrite H | rewrite H];
    destruct (pb_experience body), (pb_fees body); try reflexivity;
    destruct (pb_file body); reflexivity.
Qed.

Lemma updatedUser_idem body u :
  updatedUser body (updatedUser body u) = updatedUser body u.
Proof. unfold updatedUser. simpl. now rewrite !assign_assign. Qed.

(** X19.  Sending the same profile form a second time gives the answer of
    the first request and leaves the store as the first made it, when the
    form carries no picture or the two uploads happen at the same instant:
    an uploaded picture is stored under the instant of its upload. *)
Theorem profile_update_idempotent env env' auth body st :
  uniqueDoctorIds st ->
  pb_file body = None \/ now env' = now env ->
  let once := updateProfile env auth body st in
  updateProfile env' auth body (snd once) = (fst once, snd once).
Proof.
  intros Huniq Hfile once. subst once.
  destruct (profileOf (req_userId auth) st) as [d|] eqn:Hd.
  - destruct (notANumber body) eqn:Hnan.
    { rewrite (updateProfile_NaN env auth body st d Hd Hnan). simpl.
      exact (updateProfile_NaN env' auth body st d Hd Hnan). }
    rewrite (updateProfile_full env auth body st d Hd Hnan). simpl fst. simpl snd.
    set (st1 := mkStore _ _ _ _ _ _).
    assert (Hd1 : profileOf (req_userId auth) st1
                  = Some (updatedDoctor env body d)).
    { unfold profileOf. simpl. apply profileOf_updateFirst; auto. }
    rewrite (updateProfile_full env' auth body st1 _ Hd1 Hnan).
    rewrite (updatedDoctor_again env env' body d Hfile).
    simpl users. simpl doctors. simpl appointments.
    simpl admins. simpl feedbacks. simpl consultations.
    change (doc_id (updatedDoctor env body d)) with (doc_id d).
    rewrite (updateFirst_idem (fun x => N.eqb (doc_id x) (doc_id d)))
      by (intros; simpl; auto using N.eqb_refl).
    destruct (touchesUser body); [|reflexivity].
    rewrite find_updateFirst_same by (intros x Hx; exact Hx).
    rewrite (updateFirst_idem _ (updatedUser body))
      by ((intros x Hx; exact Hx) || apply updatedUser_idem).
    destruct (find _ (users st)); simpl; [|reflexivity].
    now rewrite updatedUser_idem.
  - rewrite (updateProfile_no_profile env auth body st Hd). simpl.
    exact (updateProfile_no_profile env' auth body st Hd).
Qed.

(** Dr Bob sends his new fee on 2025-01-16 and again later. *)
Lemma profile_update_idempotent_witness :
  let once :=
    updateProfile Clinic.later Clinic.asBob Clinic.raiseFee Clinic.completed in
  updateProfile (mkEnv 1737000600000 103) Clinic.asBob Clinic.raiseFee (snd once)
  = (fst once, snd once).
Proof.
  apply (profile_update_idempotent Clinic.later (mkEnv 1737000600000 103)
           Clinic.asBob Clinic.raiseFee Clinic.completed).
  - unfold uniqueDoctorIds. simpl. repeat constructor. simpl. tauto.
  - left. reflexivity.
Defined.

(** The same picture sent on 2025-01-16 and ten minutes later is stored
    under two names. *)
Example profile_picture_named_by_the_clock :
  let picture :=
    mkProfileBody None None None None (Some ".png") None None None None in
  let once := updateProfile Clinic.later Clinic.asBob picture Clinic.completed in
  let twice :=
    updateProfile (mkEnv 1737000600000 103) Clinic.asBob picture (snd once) in
  option_map profile_pic (profileOf 2 (snd once))
  = Some (Some "/uploads/1737000000000.png")
  /\ option_map profile_pic (profileOf 2 (snd twice))
     = Some (Some "/uploads/1737000600000.png").
Proof. split; reflexivity. Qed.

(** ** The lists of the doctor and of the patient *)

Lemma dateTimeAscending_total a b :
  dateTimeAscending a b = false -> dateTimeAscending b a = true.
Proof.
  unfold dateTimeAscending. intros H.
  apply orb_false_iff in H. destruct H as [Hlt Heq].
  apply Z.ltb_ge in Hlt.
  destruct (Z.ltb_spec (date b) (date a)) as [Hab|Hab]; [reflexivity|].
  assert (Hd : date a = date b) by lia.
  rewrite Hd, Z.eqb_refl in *. simpl in *.
  destruct (String.leb_total (time a) (time b)); congruence.
Qed.

Lemma dateTimeAscending_listed a b :
  dateTimeAscending a b = true -> listedAscending a b.
Proof.
  unfold dateTimeAscending, listedAscending. intros H.
  apply orb_true_iff in H. destruct H as [H|H].
  - left. now apply Z.ltb_lt.
  - right. apply andb_true_iff in H. destruct H as [H1 H2].
    apply Z.eqb_eq in H1. auto.
Qed.

Lemma sorted_ascending (l : list Appointment) :
  Sorted listedAscending (sortBy dateTimeAscending l).
Proof.
  apply (Sorted_weaken (fun a b => dateTimeAscending a b = true)).
  - apply dateTimeAscending_listed.
  - apply sortBy_sorted. apply dateTimeAscending_total.
Qed.

(** X20.  The list of a doctor shows the appointments of the profile of the
    requesting identity, every one once and no other, earliest date first and
    those of one date by ascending time string; an identity without a profile
    is answered 404; the route writes nothing.  It asks for no role. *)
Theorem doctor_list_is_own auth st :
  let result := doctorAppointments auth st in
  snd result = st
  /\ (profileOf (req_userId auth) st = None ->
      fst result = Refused (NotFoundError "Doctor profile not found"))
  /\ (forall d, profileOf (req_userId auth) st = Some d ->
      exists listed : list Appointment,
        fst result
        = Answered 200
            (page (map (fun a => doctorAppointmentView (populate st a)) listed))
        /\ Permutation listed (appointmentsOf (doc_id d) st)
        /\ Sorted listedAscending listed).
Proof.
  intros result. subst result.
  unfold doctorAppointments. unfold_route.
  fold (profileOf (req_userId auth) st).
  destruct (profileOf (req_userId auth) st) as [d|]; simpl.
  - split; [reflexivity|]. split; [discriminate|].
    intros d' [= <-].
    exists (sortBy dateTimeAscending (appointmentsOf (doc_id d) st)).
    split; [|split].
    + unfold appointmentsOf. now rewrite map_map.
    + apply sortBy_perm.
    + apply sorted_ascending.
  - split; [reflexivity|]. split; [reflexivity | discriminate].
Qed.

(** X21.  The list of a patient shows the appointments whose [user_id] is
    the requesting identity, every one once and no appointment of anyone
    else, in ascending order of date and time; another role is answered 403;
    the route writes nothing. *)
Theorem patient_list_is_own auth st :
  let result := patientAppointments auth st in
  snd result = st
  /\ (userRole auth <> "Patient" ->
      fst result
      = Refused (ForbiddenError "Only patients can access this endpoint"))
  /\ (userRole auth = "Patient" ->
      exists listed : list Appointment,
        fst result
        = Answered 200
            (page (map (fun a => patientAppointmentView (populate st a)) listed))
        /\ Permutation listed (ownAppointments (req_userId auth) st)
        /\ Forall (fun a => user_id a = req_userId auth) listed
        /\ Sorted listedAscending listed).
Proof.
  intros result. subst result.
  unfold patientAppointments. unfold_route.
  destruct (String.eqb_spec (userRole auth) "Patient") as [Hrole|Hrole]; simpl.
  - split; [reflexivity|]. split; [intros H; contradiction|]. intros _.
    exists (sortBy dateTimeAscending (ownAppointments (req_userId auth) st)).
    split; [|split; [|split]].
    + unfold ownAppointments. now rewrite map_map.
    + apply sortBy_perm.
    + apply Forall_forall. intros a Ha.
      apply (Permutation_in a (sortBy_perm dateTimeAscending _)) in Ha.
      unfold ownAppointments in Ha. apply filter_In in Ha.
      now apply N.eqb_eq.
    + apply sorted_ascending.
  - split; [reflexivity|]. split; [reflexivity | intros H; contradiction].
Qed.

(** ** The patient dashboard *)

Local Arguments firstn : simpl never.

Lemma fold_left_jsAdd (f : Populated -> Number) (l : list Populated) z :
  fold_left (fun total p => jsAdd total (f p)) l z
  = fold_left jsAdd (map f l) z.
Proof.
  revert z. induction l as [|x l IH]; intros z; simpl; [reflexivity|].
  apply IH.
Qed.

(** The route reads the fee through [populate]; it is the fee of the first
    profile under the [doctor_id] of the appointment. *)
Lemma feesOf_populate st a : feesOf (populate st a) = billOf st a.
Proof.
  unfold feesOf, populate, billOf. simpl.
  destruct (find _ (doctors st)) as [d|]; [|reflexivity].
  destruct (fees d) as [[]|]; reflexivity.
Qed.

Lemma sumZ_nonneg fs : Forall (fun f => 0 <= f) fs -> 0 <= sumZ fs.
Proof.
  induction 1 as [|f fs Hf _ IH]; unfold sumZ in *; simpl; lia.
Qed.

(** Whole amounts add up exactly as long as the total stays below 2^53. *)
Lemma fold_left_jsAdd_exact fs z :
  0 <= z -> Forall (fun f => 0 <= f) fs -> z + sumZ fs < 2 ^ 53 ->
  fold_left jsAdd (map num fs) (num z) = num (z + sumZ fs).
Proof.
  intros Hz Hfs. revert z Hz.
  induction Hfs as [|f fs Hf Hfs IH]; intros z Hz Hsum.
  - unfold sumZ. simpl. now rewrite Z.add_0_r.
  - pose proof (sumZ_nonneg fs Hfs) as Hr.
    assert (Hs : sumZ (f :: fs) = f + sumZ fs) by reflexivity.
    rewrite Hs in *. cbn [map fold_left].
    rewrite jsAdd_exact by lia. rewrite IH by lia.
    f_equal. lia.
Qed.

Lemma filter_length_le {A : Type} (p q : A -> bool) (l : list A) :
  (forall x, p x = true -> q x = true) ->
  (List.length (List.filter p l) <= List.length (List.filter q l))%nat.
Proof.
  intros H. induction l as [|x l IH]; simpl; [lia|].
  destruct (p x) eqn:Hp.
  - rewrite (H x Hp). simpl. lia.
  - destruct (q x); simpl; lia.
Qed.

Lemma filter_disjoint_length {A : Type} (p q r : A -> bool) (l : list A) :
  (forall x, p x = true -> r x = true) ->
  (forall x, q x = true -> r x = true) ->
  (forall x, p x = true -> q x = false) ->
  (List.length (List.filter p l) + List.length (List.filter q l)
   <= List.length (List.filter r l))%nat.
Proof.
  intros Hp Hq Hpq. induction l as [|x l IH]; simpl; [lia|].
  destruct (p x) eqn:Ep.
  - rewrite (Hpq x Ep), (Hp x Ep). simpl. lia.
  - destruct (q x) eqn:Eq.
    + rewrite (Hq x Eq). simpl. lia.
    + destruct (r x); simpl; lia.
Qed.

(** X22.  The dashboard of a patient who has a user document: the bill is
    the sum, added as JavaScript Numbers from the first appointment on, over
    all the patient's appointments whatever their status, of the fee the
    doctor's profile has now (0 for a missing profile or fee); where these
    fees are whole non-negative amounts with a total below 2^53, it is their
    exact total.  Visits and upcoming appointments are counted among the
    patient's own and never both for one appointment; at most five recent
    appointments are shown; the route writes nothing. *)
Theorem patient_dashboard_totals env auth st u :
  userRole auth = "Patient" ->
  find (fun x => N.eqb (usr_id x) (req_userId auth)) (users st) = Some u ->
  let result := patientDashboard env auth st in
  let own := ownAppointments (req_userId auth) st in
  snd result = st
  /\ exists stats recent,
       fst result
       = Answered 200
           (mkPatientDashboard
              (mkPatientView (Some (usr_id u)) (name u) (email u) (phone u))
              stats recent)
       /\ totalBills stats = jsSum (map (billOf st) own)
       /\ (forall fs : list Z,
             map (billOf st) own = map num fs ->
             Forall (fun f => 0 <= f) fs -> sumZ fs < 2 ^ 53 ->
             totalBills stats = num (sumZ fs))
       /\ (totalVisits stats + ps_upcomingAppointments stats
           <= List.length own)%nat
       /\ (List.length recent <= 5)%nat
       /\ (List.length recent <= List.length own)%nat.
Proof.
  intros Hrole Hu result own. subst result.
  unfold patientDashboard. unfold_route. rewrite Hrole. simpl.
  rewrite Hu. simpl.
  split; [reflexivity|].
  fold (ownAppointments (req_userId auth) st). fold own.
  do 2 eexists. split; [reflexivity|]. simpl.
  rewrite length_map.
  assert (Hbill :
    (if Nat.eqb (List.length own) 0 then num 0
     else fold_left (fun total appt => jsAdd total (feesOf appt))
            (map (populate st) own) (num 0))
    = jsSum (map (billOf st) own)).
  { unfold jsSum. destruct (Nat.eqb_spec (List.length own) 0) as [He|He].
    - apply length_zero_iff_nil in He. now rewrite He.
    - rewrite fold_left_jsAdd, map_map. f_equal.
      apply map_ext. intros a. apply feesOf_populate. }
  split; [exact Hbill|]. split; [|split; [|split]].
  - intros fs Hfs Hpos Hsum. rewrite Hbill, Hfs. unfold jsSum.
    now rewrite fold_left_jsAdd_exact by (auto; lia).
  - destruct (Nat.eqb (List.length own) 0); [simpl; lia|].
    unfold own, ownAppointments.
    apply filter_disjoint_length.
    + intros x Hx. now apply andb_true_iff in Hx.
    + intros x Hx. apply andb_true_iff in Hx. destruct Hx as [Hx _].
      now apply andb_true_iff in Hx.
    + intros x Hx. apply andb_true_iff in Hx. destruct Hx as [_ Hx].
      apply includes_In in Hx.
      destruct (includes ["Pending"; "Confirmed"; "Scheduled"; "Booked"]
                  (status x)) eqn:Hy; [|apply andb_false_r].
      apply includes_In in Hy. exfalso. simpl in Hx, Hy.
      intuition congruence.
  - rewrite length_map. apply firstn_le_length.
  - rewrite length_map, length_firstn, length_map.
    rewrite (Permutation_length (sortBy_perm dateDescending own)). lia.
Qed.

(** Alice's dashboard on 2025-01-16. *)
Lemma patient_dashboard_totals_witness :
  let result :=
    patientDashboard Clinic.later (Clinic.asPatient 1) Clinic.completed in
  let own := ownAppointments 1 Clinic.completed in
  snd result = Clinic.completed
  /\ exists stats recent,
       fst result
       = Answered 200
           (mkPatientDashboard
              (mkPatientView (Some 1%N) "Alice" "alice@example.org" "555-0101")
              stats recent)
       /\ totalBills stats = jsSum (map (billOf Clinic.completed) own)
       /\ (forall fs : list Z,
             map (billOf Clinic.completed) own = map num fs ->
             Forall (fun f => 0 <= f) fs -> sumZ fs < 2 ^ 53 ->
             totalBills stats = num (sumZ fs))
       /\ (totalVisits stats + ps_upcomingAppointments stats
           <= List.length own)%nat
       /\ (List.length recent <= 5)%nat
       /\ (List.length recent <= List.length own)%nat.
Proof.
  apply (patient_dashboard_totals Clinic.later (Clinic.asPatient 1)
           Clinic.completed Clinic.alice).
  - reflexivity.
  - reflexivity.
Defined.

(** Alice's one appointment is billed at Dr Bob's 500.  Her five
    appointments at a fee of 9007199254740990 are billed 45035996273704952,
    two more than their total: the additions round. *)
Example patient_bills :
  option_map (fun d => totalBills (pd_stats d))
    (match fst (patientDashboard Clinic.later (Clinic.asPatient 1)
                  Clinic.completed) with
     | Answered _ d => Some d
     | Refused _ => None
     end)
  = Some (num 500)
  /\ option_map (fun d => totalBills (pd_stats d))
       (match fst (patientDashboard Clinic.later (Clinic.asPatient 1)
                     Clinic.fiveDone) with
        | Answered _ d => Some d
        | Refused _ => None
        end)
     = Some (num 45035996273704952).
Proof. split; vm_compute; reflexivity. Qed.

(** ** The admin dashboard *)

Lemma count_cons {A : Type} (p : A -> bool) (x : A) (l : list A) :
  List.length (List.filter p (x :: l))
  = ((if p x then 1 else 0) + List.length (List.filter p l))%nat.
Proof. simpl. destruct (p x); reflexivity. Qed.

Lemma one_counter (a : Appointment) :
  ((if hasStatus "Pending" a then 1 else 0)
   + (if hasStatus "Confirmed" a then 1 else 0)
   + (if hasStatus "Completed" a then 1 else 0)
   + (if hasStatus "Cancelled" a then 1 else 0)
   + (if hasStatus "Expired" a then 1 else 0)
   + (if negb (includes countedStatuses (status a)) then 1 else 0) = 1)%nat.
Proof.
  unfold hasStatus.
  destruct (includes countedStatuses (status a)) eqn:Hi.
  - apply includes_In in Hi. simpl in Hi.
    destruct Hi as [H | [H | [H | [H | [H | []]]]]]; rewrite <- H; reflexivity.
  - assert (Hn : forall s, In s countedStatuses ->
                           String.eqb (status a) s = false).
    { intros s Hs. apply String.eqb_neq. intros Heq.
      rewrite <- Heq in Hs. apply includes_In in Hs. congruence. }
    rewrite !Hn by (simpl; auto 10). reflexivity.
Qed.

Lemma counters_sum (l : list Appointment) :
  (List.length (List.filter (hasStatus "Pending") l)
   + List.length (List.filter (hasStatus "Confirmed") l)
   + List.length (List.filter (hasStatus "Completed") l)
   + List.length (List.filter (hasStatus "Cancelled") l)
   + List.length (List.filter (hasStatus "Expired") l)
   + List.length
       (List.filter (fun a => negb (includes countedStatuses (status a))) l)
   = List.length l)%nat.
Proof.
  induction l as [|a l IH]; [reflexivity|].
  rewrite !count_cons. pose proof (one_counter a). simpl List.length. lia.
Qed.

(** X23.  The dashboard of an admin: the five status counters and the
    number of appointments with any other status ([Rejected] among them)
    add up to [totalAppointments], which is the number of stored
    appointments; patients and doctors are counted among the users by role;
    at most five recent appointments are shown; the route writes nothing. *)
Theorem admin_dashboard_counters auth st :
  userRole auth = "Admin" ->
  let result := adminDashboard auth st in
  snd result = st
  /\ exists dash,
       fst result = Answered 200 dash
       /\ totalAppointments (ad_stats dash) = List.length (appointments st)
       /\ (pendingAppointments (ad_stats dash)
           + confirmedAppointments (ad_stats dash)
           + completedAppointments (ad_stats dash)
           + cancelledAppointments (ad_stats dash)
           + expiredAppointments (ad_stats dash)
           + List.length
               (List.filter
                  (fun a => negb (includes countedStatuses (status a)))
                  (appointments st))
           = totalAppointments (ad_stats dash))%nat
       /\ (totalUsers (ad_stats dash) + totalDoctors (ad_stats dash)
           <= List.length (users st))%nat
       /\ (List.length (ad_recentAppointments dash) <= 5)%nat.
Proof.
  intros Hrole result. subst result.
  unfold adminDashboard, isAdmin. unfold_route. rewrite Hrole. simpl.
  assert (Hroles : (List.length (List.filter (hasRole "Patient") (users st))
                    + List.length (List.filter (hasRole "Doctor") (users st))
                    <= List.length (users st))%nat).
  { rewrite <- (filter_all (users st)) at 3.
    apply filter_disjoint_length; try reflexivity.
    intros u Hu. unfold hasRole in *. apply String.eqb_eq in Hu.
    now rewrite Hu. }
  destruct (find (fun a => N.eqb (adm_user_id a) (req_userId auth)) (admins st));
    simpl.
  all: split; [reflexivity|]; eexists; split; [reflexivity|]; simpl.
  all: rewrite filter_all; split; [reflexivity|]; split; [|split].
  all: try apply counters_sum; try exact Hroles.
  all: rewrite length_map; apply firstn_le_length.
Qed.

(** The dashboard of the admin of the clinic. *)
Lemma admin_dashboard_counters_witness :
  let result := adminDashboard Clinic.asAdmin Clinic.completed in
  snd result = Clinic.completed
  /\ exists dash,
       fst result = Answered 200 dash
       /\ totalAppointments (ad_stats dash)
          = List.length (appointments Clinic.completed)
       /\ (pendingAppointments (ad_stats dash)
           + confirmedAppointments (ad_stats dash)
           + completedAppointments (ad_stats dash)
           + cancelledAppointments (ad_stats dash)
           + expiredAppointments (ad_stats dash)
           + List.length
               (List.filter
                  (fun a => negb (includes countedStatuses (status a)))
                  (appointments Clinic.completed))
           = totalAppointments (ad_stats dash))%nat
       /\ (totalUsers (ad_stats dash) + totalDoctors (ad_stats dash)
           <= List.length (users Clinic.completed))%nat
       /\ (List.length (ad_recentAppointments dash) <= 5)%nat.
Proof.
  apply (admin_dashboard_counters Clinic.asAdmin Clinic.completed).
  reflexivity.
Defined.

(** ** The counters of the doctor dashboard *)

Lemma nodup_length_le (l : list ObjectId) :
  (List.length (nodup N.eq_dec l) <= List.length l)%nat.
Proof.
  induction l as [|x l IH]; simpl; [lia|].
  destruct (in_dec N.eq_dec x l); simpl; lia.
Qed.

Lemma nodup_nil (l : list ObjectId) : nodup N.eq_dec l = [] -> l = [].
Proof.
  induction l as [|x l IH]; simpl; [reflexivity|].
  destruct (in_dec N.eq_dec x l) as [Hin|Hin]; [|discriminate].
  intros H. apply IH in H. subst l. contradiction.
Qed.

(** X24.  The dashboard of a doctor writes nothing, answers 404 to an
    identity without a profile, and its counters are counts among the
    appointments of the profile: none exceeds their number, and the patients
    are counted once each, so that [totalPatients] is zero only when the
    doctor has no appointment. *)
Theorem doctor_dashboard_counters setHours env auth st :
  let result := doctorDashboard setHours env auth st in
  snd result = st
  /\ (profileOf (req_userId auth) st = None ->
      fst result = NotFoundError "Doctor profile not found")
  /\ (forall d, profileOf (req_userId auth) st = Some d ->
      let n := List.length (appointmentsOf (doc_id d) st) in
      exists doctor stats,
        fst result = mkResponse 200 (Dashboard doctor stats)
        /\ (todayAppointments stats <= n)%nat
        /\ (upcomingAppointments stats <= n)%nat
        /\ (totalPatients stats <= n)%nat
        /\ (totalPatients stats = O <-> n = O)
        /\ (Z.to_nat (completedCount (doc_id d) (appointments st)) <= n)%nat).
Proof.
  intros result. subst result.
  unfold doctorDashboard. unfold_handler.
  fold (profileOf (req_userId auth) st).
  destruct (profileOf (req_userId auth) st) as [d|]; simpl.
  - split; [reflexivity|]. split; [discriminate|].
    intros d' [= <-]. do 2 eexists. split; [reflexivity|]. simpl.
    fold (appointmentsOf (doc_id d) st).
    unfold appointmentsOf.
    split; [|split; [|split; [|split]]].
    + apply filter_length_le. intros x Hx.
      repeat (apply andb_true_iff in Hx; destruct Hx as [Hx _]). exact Hx.
    + apply filter_length_le. intros x Hx.
      repeat (apply andb_true_iff in Hx; destruct Hx as [Hx _]). exact Hx.
    + etransitivity; [apply nodup_length_le|]. now rewrite length_map.
    + split.
      * intros H. apply length_zero_iff_nil in H. apply nodup_nil in H.
        apply map_eq_nil in H. now rewrite H.
      * intros H. apply length_zero_iff_nil in H. now rewrite H.
    + unfold completedCount. rewrite Nat2Z.id.
      apply filter_length_le. intros x Hx.
      now apply andb_true_iff in Hx.
  - split; [reflexivity|]. split; [reflexivity | discriminate].
Qed.

(** ** Making and removing admins *)

Lemma roleOf_withRole U r st l :
  userExists U st ->
  l = users st ->
  option_map role (find (fun u => N.eqb (usr_id u) U) (withRole U r l)) = Some r.
Proof.
  intros Hex ->. unfold withRole, userExists in *.
  rewrite find_updateFirst_same by (intros x Hx; exact Hx).
  destruct (find _ (users st)); [reflexivity | contradiction].
Qed.

Lemma withRole_withRole U r r' l :
  withRole U r' (withRole U r l) = withRole U r' l.
Proof.
  unfold withRole. induction l as [|x l IH]; simpl; [reflexivity|].
  destruct (N.eqb (usr_id x) U) eqn:Hx; simpl.
  - now rewrite Hx.
  - now rewrite Hx, IH.
Qed.

Lemma createAdmin_run valid env auth U requested st :
  userRole auth = "Admin" ->
  createAdmin valid env auth U requested st
  = match find (fun u => N.eqb (usr_id u) U) (users st) with
    | None => (Refused (NotFoundError "User not found"), st)
    | Some _ =>
        match adminOf U st with
        | Some _ => (Refused (ValidationError "User is already an admin"), st)
        | None =>
            let perms :=
              match requested with Some l => l | None => defaultPermissions end in
            if valid perms
               && negb (existsb (fun x => N.eqb (adm_id x) (newId env)) (admins st))
            then
              (Answered 200
                 (mkCreatedAdmin "Admin created successfully" (newId env) U perms),
               mkStore (withRole U "Admin" (users st)) (doctors st)
                 (appointments st) (admins st ++ [mkAdmin (newId env) U perms])
                 (feedbacks st) (consultations st))
            else (Refused (mkResponse 500 (Message "Server error")), st)
        end
    end.
Proof.
  intros Hrole. unfold createAdmin, isAdmin, adminOf. unfold_route.
  rewrite Hrole. simpl.
  destruct (find _ (users st)); simpl; [|reflexivity].
  destruct (find _ (admins st)); simpl; [reflexivity|].
  destruct (valid _ && _); reflexivity.
Qed.

(** X25.  Making a user an admin: a user that does not exist is answered
    404 and one that has an admin record 400, and nothing is written;
    otherwise, with permissions the schema accepts (the four default ones
    when the request names none), one admin record for the user is added and
    the user's role becomes Admin, whatever it was; doctors, appointments
    and the other collections are untouched. *)
Theorem create_admin valid env auth U requested st :
  userRole auth = "Admin" ->
  let result := createAdmin valid env auth U requested st in
  let perms :=
    match requested with Some l => l | None => defaultPermissions end in
  (~ userExists U st -> result = (Refused (NotFoundError "User not found"), st))
  /\ (userExists U st -> adminOf U st <> None ->
      result = (Refused (ValidationError "User is already an admin"), st))
  /\ (userExists U st -> adminOf U st = None ->
      valid perms = true -> freshAdminId (newId env) st ->
      fst result
      = Answered 200
          (mkCreatedAdmin "Admin created successfully" (newId env) U perms)
      /\ admins (snd result) = admins st ++ [mkAdmin (newId env) U perms]
      /\ adminOf U (snd result) = Some (mkAdmin (newId env) U perms)
      /\ users (snd result) = withRole U "Admin" (users st)
      /\ roleOf U (snd result) = Some "Admin"
      /\ sameButUsersAndAdmins st (snd result)).
Proof.
  intros Hrole result perms. subst result.
  rewrite (createAdmin_run valid env auth U requested st Hrole).
  unfold userExists. fold perms.
  destruct (find _ (users st)) as [u|] eqn:Hu.
  - split; [intros H; exfalso; apply H; discriminate|].
    destruct (adminOf U st) as [a|] eqn:Ha.
    + split; [reflexivity|]. intros _ H. discriminate.
    + split; [intros _ H; contradiction|].
      intros _ _ Hv Hf. cbv zeta. fold perms.
      unfold freshAdminId in Hf. rewrite Hv, Hf. simpl.
      split; [reflexivity|]. split; [reflexivity|]. split.
      { unfold adminOf. simpl. apply find_app_last; [exact Ha|].
        simpl. apply N.eqb_refl. }
      split; [reflexivity|]. split.
      { unfold roleOf. simpl. apply (roleOf_withRole U "Admin" st); auto.
        unfold userExists. rewrite Hu. discriminate. }
      repeat split.
  - split; [reflexivity|]. split; intros H; exfalso; apply H; reflexivity.
Qed.

(** The admin of the clinic makes Dr Bob an admin. *)
Lemma create_admin_witness :
  let result :=
    createAdmin (fun _ => true) Clinic.later Clinic.asAdmin 2 None
      Clinic.completed in
  let perms := defaultPermissions in
  (~ userExists 2 Clinic.completed ->
   result = (Refused (NotFoundError "User not found"), Clinic.completed))
  /\ (userExists 2 Clinic.completed -> adminOf 2 Clinic.completed <> None ->
      result
      = (Refused (ValidationError "User is already an admin"), Clinic.completed))
  /\ (userExists 2 Clinic.completed -> adminOf 2 Clinic.completed = None ->
      (fun _ : list string => true) perms = true ->
      freshAdminId (newId Clinic.later) Clinic.completed ->
      fst result
      = Answered 200
          (mkCreatedAdmin "Admin created successfully" (newId Clinic.later) 2
             perms)
      /\ admins (snd result)
         = admins Clinic.completed ++ [mkAdmin (newId Clinic.later) 2 perms]
      /\ adminOf 2 (snd result) = Some (mkAdmin (newId Clinic.later) 2 perms)
      /\ users (snd result) = withRole 2 "Admin" (users Clinic.completed)
      /\ roleOf 2 (snd result) = Some "Admin"
      /\ sameButUsersAndAdmins Clinic.completed (snd result)).
Proof.
  apply (create_admin (fun _ => true) Clinic.later Clinic.asAdmin 2 None
           Clinic.completed).
  reflexivity.
Defined.

Lemma deleteAdmin_run auth id st :
  userRole auth = "Admin" ->
  deleteAdmin auth id st
  = match find (fun a => N.eqb (adm_id a) id) (admins st) with
    | None => (NotFoundError "Admin not found", st)
    | Some a =>
        (mkResponse 200 (Message "Admin removed successfully"),
         mkStore (withRole (adm_user_id a) "Patient" (users st)) (doctors st)
           (appointments st)
           (removeFirst (fun a => N.eqb (adm_id a) id) (admins st))
           (feedbacks st) (consultations st))
    end.
Proof.
  intros Hrole. unfold deleteAdmin, isAdmin. unfold_route.
  rewrite Hrole. simpl.
  destruct (find _ (admins st)) eqn:Hf; simpl; [reflexivity|].
  rewrite (removeFirst_none _ _ Hf). destruct st; reflexivity.
Qed.

(** X26.  Removing an admin: an identifier no admin record has is answered
    404 and nothing is written; otherwise the record is removed, one record
    fewer is stored, and the role of its user becomes Patient; doctors,
    appointments and the other collections are untouched. *)
Theorem delete_admin auth id st :
  userRole auth = "Admin" ->
  let result := deleteAdmin auth id st in
  (find (fun a => N.eqb (adm_id a) id) (admins st) = None ->
   result = (NotFoundError "Admin not found", st))
  /\ (forall a, find (fun a => N.eqb (adm_id a) id) (admins st) = Some a ->
      fst result = mkResponse 200 (Message "Admin removed successfully")
      /\ admins (snd result)
         = removeFirst (fun a => N.eqb (adm_id a) id) (admins st)
      /\ (List.length (admins (snd result)) + 1 = List.length (admins st))%nat
      /\ users (snd result) = withRole (adm_user_id a) "Patient" (users st)
      /\ (userExists (adm_user_id a) st ->
          roleOf (adm_user_id a) (snd result) = Some "Patient")
      /\ sameButUsersAndAdmins st (snd result)).
Proof.
  intros Hrole result. subst result.
  rewrite (deleteAdmin_run auth id st Hrole). split.
  - intros Hn. now rewrite Hn.
  - intros a Ha. rewrite Ha. simpl.
    split; [reflexivity|]. split; [reflexivity|]. split.
    { now apply (removeFirst_length _ _ a). }
    split; [reflexivity|]. split.
    { intros Hex. unfold roleOf. simpl.
      now apply (roleOf_withRole _ "Patient" st). }
    repeat split.
Qed.

(** The admin record of Root is removed. *)
Lemma delete_admin_witness :
  let result := deleteAdmin Clinic.asAdmin 50 Clinic.completed in
  (find (fun a => N.eqb (adm_id a) 50) (admins Clinic.completed) = None ->
   result = (NotFoundError "Admin not found", Clinic.completed))
  /\ (forall a,
        find (fun a => N.eqb (adm_id a) 50) (admins Clinic.completed) = Some a ->
        fst result = mkResponse 200 (Message "Admin removed successfully")
        /\ admins (snd result)
           = removeFirst (fun a => N.eqb (adm_id a) 50) (admins Clinic.completed)
        /\ (List.length (admins (snd result)) + 1
            = List.length (admins Clinic.completed))%nat
        /\ users (snd result)
           = withRole (adm_user_id a) "Patient" (users Clinic.completed)
        /\ (userExists (adm_user_id a) Clinic.completed ->
            roleOf (adm_user_id a) (snd result) = Some "Patient")
        /\ sameButUsersAndAdmins Clinic.completed (snd result)).
Proof.
  apply (delete_admin Clinic.asAdmin 50 Clinic.completed).
  reflexivity.
Defined.

Lemma removeFirst_app_fresh {A : Type} (p : A -> bool) (l : list A) (x : A) :
  existsb p l = false -> p x = true -> removeFirst p (l ++ [x]) = l.
Proof.
  intros Hl Hx. induction l as [|y l IH]; simpl in *.
  - now rewrite Hx.
  - apply orb_false_iff in Hl. destruct Hl as [Hy Hl].
    rewrite Hy. now rewrite IH.
Qed.

Lemma find_app_fresh {A : Type} (p : A -> bool) (l : list A) (x : A) :
  existsb p l = false -> p x = true -> find p (l ++ [x]) = Some x.
Proof.
  intros Hl Hx. apply find_app_last; [|exact Hx].
  destruct (find p l) eqn:Hf; [|reflexivity].
  apply find_some in Hf.
  assert (existsb p l = true) by (apply existsb_exists; eauto). congruence.
Qed.

(** X27.  Making a user an admin and removing that admin record again does
    not bring the user back: the admin collection is as it was, and the
    user's role is Patient, whatever it was before (a doctor made admin and
    removed again is a patient); no other user and no other collection has
    changed. *)
Theorem admin_round_trip valid env auth U requested st :
  userRole auth = "Admin" ->
  userExists U st ->
  adminOf U st = None ->
  valid (match requested with Some l => l | None => defaultPermissions end)
  = true ->
  freshAdminId (newId env) st ->
  let st1 := snd (createAdmin valid env auth U requested st) in
  let result := deleteAdmin auth (newId env) st1 in
  fst result = mkResponse 200 (Message "Admin removed successfully")
  /\ admins (snd result) = admins st
  /\ users (snd result) = withRole U "Patient" (users st)
  /\ roleOf U (snd result) = Some "Patient"
  /\ (forall u, In u (users st) -> usr_id u <> U -> In u (users (snd result)))
  /\ sameButUsersAndAdmins st (snd result).
Proof.
  intros Hrole Hex Hno Hv Hf st1 result. subst result st1.
  rewrite (createAdmin_run valid env auth U requested st Hrole).
  unfold userExists in Hex.
  destruct (find _ (users st)) as [u|] eqn:Hu; [|contradiction].
  rewrite Hno. cbv zeta. unfold freshAdminId in Hf. rewrite Hv, Hf. simpl snd.
  rewrite deleteAdmin_run by exact Hrole. simpl admins.
  rewrite find_app_fresh by (auto; simpl; apply N.eqb_refl).
  simpl.
  rewrite removeFirst_app_fresh by (auto; simpl; apply N.eqb_refl).
  rewrite withRole_withRole.
  split; [reflexivity|]. split; [reflexivity|]. split; [reflexivity|]. split.
  { unfold roleOf. simpl. apply (roleOf_withRole U "Patient" st); auto.
    unfold userExists. rewrite Hu. discriminate. }
  split; [|repeat split].
  intros x Hin Hne. unfold withRole.
  clear - Hin Hne. induction (users st) as [|y l IH]; simpl in *; [contradiction|].
  destruct (N.eqb_spec (usr_id y) U) as [Hy|Hy].
  - destruct Hin as [-> | Hin]; [contradiction|]. now right.
  - destruct Hin as [-> | Hin]; [now left|]. right. auto.
Qed.

(** Dr Bob is made an admin and removed again: he is a patient. *)
Lemma admin_round_trip_witness :
  let st1 :=
    snd (createAdmin (fun _ => true) Clinic.later Clinic.asAdmin 2 None
           Clinic.completed) in
  let result := deleteAdmin Clinic.asAdmin (newId Clinic.later) st1 in
  fst result = mkResponse 200 (Message "Admin removed successfully")
  /\ admins (snd result) = admins Clinic.completed
  /\ users (snd result) = withRole 2 "Patient" (users Clinic.completed)
  /\ roleOf 2 (snd result) = Some "Patient"
  /\ (forall u, In u (users Clinic.completed) -> usr_id u <> 2%N ->
                In u (users (snd result)))
  /\ sameButUsersAndAdmins Clinic.completed (snd result).
Proof.
  apply (admin_round_trip (fun _ => true) Clinic.later Clinic.asAdmin 2 None
           Clinic.completed).
  - reflexivity.
  - discriminate.
  - reflexivity.
  - reflexivity.
  - reflexivity.
Defined.

(** ** The checks of the admin booking *)

(** X28.  The admin booking checks its request in this order and writes
    nothing when a check fails: a missing user, doctor, date or time (an
    empty time included) is answered 400; then a user that does not exist is
    answered 404 "User not found", whether or not the doctor exists; then a
    doctor that does not exist is answered 404 "Doctor not found". *)
Theorem admin_booking_rejections env auth body st :
  userRole auth = "Admin" ->
  let result := adminCreateAppointment env auth body st in
  (body_user_id body = None \/ body_doctor_id body = None
   \/ body_date body = None \/ truthy (body_time body) = false ->
   result
   = (ValidationError "User ID, Doctor ID, date, and time are required", st))
  /\ (forall U D,
        body_user_id body = Some U -> body_doctor_id body = Some D ->
        body_date body <> None -> truthy (body_time body) = true ->
        (~ userExists U st -> result = (NotFoundError "User not found", st))
        /\ (userExists U st -> ~ doctorExists D st ->
            result = (NotFoundError "Doctor not found", st))).
Proof.
  intros Hrole result. subst result.
  unfold adminCreateAppointment, isAdmin. unfold_handler. rewrite Hrole. simpl.
  split.
  - intros [H | [H | [H | H]]].
    + now rewrite H.
    + rewrite H. destruct (body_user_id body); reflexivity.
    + rewrite H. destruct (body_user_id body), (body_doctor_id body); reflexivity.
    + apply nonEmpty_None in H. rewrite H.
      destruct (body_user_id body), (body_doctor_id body), (body_date body);
        reflexivity.
  - intros U D HU HD Hdate Htime. rewrite HU, HD. simpl.
    destruct (body_date body) as [T|]; [|contradiction]. simpl.
    destruct (nonEmpty (body_time body)) as [S|] eqn:Hn.
    2:{ apply nonEmpty_None in Hn. congruence. }
    simpl. unfold userExists, doctorExists. split.
    + intros Hu. destruct (find _ (users st)); [|reflexivity].
      exfalso. apply Hu. discriminate.
    + intros Hu Hd. destruct (find _ (users st)); [|contradiction]. simpl.
      destruct (find _ (doctors st)); [|reflexivity].
      exfalso. apply Hd. discriminate.
Qed.

(** The admin books a user and a doctor that do not exist. *)
Lemma admin_booking_rejections_witness :
  let body :=
    mkBody (Some 98%N) (Some 99%N) (Some Clinic.jan10) (Some "10:00 AM")
      None None None in
  let result :=
    adminCreateAppointment Clinic.env1 Clinic.asAdmin body Clinic.empty in
  (body_user_id body = None \/ body_doctor_id body = None
   \/ body_date body = None \/ truthy (body_time body) = false ->
   result
   = (ValidationError "User ID, Doctor ID, date, and time are required",
      Clinic.empty))
  /\ (forall U D,
        body_user_id body = Some U -> body_doctor_id body = Some D ->
        body_date body <> None -> truthy (body_time body) = true ->
        (~ userExists U Clinic.empty ->
         result = (NotFoundError "User not found", Clinic.empty))
        /\ (userExists U Clinic.empty -> ~ doctorExists D Clinic.empty ->
            result = (NotFoundError "Doctor not found", Clinic.empty))).
Proof.
  apply (admin_booking_rejections Clinic.env1 Clinic.asAdmin
           (mkBody (Some 98%N) (Some 99%N) (Some Clinic.jan10) (Some "10:00 AM")
              None None None)
           Clinic.empty).
  reflexivity.
Defined.

(** ** What deleting a user leaves behind *)

(** X29.  Deleting the user of a doctor leaves the doctor side in place: the
    profile is still found, the appointments other patients have with it are
    all still stored, and the admin list shows them with the doctor's name
    "Unknown". *)
Theorem deleted_doctor_user_leaves_profile auth U st d :
  userRole auth = "Admin" ->
  userExists U st ->
  uniqueUserIds st ->
  find (fun x => N.eqb (doc_id x) (doc_id d)) (doctors st) = Some d ->
  userId d = U ->
  let st' := snd (deleteUser auth U st) in
  doctorExists (doc_id d) st'
  /\ appointmentsOf (doc_id d) st'
     = List.filter (fun a => negb (N.eqb (user_id a) U))
         (appointmentsOf (doc_id d) st)
  /\ (forall a, doctor_id a = doc_id d ->
                dv_name (av_doctor (adminView (populate st' a))) = "Unknown"
                /\ dv_id (av_doctor (adminView (populate st' a)))
                   = Some (doc_id d)).
Proof.
  intros Hrole Hex Huniq Hd HU st'. subst st'.
  rewrite (deleteUser_run auth U st Hrole Hex). simpl.
  split; [|split].
  - unfold doctorExists. simpl. rewrite Hd. discriminate.
  - unfold appointmentsOf. simpl.
    induction (appointments st) as [|a l IH]; simpl; [reflexivity|].
    destruct (N.eqb (user_id a) U) eqn:E1;
      destruct (N.eqb (doctor_id a) (doc_id d)) eqn:E2;
      simpl; rewrite ?E1, ?E2; simpl; rewrite ?IH; reflexivity.
  - intros a Ha. unfold adminView, populate. simpl. rewrite Ha, Hd. simpl.
    rewrite HU, removeFirst_unique by exact Huniq. split; reflexivity.
Qed.

(** The clinic where Carol is booked with Dr Bob, whose user the admin
    deletes. *)
Lemma deleted_doctor_user_leaves_profile_witness :
  let st' := snd (deleteUser Clinic.asAdmin 2 Clinic.completed) in
  doctorExists (doc_id Clinic.bobProfile) st'
  /\ appointmentsOf (doc_id Clinic.bobProfile) st'
     = List.filter (fun a => negb (N.eqb (user_id a) 2))
         (appointmentsOf (doc_id Clinic.bobProfile) Clinic.completed)
  /\ (forall a, doctor_id a = doc_id Clinic.bobProfile ->
                dv_name (av_doctor (adminView (populate st' a))) = "Unknown"
                /\ dv_id (av_doctor (adminView (populate st' a)))
                   = Some (doc_id Clinic.bobProfile)).
Proof.
  apply (deleted_doctor_user_leaves_profile Clinic.asAdmin 2 Clinic.completed
           Clinic.bobProfile).
  - reflexivity.
  - discriminate.
  - unfold uniqueUserIds. simpl.
    repeat constructor; simpl; intuition discriminate.
  - reflexivity.
  - reflexivity.
Defined.
